(** * Procurement workflow: guardrails, RFP generation, delivery and the
    workflow graph, embedded from the Python sources.

    Layout of the development:
    - [PyStr]      : the string operations the sources use (lower, [in], replace);
    - [Re]         : a backtracking matcher with the priorities of Python's [re];
    - [PyFloat]    : [float(str)] on decimal literals, rounded to binary64;
    - models       : [models/request.py], [models/rfp.py];
    - [Settings]   : [config/settings.py];
    - [PyFormat]   : JSON values and [str.format];
    - the store    : shared objects, the outside capabilities, the monad;
    - agents       : [agents/*.py], [api/email_service.py];
    - workflow     : [workflows/procurement_workflow.py] and the run of its graph;
    - properties   : the lemmas and the theorems on the above.

    A Python [str] is held as the bytes of its UTF-8 encoding, which is what
    a string literal of this file is.  [re] and [float] read characters:
    the matcher and the number parser decode the bytes into code points, and
    their classes are the ones of Python on [str] ([\s], [\d] and
    [re.IGNORECASE] reach beyond ASCII).  [str.lower] is modelled on the
    letters A-Z, the bytes of every other character are kept. *)

From Stdlib Require Import ZArith Bool Ascii Lia.
From Stdlib Require Import Floats.SpecFloat.
From stdpp Require Import base option list strings gmap.

Local Open Scope Z_scope.

(* ===================================================================== *)
(** ** Python string operations *)
(* ===================================================================== *)

Module PyStr.

Definition code (c : ascii) : N := N_of_ascii c.

(** A continuation byte of UTF-8, [10xxxxxx], and the six bits it carries. *)
Definition continuation (c : ascii) : bool :=
  ((128 <=? code c) && (code c <=? 191))%N.

Definition payload (c : ascii) : N := (code c - 128)%N.

(** The first character of [s], as its code point, and what follows it;
    [None] at the end of [s], and where the bytes at the head of [s] are not
    the encoding of a character (a stray continuation byte, a truncated or
    an overlong sequence), which the encoding of a [str] never has. *)
Definition uncons (s : string) : option (N * string) :=
  match s with
  | EmptyString => None
  | String b0 s1 =>
      let n0 := code b0 in
      if (n0 <? 128)%N then Some (n0, s1)
      else if (n0 <? 192)%N then None
      else if (n0 <? 224)%N then
        match s1 with
        | String b1 s2 =>
            let x := ((n0 - 192) * 64 + payload b1)%N in
            if continuation b1 && (128 <=? x)%N then Some (x, s2) else None
        | _ => None
        end
      else if (n0 <? 240)%N then
        match s1 with
        | String b1 (String b2 s3) =>
            let x := (((n0 - 224) * 64 + payload b1) * 64 + payload b2)%N in
            if continuation b1 && continuation b2 && (2048 <=? x)%N
            then Some (x, s3) else None
        | _ => None
        end
      else if (n0 <? 248)%N then
        match s1 with
        | String b1 (String b2 (String b3 s4)) =>
            let x :=
              ((((n0 - 240) * 64 + payload b1) * 64 + payload b2) * 64
               + payload b3)%N in
            if continuation b1 && continuation b2 && continuation b3
               && (65536 <=? x)%N && (x <=? 1114111)%N
            then Some (x, s4) else None
        | _ => None
        end
      else None
  end.

(** The characters of [s], as code points; [None] when [s] is not the
    encoding of a text. *)
Fixpoint code_points_from (fuel : nat) (s : string) : option (list N) :=
  match s with
  | EmptyString => Some []
  | String _ _ =>
      match fuel with
      | O => None
      | S fuel' =>
          match uncons s with
          | Some (x, s') => cons x <$> code_points_from fuel' s'
          | None => None
          end
      end
  end.

Definition code_points (s : string) : option (list N) :=
  code_points_from (String.length s) s.

Definition is_upper (c : ascii) : bool :=
  ((65 <=? code c) && (code c <=? 90))%N.

(** [str.lower()] on one character: [A-Z] is shifted by 32. *)
Definition lower_char (c : ascii) : ascii :=
  if is_upper c then ascii_of_N (code c + 32) else c.

(** [s.lower()] *)
Fixpoint lower (s : string) : string :=
  match s with
  | EmptyString => EmptyString
  | String c s' => String (lower_char c) (lower s')
  end.

(** [s.startswith(p)] *)
Fixpoint startswith (p s : string) : bool :=
  match p, s with
  | EmptyString, _ => true
  | String a p', String b s' => if Ascii.eqb a b then startswith p' s' else false
  | String _ _, EmptyString => false
  end.

(** [needle in hay] *)
Fixpoint contains (needle hay : string) : bool :=
  startswith needle hay ||
  match hay with
  | EmptyString => false
  | String _ hay' => contains needle hay'
  end.

(** [s.replace(",", "")]: every occurrence of one character is dropped. *)
Fixpoint remove_char (x : ascii) (s : string) : string :=
  match s with
  | EmptyString => EmptyString
  | String c s' =>
      if Ascii.eqb c x then remove_char x s' else String c (remove_char x s')
  end.

Fixpoint drop (n : nat) (s : string) : string :=
  match n, s with
  | O, _ => s
  | S n', String _ s' => drop n' s'
  | S _, EmptyString => EmptyString
  end.

Fixpoint take (n : nat) (s : string) : string :=
  match n, s with
  | S n', String c s' => String c (take n' s')
  | _, _ => EmptyString
  end.

End PyStr.

(* ===================================================================== *)
(** ** A backtracking regular-expression matcher

    The four budget patterns use literals, character classes, greedy [*],
    [+], [?], the lazy [*?], alternation and one capturing group.  The matcher
    below explores the alternatives in the order Python's [re] does, so the
    first success it reports is the match [re] reports. *)
(* ===================================================================== *)

Module Re.

Inductive regex : Type :=
| Lit (c : ascii)                (* an ASCII literal, compared modulo case *)
| Class (p : N -> bool)          (* \d, \s, [\d,], . on code points *)
| Seq (r1 r2 : regex)
| Alt (r1 r2 : regex)
| Opt (r : regex)                (* r?  *)
| Star (r : regex)               (* r*  *)
| Plus (r : regex)               (* r+  *)
| LazyStar (r : regex)           (* r*? *)
| Group (r : regex).             (* ( r ), group 1 *)

(** The decimal digits of the character database (category Nd, Unicode
    14.0 as in CPython 3.11): each script has its ten digits in a row, from
    zero to nine; the list holds the code point of each zero, the ASCII one
    first. *)
Definition decimal_starts : list N :=
  [48; 1632; 1776; 1984; 2406; 2534; 2662; 2790; 2918; 3046; 3174; 3302;
   3430; 3558; 3664; 3792; 3872; 4160; 4240; 6112; 6160; 6470; 6608;
   6784; 6800; 6992; 7088; 7232; 7248; 42528; 43216; 43264; 43472;
   43504; 43600; 44016; 65296; 66720; 68912; 69734; 69872; 69942; 70096;
   70384; 70736; 70864; 71248; 71360; 71472; 71904; 72016; 72784; 73040;
   73120; 92768; 92864; 93008; 120782; 120792; 120802; 120812; 120822;
   123200; 123632; 125264; 130032]%N.

(** The value of a decimal digit. *)
Definition decimal_value (x : N) : option N :=
  (fun start => (x - start)%N)
    <$> List.find (fun start => ((start <=? x) && (x <? start + 10))%N)
          decimal_starts.

(** [\d] on [str] patterns: a decimal digit of any script. *)
Definition digit (x : N) : bool :=
  match decimal_value x with
  | Some _ => true
  | None => false
  end.

(** [\s] on [str] patterns: TAB, LF, VT, FF, CR, the separators
    0x1c-0x1f, the space, NEL, the no-break space and the other spaces and
    line separators of the character database. *)
Definition space_points : list N :=
  [9; 10; 11; 12; 13; 28; 29; 30; 31; 32; 133; 160; 5760; 8192; 8193;
   8194; 8195; 8196; 8197; 8198; 8199; 8200; 8201; 8202; 8232; 8233;
   8239; 8287; 12288]%N.

Definition space (x : N) : bool := existsb (N.eqb x) space_points.

(** [.] without DOTALL: anything but a line feed. *)
Definition dot (x : N) : bool := negb (x =? 10)%N.

(** [[\d,]] *)
Definition digit_or_comma (x : N) : bool := digit x || (x =? 44)%N.

(** The ASCII letter that a character stands for under [re.IGNORECASE]:
    a capital letter is its small letter; the long s (U+017F) is an s, the
    Kelvin sign (U+212A) a k, the dotted capital I (U+0130) and the dotless
    small i (U+0131) an i; any other character is itself. *)
Definition fold (x : N) : N :=
  if ((65 <=? x) && (x <=? 90))%N then (x + 32)%N
  else if (x =? 383)%N then 115%N
  else if (x =? 8490)%N then 107%N
  else if ((x =? 304) || (x =? 305))%N then 105%N
  else x.

(** An ASCII literal of a pattern under [re.IGNORECASE]. *)
Definition lit_matches (c : ascii) (x : N) : bool :=
  (fold (PyStr.code c) =? fold x)%N.

(** The literal string [s] as a sequence of [Lit]. *)
Fixpoint lits (s : string) : regex :=
  match s with
  | EmptyString => Opt (Class (fun _ => false))
  | String c EmptyString => Lit c
  | String c s' => Seq (Lit c) (lits s')
  end.

(** The state of a match attempt: what is left of the subject, and the text
    of group 1 if the group has been closed. *)
Record mstate : Type := MState { rest : string; group1 : option string }.

Section Matcher.
Context {A : Type}.

(** One pass of a greedy loop over [body]: try the body once more (it has
    to consume something), and only then leave the loop. *)
Fixpoint greedy_loop
    (body : mstate -> (mstate -> option A) -> option A)
    (n : nat) (st : mstate) (k : mstate -> option A) : option A :=
  match n with
  | O => k st
  | S n' =>
      match body st (fun st' =>
              if (String.length (rest st') <? String.length (rest st))%nat
              then greedy_loop body n' st' k else None) with
      | Some a => Some a
      | None => k st
      end
  end.

(** One pass of a lazy loop: leave first, and take the body once more
    only if what follows fails. *)
Fixpoint lazy_loop
    (body : mstate -> (mstate -> option A) -> option A)
    (n : nat) (st : mstate) (k : mstate -> option A) : option A :=
  match k st with
  | Some a => Some a
  | None =>
      match n with
      | O => None
      | S n' =>
          body st (fun st' =>
              if (String.length (rest st') <? String.length (rest st))%nat
              then lazy_loop body n' st' k else None)
      end
  end.

(** [m r st k]: match [r] at the head of [rest st], then continue with
    [k]; a [None] from [k] makes the matcher try its next alternative. *)
Fixpoint m (r : regex) (st : mstate) (k : mstate -> option A) : option A :=
  match r with
  | Lit c =>
      match PyStr.uncons (rest st) with
      | Some (x, s') =>
          if lit_matches c x then k (MState s' (group1 st)) else None
      | None => None
      end
  | Class p =>
      match PyStr.uncons (rest st) with
      | Some (x, s') => if p x then k (MState s' (group1 st)) else None
      | None => None
      end
  | Seq r1 r2 => m r1 st (fun st' => m r2 st' k)
  | Alt r1 r2 =>
      match m r1 st k with
      | Some a => Some a
      | None => m r2 st k
      end
  | Opt r1 =>
      match m r1 st k with
      | Some a => Some a
      | None => k st
      end
  | Star r1 => greedy_loop (m r1) (String.length (rest st)) st k
  | Plus r1 =>
      m r1 st (fun st' => greedy_loop (m r1) (String.length (rest st')) st' k)
  | LazyStar r1 => lazy_loop (m r1) (String.length (rest st)) st k
  | Group r1 =>
      m r1 st (fun st' =>
        k (MState (rest st')
             (Some (PyStr.take
                      (String.length (rest st) - String.length (rest st'))
                      (rest st)))))
  end.
End Matcher.

(** [pattern.match(s)]: the match anchored at the head of [s]. *)
Definition match_here (r : regex) (s : string) : option mstate :=
  m r (MState s None) Some.

(** A match starts at a character, not inside the bytes of one. *)
Definition at_character (s : string) : bool :=
  match s with
  | String c _ => negb (PyStr.continuation c)
  | EmptyString => true
  end.

(** [pattern.search(s)]: the leftmost match; the result carries the
    suffix at which the match starts. *)
Fixpoint search (r : regex) (s : string) : option (string * mstate) :=
  match (if at_character s then match_here r s else None) with
  | Some st => Some (s, st)
  | None =>
      match s with
      | EmptyString => None
      | String _ s' => search r s'
      end
  end.

(** What [findall] lists for a match of a pattern with one group: the text
    of the group, empty when the group took no part. *)
Definition group_text (st : mstate) : string :=
  match group1 st with Some g => g | None => EmptyString end.

(** [re.findall(pattern, s, re.IGNORECASE)]: the leftmost match, then the
    leftmost match in what follows it, and so on.  A match that consumed
    nothing moves one character on. *)
Fixpoint findall_from (fuel : nat) (r : regex) (s : string) : list string :=
  match fuel with
  | O => []
  | S fuel' =>
      match search r s with
      | None => []
      | Some (start, st) =>
          let next :=
            if (String.length (rest st) <? String.length start)%nat
            then rest st else PyStr.drop 1 start in
          group_text st ::
            (if (String.length start =? 0)%nat then []
             else findall_from fuel' r next)
      end
  end.

Definition findall (r : regex) (s : string) : list string :=
  findall_from (S (String.length s)) r s.

End Re.


(* ===================================================================== *)
(** ** [float(str)] and the comparison of a float with an integer

    Python floats are IEEE 754 binary64 values; [float] rounds the decimal
    literal to the nearest one, ties to even. *)
(* ===================================================================== *)

Module PyFloat.

Definition prec : Z := 53.
Definition emax : Z := 1024.

Definition float : Type := spec_float.

(** [0.0] *)
Definition zero : float := S754_zero false.

(** The binary64 value nearest to [n / 10^k]. *)
Definition of_decimal (n : Z) (k : nat) : float :=
  match n with
  | Zpos p =>
      let '(mz, ez, lz) :=
        SFdiv_core_binary prec emax (Zpos p) 0 (10 ^ Z.of_nat k) 0 in
      binary_round_aux prec emax false mz ez lz
  | _ => zero
  end.

(** Reads the leading decimal digits of [l]: the number read on top of
    [acc], how many digits were read, and what follows them. *)
Fixpoint read_digits (l : list N) (acc : Z) (count : nat)
  : Z * nat * list N :=
  match l with
  | x :: l' =>
      match Re.decimal_value x with
      | Some d => read_digits l' (10 * acc + Z.of_N d) (S count)
      | None => (acc, count, l)
      end
  | [] => (acc, count, l)
  end.

(** [float(s)] for the strings the budget patterns can hand over, which
    hold digits and dots only: [None] stands for [ValueError].  A literal is
    digits, optionally a dot and digits, with a digit on at least one side;
    the digits are decimal digits of any script. *)
Definition of_code_points (l : list N) : option float :=
  let '(ip, ni, r) := read_digits l 0 0 in
  match r with
  | [] =>
      if (ni =? 0)%nat then None else Some (of_decimal ip 0)
  | x :: r' =>
      if (x =? 46)%N then
        let '(v, nf, r'') := read_digits r' ip 0 in
        match r'' with
        | [] =>
            if (ni + nf =? 0)%nat then None else Some (of_decimal v nf)
        | _ :: _ => None
        end
      else None
  end.

Definition of_string (s : string) : option float :=
  match PyStr.code_points s with
  | Some l => of_code_points l
  | None => None
  end.

(** [f > z] for a float [f] and an integer [z]; Python compares the two
    exact values. *)
Definition gt_int (f : float) (z : Z) : bool :=
  match f with
  | S754_zero _ => z <? 0
  | S754_infinity s => negb s
  | S754_nan => false
  | S754_finite s m e =>
      let v := if s then Zneg m else Zpos m in
      if 0 <=? e then z <? v * 2 ^ e else z * 2 ^ (- e) <? v
  end.

End PyFloat.


(* ===================================================================== *)
(** ** models/request.py and models/rfp.py *)
(* ===================================================================== *)

(** [datetime] values, as a count of clock ticks. *)
Definition datetime : Type := Z.

Record ProcurementRequest : Type := {
  pr_id : option string;
  pr_title : string;
  pr_description : string;
  pr_estimated_budget : option PyFloat.float;
  pr_timeline : option string;
  pr_department : option string;
  pr_requester : option string;
  pr_required_by_date : option datetime;
  pr_additional_notes : option string;
  pr_created_at : datetime
}.

Record ClassificationResult : Type := {
  cr_request_id : string;
  cr_category : string;
  cr_confidence : PyFloat.float;
  cr_reasoning : string
}.

Inductive RFPStatus : Type :=
| DRAFT | PENDING_APPROVAL | APPROVED | REJECTED | SENT | CANCELLED.

#[global] Instance RFPStatus_eq_dec : EqDecision RFPStatus.
Proof. solve_decision. Defined.

Record Supplier : Type := {
  sup_name : string;
  sup_email : string;
  sup_phone : option string;
  sup_contact_person : option string
}.

Record RFP : Type := {
  rfp_id : option string;
  rfp_request_id : string;
  rfp_title : string;
  rfp_category : string;
  rfp_content : string;
  rfp_status : RFPStatus;
  rfp_created_at : datetime;
  rfp_updated_at : datetime;
  rfp_suppliers : list Supplier;
  rfp_approval_feedback : option string;
  rfp_approval_date : option datetime;
  rfp_sent_date : option datetime
}.

Record ApprovalResult : Type := {
  ar_rfp_id : string;
  ar_approved : bool;
  ar_feedback : string;
  ar_issues : list string
}.

(** Attribute assignments, one per attribute the sources assign to. *)
Definition set_pr_id (v : option string) (r : ProcurementRequest) : ProcurementRequest :=
  {| pr_id := v; pr_title := pr_title r; pr_description := pr_description r;
     pr_estimated_budget := pr_estimated_budget r; pr_timeline := pr_timeline r;
     pr_department := pr_department r; pr_requester := pr_requester r;
     pr_required_by_date := pr_required_by_date r;
     pr_additional_notes := pr_additional_notes r;
     pr_created_at := pr_created_at r |}.

Definition set_rfp_status (v : RFPStatus) (r : RFP) : RFP :=
  {| rfp_id := rfp_id r; rfp_request_id := rfp_request_id r;
     rfp_title := rfp_title r; rfp_category := rfp_category r;
     rfp_content := rfp_content r; rfp_status := v;
     rfp_created_at := rfp_created_at r; rfp_updated_at := rfp_updated_at r;
     rfp_suppliers := rfp_suppliers r;
     rfp_approval_feedback := rfp_approval_feedback r;
     rfp_approval_date := rfp_approval_date r;
     rfp_sent_date := rfp_sent_date r |}.

Definition set_rfp_approval_feedback (v : option string) (r : RFP) : RFP :=
  {| rfp_id := rfp_id r; rfp_request_id := rfp_request_id r;
     rfp_title := rfp_title r; rfp_category := rfp_category r;
     rfp_content := rfp_content r; rfp_status := rfp_status r;
     rfp_created_at := rfp_created_at r; rfp_updated_at := rfp_updated_at r;
     rfp_suppliers := rfp_suppliers r;
     rfp_approval_feedback := v;
     rfp_approval_date := rfp_approval_date r;
     rfp_sent_date := rfp_sent_date r |}.

Definition set_rfp_approval_date (v : option datetime) (r : RFP) : RFP :=
  {| rfp_id := rfp_id r; rfp_request_id := rfp_request_id r;
     rfp_title := rfp_title r; rfp_category := rfp_category r;
     rfp_content := rfp_content r; rfp_status := rfp_status r;
     rfp_created_at := rfp_created_at r; rfp_updated_at := rfp_updated_at r;
     rfp_suppliers := rfp_suppliers r;
     rfp_approval_feedback := rfp_approval_feedback r;
     rfp_approval_date := v;
     rfp_sent_date := rfp_sent_date r |}.

Definition set_rfp_sent_date (v : option datetime) (r : RFP) : RFP :=
  {| rfp_id := rfp_id r; rfp_request_id := rfp_request_id r;
     rfp_title := rfp_title r; rfp_category := rfp_category r;
     rfp_content := rfp_content r; rfp_status := rfp_status r;
     rfp_created_at := rfp_created_at r; rfp_updated_at := rfp_updated_at r;
     rfp_suppliers := rfp_suppliers r;
     rfp_approval_feedback := rfp_approval_feedback r;
     rfp_approval_date := rfp_approval_date r;
     rfp_sent_date := v |}.

Definition set_rfp_suppliers (v : list Supplier) (r : RFP) : RFP :=
  {| rfp_id := rfp_id r; rfp_request_id := rfp_request_id r;
     rfp_title := rfp_title r; rfp_category := rfp_category r;
     rfp_content := rfp_content r; rfp_status := rfp_status r;
     rfp_created_at := rfp_created_at r; rfp_updated_at := rfp_updated_at r;
     rfp_suppliers := v;
     rfp_approval_feedback := rfp_approval_feedback r;
     rfp_approval_date := rfp_approval_date r;
     rfp_sent_date := rfp_sent_date r |}.

Definition set_ar_approved (v : bool) (a : ApprovalResult) : ApprovalResult :=
  {| ar_rfp_id := ar_rfp_id a; ar_approved := v;
     ar_feedback := ar_feedback a; ar_issues := ar_issues a |}.

Definition set_ar_issues (v : list string) (a : ApprovalResult) : ApprovalResult :=
  {| ar_rfp_id := ar_rfp_id a; ar_approved := ar_approved a;
     ar_feedback := ar_feedback a; ar_issues := v |}.


(* ===================================================================== *)
(** ** config/settings.py *)
(* ===================================================================== *)

Module Settings.

Definition PROCUREMENT_CATEGORIES : list string :=
  ["Software"; "Hardware"; "Services"; "Raw Materials"].

Definition software_template : string :=
"
# REQUEST FOR PROPOSAL: SOFTWARE PROCUREMENT
## Project Overview
{project_overview}

## Requirements
{requirements}

## Timeline
{timeline}

## Budget
{budget}

## Evaluation Criteria
{evaluation_criteria}

## Submission Instructions
{submission_instructions}
    ".

Definition hardware_template : string :=
"
# REQUEST FOR PROPOSAL: HARDWARE PROCUREMENT
## Project Overview
{project_overview}

## Technical Specifications
{requirements}

## Quantity
{quantity}

## Delivery Timeline
{timeline}

## Budget
{budget}

## Warranty Requirements
{warranty}

## Submission Instructions
{submission_instructions}
    ".

Definition services_template : string :=
"
# REQUEST FOR PROPOSAL: SERVICES PROCUREMENT
## Service Overview
{project_overview}

## Scope of Work
{requirements}

## Service Level Requirements
{sla}

## Timeline
{timeline}

## Budget
{budget}

## Evaluation Criteria
{evaluation_criteria}

## Submission Instructions
{submission_instructions}
    ".

Definition raw_materials_template : string :=
"
# REQUEST FOR PROPOSAL: RAW MATERIALS PROCUREMENT
## Material Overview
{project_overview}

## Material Specifications
{requirements}

## Quantity
{quantity}

## Quality Standards
{quality}

## Delivery Timeline
{timeline}

## Budget
{budget}

## Submission Instructions
{submission_instructions}
    ".

Definition RFP_TEMPLATES : gmap string string :=
  <["Software" := software_template]>
  (<["Hardware" := hardware_template]>
  (<["Services" := services_template]>
  (<["Raw Materials" := raw_materials_template]> ∅))).

(** The budget cap for automatic approval. *)
Definition MAX_BUDGET : Z := 1000000.

(** Declared by the settings; no code reads it. *)
Definition MIN_TIMELINE_DAYS : Z := 7.

End Settings.

(* ===================================================================== *)
(** ** JSON values and [str.format]

    The language-model chains end in a JSON parser; what the agents read
    from them are JSON objects, as maps from keys to JSON values. *)
(* ===================================================================== *)

#[warnings="-register-all"] Inductive JVal : Type :=
| JNull
| JBool (b : bool)
| JInt (z : Z)
| JFloat (f : PyFloat.float)
| JStr (s : string)
| JArr (l : list JVal)
| JObj (l : list (string * JVal)).

Module PyFormat.

Inductive format_error : Type :=
| KeyError (key : string)
| IndexError
| ValueError (msg : string)
| Unsupported.

(** The name of a field is a number: decimal digits only, of any script. *)
Definition all_digits (s : string) : bool :=
  match PyStr.code_points s with
  | Some l => forallb Re.digit l
  | None => false
  end.

Definition is_brace_open (c : ascii) : bool := Ascii.eqb c "{"%char.
Definition is_brace_close (c : ascii) : bool := Ascii.eqb c "}"%char.

(** Characters that start an attribute, an index, a conversion or a format
    specification inside a replacement field; fields that use them are not
    modelled (the templates of the settings have none). *)
Definition is_field_operator (c : ascii) : bool :=
  Ascii.eqb c "."%char || Ascii.eqb c "["%char
  || Ascii.eqb c "!"%char || Ascii.eqb c ":"%char.

Section Format.
Context {V : Type}.
Variable str_of : V -> string.
Variable kwargs : gmap string V.

(** The value of a replacement field: a field without a name, or with a
    number as its name, indexes the positional arguments, and there are
    none; a named field is looked up among the keyword arguments. *)
Definition get_field (name : string) : format_error + string :=
  if all_digits name then inl IndexError
  else match kwargs !! name with
       | Some v => inr (str_of v)
       | None => inl (KeyError name)
       end.

(** [template.format] applied to keyword arguments, read left to right.  [field] is [None]
    in literal text and [Some name] inside a replacement field whose name
    read so far is [name]. *)
Fixpoint format_from (s : string) (field : option string)
  : format_error + string :=
  match field with
  | None =>
      match s with
      | EmptyString => inr EmptyString
      | String c s' =>
          if is_brace_open c then
            match s' with
            | String c' s'' =>
                if is_brace_open c' then
                  match format_from s'' None with
                  | inr out => inr (String c out)
                  | inl e => inl e
                  end
                else format_from s' (Some EmptyString)
            | EmptyString => inl (ValueError "Single '{' encountered in format string")
            end
          else if is_brace_close c then
            match s' with
            | String c' s'' =>
                if is_brace_close c' then
                  match format_from s'' None with
                  | inr out => inr (String c out)
                  | inl e => inl e
                  end
                else inl (ValueError "Single '}' encountered in format string")
            | EmptyString => inl (ValueError "Single '}' encountered in format string")
            end
          else
            match format_from s' None with
            | inr out => inr (String c out)
            | inl e => inl e
            end
      end
  | Some name =>
      match s with
      | EmptyString => inl (ValueError "expected '}' before end of string")
      | String c s' =>
          if is_brace_close c then
            match get_field name with
            | inr v =>
                match format_from s' None with
                | inr out => inr (v +:+ out)
                | inl e => inl e
                end
            | inl e => inl e
            end
          else if is_brace_open c then
            inl (ValueError "unexpected '{' in field name")
          else if is_field_operator c then inl Unsupported
          else format_from s' (Some (name +:+ String c EmptyString))
      end
  end.

Definition format (template : string) : format_error + string :=
  format_from template None.

End Format.

(** The names of the replacement fields of a template, in order; [None]
    when the template is not well formed (or uses a field operator). *)
Fixpoint fields_from (s : string) (field : option string)
  : option (list string) :=
  match field with
  | None =>
      match s with
      | EmptyString => Some []
      | String c s' =>
          if is_brace_open c then
            match s' with
            | String c' s'' =>
                if is_brace_open c' then fields_from s'' None
                else fields_from s' (Some EmptyString)
            | EmptyString => None
            end
          else if is_brace_close c then
            match s' with
            | String c' s'' =>
                if is_brace_close c' then fields_from s'' None else None
            | EmptyString => None
            end
          else fields_from s' None
      end
  | Some name =>
      match s with
      | EmptyString => None
      | String c s' =>
          if is_brace_close c then
            match fields_from s' None with
            | Some l => Some (name :: l)
            | None => None
            end
          else if is_brace_open c then None
          else if is_field_operator c then None
          else fields_from s' (Some (name +:+ String c EmptyString))
      end
  end.

Definition fields (template : string) : option (list string) :=
  fields_from template None.

End PyFormat.


(* ===================================================================== *)
(** ** The object store, the environment and the monad of the agents

    Requests and RFPs are Python objects that several holders share and that
    the agents assign to: the model keeps them in a store and passes their
    addresses.  Classification and approval results are not assigned to once
    they are handed over; they are passed as values. *)
(* ===================================================================== *)

Definition loc : Type := nat.

(** An exception, as the text [str(e)] that the handlers put in messages. *)
Definition exn : Type := string.

(** What [api/email_service.py] writes to its logger. *)
Inductive LogEvent : Type :=
| LogNoSuppliers (rfp : option string)
| LogSent (rfp : option string) (email : string)
| LogSendFailed (rfp : option string) (email : string)
| LogSendError (email : string) (e : exn).

Record World : Type := {
  requests : gmap loc ProcurementRequest;
  rfps : gmap loc RFP;
  ticks : nat;             (* the calls made so far to the outside world *)
  log : list LogEvent
}.

Record ClassificationInput : Type := {
  ci_title : string;
  ci_description : string;
  ci_additional_notes : string
}.

Record GenerationInput : Type := {
  gi_title : string;
  gi_description : string;
  gi_budget : PyFloat.float + string;
  gi_timeline : string;
  gi_department : string;
  gi_requester : string;
  gi_required_by_date : datetime + string;
  gi_additional_notes : string;
  gi_category : string
}.

Record ValidationInput : Type := {
  vi_title : string;
  vi_category : string;
  vi_content : string
}.

(** The capabilities the sources take from outside: the three
    language-model chains (prompt, model, JSON parser), the identifier and
    clock sources, the formatting built-ins, the rendering of a message and
    the mail transport.  A chain answers with a JSON object or fails. *)
Record Env : Type := {
  classification_chain : ClassificationInput -> exn + gmap string JVal;
  generation_chain : GenerationInput -> exn + gmap string JVal;
  approval_chain : ValidationInput -> exn + gmap string JVal;
  uuid4 : nat -> string;
  now : nat -> datetime;
  py_str : JVal -> string;
  format_2f : PyFloat.float -> string;
  create_email_message : RFP -> Supplier -> exn + string;
  smtp_send : nat -> string -> string -> bool
}.

Definition M (A : Type) : Type := World -> (exn + A) * World.

#[global] Instance M_ret : MRet M := fun A (x : A) w => (inr x, w).

#[global] Instance M_bind : MBind M := fun A B (f : A -> M B) (c : M A) w =>
  match c w with
  | (inr a, w') => f a w'
  | (inl e, w') => (inl e, w')
  end.

(** [raise e] *)
Definition raise {A : Type} (e : exn) : M A := fun w => (inl e, w).

(** [try: body  except Exception as e: handler(e)] *)
Definition try_catch {A : Type} (body : M A) (handler : exn -> M A) : M A :=
  fun w =>
    match body w with
    | (inr a, w') => (inr a, w')
    | (inl e, w') => handler e w'
    end.

(** An outside result enters the monad; a failure becomes an exception. *)
Definition lift {A : Type} (r : exn + A) : M A :=
  match r with inr a => mret a | inl e => raise e end.

Definition get_world : M World := fun w => (inr w, w).

Definition get_request (l : loc) : M ProcurementRequest := fun w =>
  match requests w !! l with
  | Some r => (inr r, w)
  | None => (inl "dangling request reference", w)
  end.

Definition get_rfp (l : loc) : M RFP := fun w =>
  match rfps w !! l with
  | Some r => (inr r, w)
  | None => (inl "dangling RFP reference", w)
  end.

Definition put_request (l : loc) (r : ProcurementRequest) : M unit := fun w =>
  (inr tt, {| requests := <[l := r]> (requests w); rfps := rfps w;
              ticks := ticks w; log := log w |}).

Definition put_rfp (l : loc) (r : RFP) : M unit := fun w =>
  (inr tt, {| requests := requests w; rfps := <[l := r]> (rfps w);
              ticks := ticks w; log := log w |}).

(** A new RFP object, at an address that holds nothing yet. *)
Definition new_rfp (r : RFP) : M loc := fun w =>
  let l := fresh (dom (rfps w)) in
  (inr l, {| requests := requests w; rfps := <[l := r]> (rfps w);
             ticks := ticks w; log := log w |}).

(** One more call to the outside world; the result is its rank. *)
Definition tick : M nat := fun w =>
  (inr (ticks w), {| requests := requests w; rfps := rfps w;
                     ticks := S (ticks w); log := log w |}).

Definition write_log (ev : LogEvent) : M unit := fun w =>
  (inr tt, {| requests := requests w; rfps := rfps w;
              ticks := ticks w; log := log w ++ [ev] |}).

(** [obj[key]] on a JSON object; [str(KeyError(key))] is the key in quotes. *)
Definition getitem (obj : gmap string JVal) (key : string) : M JVal :=
  match obj !! key with
  | Some v => mret v
  | None => raise ("'" +:+ key +:+ "'")
  end.

(** Field validation of the models, by declared type: a JSON value of the
    declared type is taken as it is.  The model library also converts some
    values of another type (the string [true] to a boolean, the string [0.9]
    to a float), by rules that depend on its version; these conversions are
    not modelled: such a value is refused here, and the properties that read
    an answer of a chain state the types of its entries. *)
Definition as_str (v : JVal) : option string :=
  match v with JStr s => Some s | _ => None end.

Definition as_bool (v : JVal) : option bool :=
  match v with JBool b => Some b | _ => None end.

Definition as_float (v : JVal) : option PyFloat.float :=
  match v with
  | JFloat f => Some f
  | JInt z => Some (binary_normalize PyFloat.prec PyFloat.emax z 0 false)
  | _ => None
  end.

Definition as_str_list (v : JVal) : option (list string) :=
  match v with
  | JArr l => mapM as_str l
  | _ => None
  end.

(** The constructor of a model: a refused field raises.  The text of the
    exception stands for the message of the library, which lists the
    fields. *)
Definition validated {A : Type} (model : string) (o : option A) : M A :=
  match o with
  | Some a => mret a
  | None => raise ("validation error for " +:+ model)
  end.

(** [not s] for an optional string: [None] and the empty string are false. *)
Definition falsy (o : option string) : bool :=
  match o with
  | None => true
  | Some EmptyString => true
  | Some (String _ _) => false
  end.

(** [o or default] *)
Definition or_str (o : option string) (default : string) : string :=
  match o with
  | Some (String c s) => String c s
  | _ => default
  end.


(* ===================================================================== *)
(** ** agents/classification_agent.py *)
(* ===================================================================== *)

(** [obj.attr = v] on a stored object. *)
Definition modify_rfp (l : loc) (f : RFP -> RFP) : M unit :=
  r ← get_rfp l; put_rfp l (f r).

Definition modify_request (l : loc) (f : ProcurementRequest -> ProcurementRequest)
  : M unit :=
  r ← get_request l; put_request l (f r).

Module ClassificationAgent.
Section WithEnv.
Variable env : Env.

(** [classify(request)]: the request gets an id if it has none, the chain
    is called, and its answer is read into a [ClassificationResult]. *)
Definition classify (request : loc) : M ClassificationResult :=
  req ← get_request request;
  (if falsy (pr_id req)
   then n ← tick; modify_request request (set_pr_id (Some (uuid4 env n)))
   else mret tt);;
  req ← get_request request;
  let input_data :=
    {| ci_title := pr_title req;
       ci_description := pr_description req;
       ci_additional_notes := or_str (pr_additional_notes req) "None" |} in
  result ← lift (classification_chain env input_data);
  category ← getitem result "category";
  confidence ← getitem result "confidence";
  reasoning ← getitem result "reasoning";
  validated "ClassificationResult"
    (request_id ← pr_id req;
     category ← as_str category;
     confidence ← as_float confidence;
     reasoning ← as_str reasoning;
     Some {| cr_request_id := request_id; cr_category := category;
             cr_confidence := confidence; cr_reasoning := reasoning |}).

End WithEnv.
End ClassificationAgent.

(* ===================================================================== *)
(** ** agents/rfp_generation_agent.py *)
(* ===================================================================== *)

Module RFPGenerationAgent.

(** The keys that get an empty default before the template is filled. *)
Definition template_keys : list string :=
  ["project_overview"; "requirements"; "timeline"; "budget";
   "evaluation_criteria"; "submission_instructions"; "quantity";
   "warranty"; "sla"; "quality"].

(** [if key not in rfp_content_json: rfp_content_json[key] = ""] *)
Definition add_default (rfp_content_json : gmap string JVal) (key : string)
  : gmap string JVal :=
  match rfp_content_json !! key with
  | Some _ => rfp_content_json
  | None => <[key := JStr ""]> rfp_content_json
  end.

(** [RFP_TEMPLATES.get(category, RFP_TEMPLATES["Services"])], given the
    value of the default. *)
Definition template_for (category services : string) : string :=
  default services (Settings.RFP_TEMPLATES !! category).

Definition format_error_text (e : PyFormat.format_error) : exn :=
  match e with
  | PyFormat.KeyError key => "'" +:+ key +:+ "'"
  | PyFormat.IndexError =>
      "Replacement index 0 out of range for positional args tuple"
  | PyFormat.ValueError msg => msg
  | PyFormat.Unsupported => "replacement field outside the model"
  end.

(** [x or "Not specified"] for the optional budget: zero counts as absent. *)
Definition budget_or_default (o : option PyFloat.float) : PyFloat.float + string :=
  match o with
  | None | Some (S754_zero _) => inr "Not specified"
  | Some f => inl f
  end.

Definition date_or_default (o : option datetime) : datetime + string :=
  match o with
  | Some d => inl d
  | None => inr "Not specified"
  end.

Section WithEnv.
Variable env : Env.

(** [str(v)], as [format] renders a value. *)
Definition str_of (v : JVal) : string :=
  match v with
  | JStr s => s
  | _ => py_str env v
  end.

(** The template filled with the answer of the chain, defaults added. *)
Definition render (template : string) (rfp_content_json : gmap string JVal)
  : PyFormat.format_error + string :=
  PyFormat.format str_of (fold_left add_default template_keys rfp_content_json)
    template.

Definition generate_rfp (request : loc) (classification : ClassificationResult)
  : M loc :=
  req ← get_request request;
  let input_data :=
    {| gi_title := pr_title req;
       gi_description := pr_description req;
       gi_budget := budget_or_default (pr_estimated_budget req);
       gi_timeline := or_str (pr_timeline req) "Not specified";
       gi_department := or_str (pr_department req) "Not specified";
       gi_requester := or_str (pr_requester req) "Not specified";
       gi_required_by_date := date_or_default (pr_required_by_date req);
       gi_additional_notes := or_str (pr_additional_notes req) "Not specified";
       gi_category := cr_category classification |} in
  rfp_content_json ← lift (generation_chain env input_data);
  services ← match Settings.RFP_TEMPLATES !! "Services" with
             | Some t => mret t
             | None => raise "'Services'"
             end;
  let template := template_for (cr_category classification) services in
  formatted_content ← match render template rfp_content_json with
                      | inr s => mret s
                      | inl e => raise (format_error_text e)
                      end;
  n ← tick;
  request_id ← validated "RFP" (pr_id req);
  created ← tick;
  updated ← tick;
  new_rfp {| rfp_id := Some (uuid4 env n);
             rfp_request_id := request_id;
             rfp_title := "RFP for " +:+ pr_title req;
             rfp_category := cr_category classification;
             rfp_content := formatted_content;
             rfp_status := PENDING_APPROVAL;
             rfp_created_at := now env created;
             rfp_updated_at := now env updated;
             rfp_suppliers := [];
             rfp_approval_feedback := None;
             rfp_approval_date := None;
             rfp_sent_date := None |}.

End WithEnv.
End RFPGenerationAgent.

(* ===================================================================== *)
(** ** api/email_service.py *)
(* ===================================================================== *)

Module EmailService.
Section WithEnv.
Variable env : Env.

(** [_send_email(msg, recipient)]: the transport answers by a boolean and
    keeps its own failures to itself. *)
Definition _send_email (msg recipient : string) : M bool :=
  n ← tick; mret (smtp_send env n msg recipient).

(** The body of the loop of [send_rfp] for one supplier: [true] when the
    message was built and the transport took it. *)
Definition send_one (rfp : RFP) (supplier : Supplier) : M bool :=
  try_catch
    (msg ← lift (create_email_message env rfp supplier);
     sent ← _send_email msg (sup_email supplier);
     (if (sent : bool)
      then write_log (LogSent (rfp_id rfp) (sup_email supplier))
      else write_log (LogSendFailed (rfp_id rfp) (sup_email supplier)));;
     mret sent)
    (fun e => write_log (LogSendError (sup_email supplier) e);; mret false).

(** The loop of [send_rfp]; [success] is its local variable. *)
Fixpoint send_loop (rfp : RFP) (suppliers : list Supplier) (success : bool)
  : M bool :=
  match suppliers with
  | [] => mret success
  | supplier :: suppliers' =>
      ok ← send_one rfp supplier;
      send_loop rfp suppliers' (if (ok : bool) then success else false)
  end.

Definition send_rfp (rfp : loc) : M bool :=
  r ← get_rfp rfp;
  match rfp_suppliers r with
  | [] => write_log (LogNoSuppliers (rfp_id r));; mret false
  | _ :: _ => send_loop r (rfp_suppliers r) true
  end.

End WithEnv.
End EmailService.


(* ===================================================================== *)
(** ** agents/approval_agent.py *)
(* ===================================================================== *)

Module ApprovalAgent.

Import Re.

(** [\.\d+], the fraction of an amount. *)
Definition fraction : regex := Seq (Lit "."%char) (Plus (Class digit)).

(** [[\d,]+(?:\.\d+)?], the amount the four patterns capture. *)
Definition amount : regex :=
  Seq (Plus (Class digit_or_comma)) (Opt fraction).

(** [\$\s*([\d,]+(?:\.\d+)?)] *)
Definition pattern_dollar : regex :=
  Seq (Lit "$"%char) (Seq (Star (Class space)) (Group amount)).

(** [([\d,]+(?:\.\d+)?)\s*(?:USD|dollars)] *)
Definition pattern_usd : regex :=
  Seq (Group amount)
      (Seq (Star (Class space)) (Alt (lits "USD") (lits "dollars"))).

(** [budget.*?\$\s*([\d,]+(?:\.\d+)?)] *)
Definition pattern_budget_dollar : regex :=
  Seq (lits "budget") (Seq (LazyStar (Class dot)) pattern_dollar).

(** [budget.*?([\d,]+(?:\.\d+)?)\s*(?:USD|dollars)] *)
Definition pattern_budget_usd : regex :=
  Seq (lits "budget") (Seq (LazyStar (Class dot)) pattern_usd).

Definition budget_patterns : list regex :=
  [pattern_dollar; pattern_usd; pattern_budget_dollar; pattern_budget_usd].

(** The loop of [_extract_budget] over the patterns still to be tried: the
    first match of a pattern is stripped of its commas and parsed; a pattern
    without a match, or whose first match does not parse, is passed over. *)
Fixpoint extract_with (patterns : list regex) (rfp_content : string)
  : PyFloat.float :=
  match patterns with
  | [] => PyFloat.zero
  | pattern :: patterns' =>
      match findall pattern rfp_content with
      | [] => extract_with patterns' rfp_content
      | m0 :: _ =>
          let budget_str := PyStr.remove_char ","%char m0 in
          match PyFloat.of_string budget_str with
          | Some v => v
          | None => extract_with patterns' rfp_content
          end
      end
  end.

Definition _extract_budget (rfp_content : string) : PyFloat.float :=
  extract_with budget_patterns rfp_content.

(** [f"{n:,.2f}"] for an integer [n]: the digits in groups of three, then
    two zero decimals. *)
Fixpoint group3 (digits_rev : list ascii) (pos : nat) : list ascii :=
  match digits_rev with
  | [] => []
  | d :: rest =>
      match pos, rest with
      | 2%nat, _ :: _ => d :: ","%char :: group3 rest 0
      | _, _ => d :: group3 rest (S pos)
      end
  end.

Definition digit_char (z : Z) : ascii := ascii_of_N (Z.to_N (48 + z)).

Fixpoint digits_rev (fuel : nat) (z : Z) : list ascii :=
  match fuel with
  | O => []
  | S fuel' =>
      if z <? 10 then [digit_char z]
      else digit_char (z mod 10) :: digits_rev fuel' (z / 10)
  end.

Definition format_comma_2f (n : Z) : string :=
  let body :=
    String.string_of_list_ascii
      (rev (group3 (digits_rev (S (Z.to_nat (Z.log2 (Z.abs n)))) (Z.abs n)) 0)) in
  (if n <? 0 then "-" else "") +:+ body +:+ ".00".

Definition budget_issue : string :=
  "Budget exceeds maximum allowed threshold of $"
    +:+ format_comma_2f Settings.MAX_BUDGET.

Definition essential_sections : list string :=
  ["Overview"; "Requirements"; "Timeline"; "Budget"].

Definition missing_issue (section : string) : string :=
  "Missing essential section: " +:+ section.

(** [section.lower() not in rfp.content.lower()] *)
Definition section_missing (rfp_content section : string) : bool :=
  negb (PyStr.contains (PyStr.lower section) (PyStr.lower rfp_content)).

(** One turn of the loop over the essential sections; the loop state is the
    [approved] attribute and the local list [issues]. *)
Definition check_section (rfp_content : string)
    (st : bool * list string) (section : string) : bool * list string :=
  if section_missing rfp_content section
  then (false, snd st ++ [missing_issue section])
  else st.

(** [_apply_guardrails(rfp, approval_result)]: the result is the argument
    object itself, with [approved] and [issues] reassigned. *)
Definition _apply_guardrails (rfp : RFP) (approval_result : ApprovalResult)
  : ApprovalResult :=
  let issues := ar_issues approval_result in
  let budget := _extract_budget (rfp_content rfp) in
  let st :=
    if PyFloat.gt_int budget Settings.MAX_BUDGET
    then (false, issues ++ [budget_issue])
    else (ar_approved approval_result, issues) in
  let st := fold_left (check_section (rfp_content rfp)) essential_sections st in
  set_ar_issues (snd st) (set_ar_approved (fst st) approval_result).

Section WithEnv.
Variable env : Env.

(** [result.get("issues", [])] *)
Definition issues_of (result : gmap string JVal) : JVal :=
  default (JArr []) (result !! "issues").

(** [validate_rfp(rfp)]: the verdict of the model, then the guardrails,
    then the status, the approval date and the feedback of the RFP. *)
Definition validate_rfp (rfp : loc) : M ApprovalResult :=
  r ← get_rfp rfp;
  let input_data :=
    {| vi_title := rfp_title r; vi_category := rfp_category r;
       vi_content := rfp_content r |} in
  result ← lift (approval_chain env input_data);
  approved ← getitem result "approved";
  feedback ← getitem result "feedback";
  approval_result ←
    validated "ApprovalResult"
      (rfp_id ← rfp_id r;
       approved ← as_bool approved;
       feedback ← as_str feedback;
       issues ← as_str_list (issues_of result);
       Some {| ar_rfp_id := rfp_id; ar_approved := approved;
               ar_feedback := feedback; ar_issues := issues |});
  let approval_result := _apply_guardrails r approval_result in
  (if ar_approved approval_result
   then modify_rfp rfp (set_rfp_status APPROVED);;
        n ← tick;
        modify_rfp rfp (set_rfp_approval_date (Some (now env n)))
   else modify_rfp rfp (set_rfp_status REJECTED));;
  modify_rfp rfp (set_rfp_approval_feedback (Some (ar_feedback approval_result)));;
  mret approval_result.

(** [send_to_suppliers(rfp)] *)
Definition send_to_suppliers (rfp : loc) : M bool :=
  r ← get_rfp rfp;
  if decide (rfp_status r = APPROVED) then
    success ← EmailService.send_rfp env rfp;
    (if (success : bool)
     then modify_rfp rfp (set_rfp_status SENT);;
          n ← tick;
          modify_rfp rfp (set_rfp_sent_date (Some (now env n)))
     else mret tt);;
    mret success
  else mret false.

End WithEnv.

End ApprovalAgent.

(** *** Notions used to state the properties of the guardrails *)

(** A section name occurs in the content up to the case of its letters. *)
Definition ci_substring (section content : string) : Prop :=
  exists pre w post,
    content = pre +:+ w +:+ post /\ PyStr.lower w = PyStr.lower section.

(** What the budget rule adds to the issue list of an RFP. *)
Definition budget_part (rfp : RFP) : list string :=
  if PyFloat.gt_int (ApprovalAgent._extract_budget (rfp_content rfp))
       Settings.MAX_BUDGET
  then [ApprovalAgent.budget_issue] else [].

(** The essential sections an RFP lacks, in the order they are checked. *)
Definition missing_sections (rfp : RFP) : list string :=
  List.filter (ApprovalAgent.section_missing (rfp_content rfp))
    ApprovalAgent.essential_sections.

(** The first match of a pattern, as the loop of [_extract_budget] reads
    it: commas stripped, then parsed. *)
Definition first_match (pattern : Re.regex) (rfp_content : string)
  : option string :=
  head (Re.findall pattern rfp_content).

Definition parsed_match (pattern : Re.regex) (rfp_content : string)
  : option PyFloat.float :=
  match first_match pattern rfp_content with
  | Some m0 => PyFloat.of_string (PyStr.remove_char ","%char m0)
  | None => None
  end.

(** The extraction as the specification words it: the figure comes from the
    first pattern, in priority order, that matches at all; [Some 0.0] when no
    pattern matches.  [None] when the match of that pattern is not a number. *)
Fixpoint first_matching_with (patterns : list Re.regex) (rfp_content : string)
  : option PyFloat.float :=
  match patterns with
  | [] => Some PyFloat.zero
  | pattern :: patterns' =>
      match first_match pattern rfp_content with
      | Some m0 => PyFloat.of_string (PyStr.remove_char ","%char m0)
      | None => first_matching_with patterns' rfp_content
      end
  end.

Definition extract_first_matching (rfp_content : string) : option PyFloat.float :=
  first_matching_with ApprovalAgent.budget_patterns rfp_content.

(** *** Sample values for the worked examples *)

Definition sample_rfp (content : string) : RFP :=
  {| rfp_id := Some "rfp-1"; rfp_request_id := "req-1";
     rfp_title := "RFP for laptops"; rfp_category := "Hardware";
     rfp_content := content; rfp_status := PENDING_APPROVAL;
     rfp_created_at := 0; rfp_updated_at := 0; rfp_suppliers := [];
     rfp_approval_feedback := None; rfp_approval_date := None;
     rfp_sent_date := None |}.

Definition sample_approval (approved : bool) (issues : list string)
  : ApprovalResult :=
  {| ar_rfp_id := "rfp-1"; ar_approved := approved;
     ar_feedback := "Reviewed."; ar_issues := issues |}.

(** Every character of [s] is in the class [p]. *)
Fixpoint all_chars (p : ascii -> bool) (s : string) : bool :=
  match s with
  | EmptyString => true
  | String c s' => p c && all_chars p s'
  end.

(** An ASCII character of the class [p]. *)
Definition ascii_in (p : N -> bool) (c : ascii) : bool :=
  (PyStr.code c <? 128)%N && p (PyStr.code c).

(** [s] begins with a character of the class [p]. *)
Definition head_in (p : N -> bool) (s : string) : bool :=
  match PyStr.uncons s with
  | Some (x, _) => p x
  | None => false
  end.

Definition is_dollar (c : ascii) : bool := Ascii.eqb c "$"%char.

(** [post] does not go on with a fraction: a dot and then a digit. *)
Definition no_fraction (post : string) : bool :=
  match PyStr.uncons post with
  | Some (x, r) => negb ((x =? 46)%N && head_in Re.digit r)
  | None => true
  end.

(** [amount_at text post]: read at the head of [text +:+ post], the amount
    of the patterns is [text], written in ASCII: a run of digits and
    commas, and then a dot and a run of digits if the subject has them
    there. *)
Inductive amount_at : string -> string -> Prop :=
| amount_whole (c : ascii) (run post : string) :
    all_chars (ascii_in Re.digit_or_comma) (String c run) = true ->
    head_in Re.digit_or_comma post = false ->
    no_fraction post = true ->
    amount_at (String c run) post
| amount_fraction (c d : ascii) (run decimals post : string) :
    all_chars (ascii_in Re.digit_or_comma) (String c run) = true ->
    all_chars (ascii_in Re.digit) (String d decimals) = true ->
    head_in Re.digit post = false ->
    amount_at (String c run +:+ "." +:+ String d decimals) post.


(* ===================================================================== *)
(** ** workflows/procurement_workflow.py *)
(* ===================================================================== *)

(** The state the graph threads through its nodes.  [request] and [rfp] are
    references to stored objects. *)
Record WorkflowState : Type := {
  ws_request : loc;
  ws_classification : option ClassificationResult;
  ws_rfp : option loc;
  ws_approval : option ApprovalResult;
  ws_email_sent : bool;
  ws_error : option string;
  ws_status : string
}.

(** The entries a node replaces when it builds the state it returns. *)
Definition set_ws_classification (v : option ClassificationResult)
    (s : WorkflowState) : WorkflowState :=
  {| ws_request := ws_request s; ws_classification := v; ws_rfp := ws_rfp s;
     ws_approval := ws_approval s; ws_email_sent := ws_email_sent s;
     ws_error := ws_error s; ws_status := ws_status s |}.

Definition set_ws_rfp (v : option loc) (s : WorkflowState) : WorkflowState :=
  {| ws_request := ws_request s; ws_classification := ws_classification s;
     ws_rfp := v; ws_approval := ws_approval s;
     ws_email_sent := ws_email_sent s; ws_error := ws_error s;
     ws_status := ws_status s |}.

Definition set_ws_approval (v : option ApprovalResult) (s : WorkflowState)
  : WorkflowState :=
  {| ws_request := ws_request s; ws_classification := ws_classification s;
     ws_rfp := ws_rfp s; ws_approval := v; ws_email_sent := ws_email_sent s;
     ws_error := ws_error s; ws_status := ws_status s |}.

Definition set_ws_email_sent (v : bool) (s : WorkflowState) : WorkflowState :=
  {| ws_request := ws_request s; ws_classification := ws_classification s;
     ws_rfp := ws_rfp s; ws_approval := ws_approval s; ws_email_sent := v;
     ws_error := ws_error s; ws_status := ws_status s |}.

Definition set_ws_error (v : option string) (s : WorkflowState) : WorkflowState :=
  {| ws_request := ws_request s; ws_classification := ws_classification s;
     ws_rfp := ws_rfp s; ws_approval := ws_approval s;
     ws_email_sent := ws_email_sent s; ws_error := v;
     ws_status := ws_status s |}.

Definition set_ws_status (v : string) (s : WorkflowState) : WorkflowState :=
  {| ws_request := ws_request s; ws_classification := ws_classification s;
     ws_rfp := ws_rfp s; ws_approval := ws_approval s;
     ws_email_sent := ws_email_sent s; ws_error := ws_error s;
     ws_status := v |}.

(** The state a node returns when it gives up: the state it received with
    [error] and [status] replaced. *)
Definition failed (error status : string) (s : WorkflowState) : WorkflowState :=
  set_ws_status status (set_ws_error (Some error) s).

Inductive Node : Type :=
| CLASSIFY | GENERATE_RFP | APPROVE_RFP | SEND_EMAIL | ERROR_HANDLER.

#[global] Instance Node_eq_dec : EqDecision Node.
Proof. solve_decision. Defined.

(** The end of an edge: a node, or the end of the run. *)
Inductive Target : Type :=
| Goto (n : Node)
| END.

(** The methods of the three agents the workflow holds. *)
Record Agents : Type := {
  classify : loc -> M ClassificationResult;
  generate_rfp : loc -> ClassificationResult -> M loc;
  validate_rfp : loc -> M ApprovalResult;
  send_to_suppliers : loc -> M bool
}.

(** The agents that [ProcurementWorkflow.__init__] builds. *)
Definition agents_of (env : Env) : Agents :=
  {| classify := ClassificationAgent.classify env;
     generate_rfp := RFPGenerationAgent.generate_rfp env;
     validate_rfp := ApprovalAgent.validate_rfp env;
     send_to_suppliers := ApprovalAgent.send_to_suppliers env |}.

(** One node of a run, for the record of the run: the node, the state it
    returned, and the store when it returned. *)
Record Step : Type := {
  step_node : Node;
  step_state : WorkflowState;
  step_world : World
}.

Module ProcurementWorkflow.

(** The graph under construction: nodes, the entry point, plain edges and
    conditional edges (a router and the targets of its answers). *)
Record StateGraph : Type := {
  nodes : list (Node * (WorkflowState -> M WorkflowState));
  entry_point : option Node;
  edges : list (Node * Target);
  branches : list (Node * ((WorkflowState -> string) * list (string * Target)))
}.

Definition empty_graph : StateGraph :=
  {| nodes := []; entry_point := None; edges := []; branches := [] |}.

Definition add_node (n : Node) (f : WorkflowState -> M WorkflowState)
    (g : StateGraph) : StateGraph :=
  {| nodes := nodes g ++ [(n, f)]; entry_point := entry_point g;
     edges := edges g; branches := branches g |}.

Definition set_entry_point (n : Node) (g : StateGraph) : StateGraph :=
  {| nodes := nodes g; entry_point := Some n;
     edges := edges g; branches := branches g |}.

Definition add_edge (n : Node) (t : Target) (g : StateGraph) : StateGraph :=
  {| nodes := nodes g; entry_point := entry_point g;
     edges := edges g ++ [(n, t)]; branches := branches g |}.

Definition add_conditional_edges (n : Node) (router : WorkflowState -> string)
    (targets : list (string * Target)) (g : StateGraph) : StateGraph :=
  {| nodes := nodes g; entry_point := entry_point g;
     edges := edges g; branches := branches g ++ [(n, (router, targets))] |}.

(** The first entry of an association list under a key. *)
Fixpoint assoc {K V : Type} `{EqDecision K} (k : K) (l : list (K * V))
  : option V :=
  match l with
  | [] => None
  | (k', v) :: l' => if decide (k' = k) then Some v else assoc k l'
  end.

Section Workflow.
Variable env : Env.
Variable agents : Agents.

Definition _classify_request (state : WorkflowState) : M WorkflowState :=
  try_catch
    (let request := ws_request state in
     r ← try_catch
           (classification ← classify agents request;
            mret (inr classification))
           (fun classification_error =>
              mret (inl (failed ("Classification error: " +:+ classification_error)
                           "Error during classification" state)));
     match r with
     | inl returned => mret returned
     | inr classification =>
         (* a classification is an object here: the branch for [None] of the
            source cannot be entered, the print above it reads attributes of
            the classification *)
         mret (set_ws_status
                 ("Classified as " +:+ cr_category classification +:+ " with "
                  +:+ format_2f env (cr_confidence classification)
                  +:+ " confidence")
                 (set_ws_classification (Some classification) state))
     end)
    (fun e =>
       mret (failed ("Classification error: " +:+ e)
               "Error during classification" state)).

Definition _generate_rfp (state : WorkflowState) : M WorkflowState :=
  try_catch
    (let request := ws_request state in
     match ws_classification state with
     | None =>
         mret (failed "No classification result available"
                 "Error: Classification failed" state)
     | Some classification =>
         r ← try_catch
               (rfp ← generate_rfp agents request classification;
                mret (inr rfp))
               (fun generation_error =>
                  mret (inl (failed ("RFP generation error: " +:+ generation_error)
                               "Error during RFP generation" state)));
         match r with
         | inl returned => mret returned
         | inr rfp =>
             mret (set_ws_status
                     ("RFP generated for " +:+ cr_category classification)
                     (set_ws_rfp (Some rfp) state))
         end
     end)
    (fun e =>
       mret (failed ("RFP generation error: " +:+ e)
               "Error during RFP generation" state)).

Definition _approve_rfp (state : WorkflowState) : M WorkflowState :=
  try_catch
    (match ws_rfp state with
     | None =>
         mret (failed "No RFP to validate" "Error: No RFP to validate" state)
     | Some rfp =>
         approval ← try_catch (validate_rfp agents rfp)
                      (fun validation_error => raise validation_error);
         let status :=
           if ar_approved approval then "RFP approved"
           else "RFP rejected: " +:+ ar_feedback approval in
         mret (set_ws_status status (set_ws_approval (Some approval) state))
     end)
    (fun e =>
       mret (failed ("Approval error: " +:+ e) "Error during RFP approval" state)).

Definition _route_after_approval (state : WorkflowState) : string :=
  match ws_approval state with
  | None => "rejected"
  | Some approval => if ar_approved approval then "approved" else "rejected"
  end.

Definition _send_email (state : WorkflowState) : M WorkflowState :=
  try_catch
    (match ws_rfp state with
     | None => raise "'NoneType' object has no attribute 'suppliers'"
     | Some rfp =>
         r ← get_rfp rfp;
         match rfp_suppliers r with
         | [] =>
             mret (set_ws_status "No suppliers specified. RFP not sent."
                     (set_ws_email_sent false state))
         | _ :: _ =>
             success ← send_to_suppliers agents rfp;
             let status :=
               if (success : bool) then "RFP sent to suppliers"
               else "Failed to send RFP to suppliers" in
             mret (set_ws_status status (set_ws_email_sent success state))
         end
     end)
    (fun e =>
       mret (set_ws_email_sent false
               (failed ("Email sending error: " +:+ e)
                  "Error during email sending" state))).

Definition _handle_error (state : WorkflowState) : M WorkflowState :=
  let error := default "None" (ws_error state) in
  mret (set_ws_status ("Workflow failed: " +:+ error) state).

Definition _build_workflow : StateGraph :=
  let graph := empty_graph in
  let graph := add_node CLASSIFY _classify_request graph in
  let graph := add_node GENERATE_RFP _generate_rfp graph in
  let graph := add_node APPROVE_RFP _approve_rfp graph in
  let graph := add_node SEND_EMAIL _send_email graph in
  let graph := add_node ERROR_HANDLER _handle_error graph in
  let graph := set_entry_point CLASSIFY graph in
  let graph := add_edge CLASSIFY (Goto GENERATE_RFP) graph in
  let graph := add_edge GENERATE_RFP (Goto APPROVE_RFP) graph in
  let graph :=
    add_conditional_edges APPROVE_RFP _route_after_approval
      [("approved", Goto SEND_EMAIL); ("rejected", END)] graph in
  let graph := add_edge SEND_EMAIL END graph in
  let graph := add_edge ERROR_HANDLER END graph in
  graph.

End Workflow.

(** *** Running a graph

    The graph library is not part of the sources.  Its run is modelled as
    the library documents it for a graph without parallel edges: the node
    at the entry point runs on the initial state; the state a node returns
    replaces the current one; the plain edge of the node, or else the answer
    of its router, names the next node; the run ends at [END] and fails when
    it exceeds the step limit of the library. *)

Definition recursion_limit : nat := 25.

Definition next_target (g : StateGraph) (n : Node) (state : WorkflowState)
  : M Target :=
  match assoc n (edges g) with
  | Some t => mret t
  | None =>
      match assoc n (branches g) with
      | Some (router, targets) =>
          match assoc (router state) targets with
          | Some t => mret t
          | None => raise ("'" +:+ router state +:+ "'")
          end
      | None => mret END
      end
  end.

Fixpoint run (g : StateGraph) (fuel : nat) (n : Node) (state : WorkflowState)
    (steps : list Step) : M (WorkflowState * list Step) :=
  match fuel with
  | O => raise "Recursion limit of 25 reached without hitting a stop condition"
  | S fuel' =>
      match assoc n (nodes g) with
      | None => raise "unknown node"
      | Some f =>
          state' ← f state;
          w ← get_world;
          let steps' :=
            steps ++ [{| step_node := n; step_state := state'; step_world := w |}] in
          next ← next_target g n state';
          match next with
          | END => mret (state', steps')
          | Goto n' => run g fuel' n' state' steps'
          end
      end
  end.

(** [graph.compile().ainvoke(initial_state)]; [compile] is taken to accept
    the graph as [_build_workflow] leaves it. *)
Definition ainvoke (g : StateGraph) (initial_state : WorkflowState)
  : M (WorkflowState * list Step) :=
  match entry_point g with
  | Some n => run g recursion_limit n initial_state []
  | None => raise "Graph must have an entrypoint"
  end.

Definition initial_state (request : loc) : WorkflowState :=
  {| ws_request := request; ws_classification := None; ws_rfp := None;
     ws_approval := None; ws_email_sent := false; ws_error := None;
     ws_status := "Started procurement workflow" |}.

(** [execute(request)], with the record of the nodes that ran. *)
Definition execute_traced (env : Env) (agents : Agents) (request : loc)
  : M (WorkflowState * list Step) :=
  try_catch
    (ainvoke (_build_workflow env agents) (initial_state request))
    (fun e =>
       mret (failed ("Workflow execution error: " +:+ e)
               "Workflow execution failed" (initial_state request), [])).

Definition execute (env : Env) (agents : Agents) (request : loc)
  : M WorkflowState :=
  r ← execute_traced env agents request; mret (r.1).

End ProcurementWorkflow.

(** *** Sample environments and stores for the worked examples *)

Definition sample_request : ProcurementRequest :=
  {| pr_id := None; pr_title := "Laptops";
     pr_description := "Ten laptops for the design team";
     pr_estimated_budget := None; pr_timeline := Some "Six weeks";
     pr_department := None; pr_requester := None;
     pr_required_by_date := None; pr_additional_notes := None;
     pr_created_at := 0 |}.

(** A store that holds the sample request at address 0 and no RFP. *)
Definition sample_world : World :=
  {| requests := {[ 0%nat := sample_request ]}; rfps := ∅;
     ticks := 0; log := [] |}.

(** An environment with fixed answers of the three chains and a transport
    that decides by the recipient. *)
Definition sample_env
    (classification generation approval : exn + gmap string JVal)
    (smtp : string -> bool) : Env :=
  {| classification_chain := fun _ => classification;
     generation_chain := fun _ => generation;
     approval_chain := fun _ => approval;
     uuid4 := fun n => "uuid-" +:+ String (ascii_of_nat (48 + n)) EmptyString;
     now := fun n => Z.of_nat n;
     py_str := fun _ => "<value>";
     format_2f := fun _ => "0.90";
     create_email_message := fun _ supplier => inr ("To: " +:+ sup_email supplier);
     smtp_send := fun _ _ recipient => smtp recipient |}.

Definition hardware_classification : gmap string JVal :=
  list_to_map
    [("category", JStr "Hardware"); ("confidence", JFloat (PyFloat.of_decimal 9 1));
     ("reasoning", JStr "The request is for physical equipment.")].

(** A draft that leaves out the keys evaluation_criteria, quantity,
    warranty, sla and quality. *)
Definition hardware_draft : gmap string JVal :=
  list_to_map
    [("project_overview", JStr "Ten laptops."); ("requirements", JStr "16 GB RAM.");
     ("timeline", JStr "Six weeks."); ("budget", JStr "$20,000");
     ("submission_instructions", JStr "By e-mail.")].

Definition approving_review : gmap string JVal :=
  list_to_map
    [("approved", JBool true); ("feedback", JStr "Complete and clear.");
     ("issues", JArr [])].

(** The classifier is down. *)
Definition env_classifier_down : Env :=
  sample_env (inl "Connection error.") (inr hardware_draft)
    (inr approving_review) (fun _ => true).

(** Every chain answers. *)
Definition env_all_up : Env :=
  sample_env (inr hardware_classification) (inr hardware_draft)
    (inr approving_review) (fun _ => true).

(** *** Notions used to state the properties of the workflow *)

Definition step_of (n : Node) (s : WorkflowState) (w : World) : Step :=
  {| step_node := n; step_state := s; step_world := w |}.

(** The steps recorded by a traced run, and the nodes that ran. *)
Definition trace_of (r : (exn + (WorkflowState * list Step)) * World)
  : list Step :=
  match r.1 with
  | inr (_, steps) => steps
  | inl _ => []
  end.

Definition nodes_run (r : (exn + (WorkflowState * list Step)) * World)
  : list Node :=
  map step_node (trace_of r).

(** The run of the graph of [_build_workflow], written node by node. *)
Definition run_nodes (env : Env) (agents : Agents) (s0 : WorkflowState)
    (w : World) : (exn + (WorkflowState * list Step)) * World :=
  match ProcurementWorkflow._classify_request env agents s0 w with
  | (inl e, w1) => (inl e, w1)
  | (inr s1, w1) =>
      match ProcurementWorkflow._generate_rfp agents s1 w1 with
      | (inl e, w2) => (inl e, w2)
      | (inr s2, w2) =>
          match ProcurementWorkflow._approve_rfp agents s2 w2 with
          | (inl e, w3) => (inl e, w3)
          | (inr s3, w3) =>
              let steps :=
                [step_of CLASSIFY s1 w1; step_of GENERATE_RFP s2 w2;
                 step_of APPROVE_RFP s3 w3] in
              if String.eqb (ProcurementWorkflow._route_after_approval s3)
                   "approved"
              then
                match ProcurementWorkflow._send_email agents s3 w3 with
                | (inl e, w4) => (inl e, w4)
                | (inr s4, w4) =>
                    (inr (s4, steps ++ [step_of SEND_EMAIL s4 w4]), w4)
                end
              else (inr (s3, steps), w3)
          end
      end
  end.

(** The state in which a run ends when its classification step failed
    with [e]. *)
Definition after_failed_classification (request : loc) (e : exn)
  : WorkflowState :=
  failed "No RFP to validate" "Error: No RFP to validate"
    (failed "No classification result available" "Error: Classification failed"
       (failed ("Classification error: " +:+ e) "Error during classification"
          (ProcurementWorkflow.initial_state request))).

(** The final state of a run. *)
Definition final_of (r : (exn + WorkflowState) * World) : option WorkflowState :=
  match r.1 with
  | inr s => Some s
  | inl _ => None
  end.

(** *** Notions used to state the properties of the delivery *)

(** The delivery to one supplier when [n] calls were made to the outside:
    whether it succeeded, the number of calls made after it, and the entry
    it leaves in the log.  The transport is called only when the message
    could be built. *)
Definition delivery (env : Env) (rfp : RFP) (supplier : Supplier) (n : nat)
  : bool * nat * LogEvent :=
  match create_email_message env rfp supplier with
  | inl e => (false, n, LogSendError (sup_email supplier) e)
  | inr msg =>
      if smtp_send env n msg (sup_email supplier)
      then (true, S n, LogSent (rfp_id rfp) (sup_email supplier))
      else (false, S n, LogSendFailed (rfp_id rfp) (sup_email supplier))
  end.

(** The deliveries to a list of suppliers, one after the other. *)
Fixpoint deliveries (env : Env) (rfp : RFP) (suppliers : list Supplier)
    (n : nat) : list (bool * LogEvent) :=
  match suppliers with
  | [] => []
  | supplier :: suppliers' =>
      let '(ok, n', ev) := delivery env rfp supplier n in
      (ok, ev) :: deliveries env rfp suppliers' n'
  end.

(** The number of calls made to the outside after these deliveries. *)
Fixpoint calls_after (env : Env) (rfp : RFP) (suppliers : list Supplier)
    (n : nat) : nat :=
  match suppliers with
  | [] => n
  | supplier :: suppliers' =>
      calls_after env rfp suppliers' (delivery env rfp supplier n).1.2
  end.

(** The recipient a log entry is about. *)
Definition event_email (ev : LogEvent) : option string :=
  match ev with
  | LogNoSuppliers _ => None
  | LogSent _ email | LogSendFailed _ email | LogSendError email _ => Some email
  end.

Definition sample_supplier (name email : string) : Supplier :=
  {| sup_name := name; sup_email := email; sup_phone := None;
     sup_contact_person := None |}.

(** An approved RFP at address 0, with the given suppliers. *)
Definition approved_rfp (suppliers : list Supplier) : RFP :=
  set_rfp_suppliers suppliers
    (set_rfp_status APPROVED
       (sample_rfp "Overview, Requirements, Timeline, Budget: $100")).

Definition world_with_rfp (r : RFP) : World :=
  {| requests := {[ 0%nat := sample_request ]}; rfps := {[ 0%nat := r ]};
     ticks := 0; log := [] |}.

(** A transport that fails for one address. *)
Definition env_one_bad_address : Env :=
  sample_env (inr hardware_classification) (inr hardware_draft)
    (inr approving_review)
    (fun recipient => negb (String.eqb recipient "sales@beta.example")).

(** The world after [n] calls in all and some more log entries. *)
Definition with_delivery_log (w : World) (n : nat) (evs : list LogEvent)
  : World :=
  {| requests := requests w; rfps := rfps w; ticks := n; log := log w ++ evs |}.

(** The world in which the object at [l] is [r], after [n] calls in all and
    some more log entries. *)
Definition with_rfp (w : World) (l : loc) (r : RFP) (n : nat)
    (evs : list LogEvent) : World :=
  {| requests := requests w; rfps := <[l := r]> (rfps w); ticks := n;
     log := log w ++ evs |}.

Definition three_suppliers : list Supplier :=
  [sample_supplier "Alpha" "sales@alpha.example";
   sample_supplier "Beta" "sales@beta.example";
   sample_supplier "Gamma" "sales@gamma.example"].

(** *** Notions used to state the properties of the RFP generation *)

(** The input that [generate_rfp] hands to its chain. *)
Definition generation_input (req : ProcurementRequest)
    (classification : ClassificationResult) : GenerationInput :=
  {| gi_title := pr_title req;
     gi_description := pr_description req;
     gi_budget := RFPGenerationAgent.budget_or_default (pr_estimated_budget req);
     gi_timeline := or_str (pr_timeline req) "Not specified";
     gi_department := or_str (pr_department req) "Not specified";
     gi_requester := or_str (pr_requester req) "Not specified";
     gi_required_by_date :=
       RFPGenerationAgent.date_or_default (pr_required_by_date req);
     gi_additional_notes := or_str (pr_additional_notes req) "Not specified";
     gi_category := cr_category classification |}.

(** The template of a category, with the Services template as default. *)
Definition template_of (category : string) : string :=
  RFPGenerationAgent.template_for category Settings.services_template.

(** The answer of the drafting chain once the defaults are added. *)
Definition with_defaults (d : gmap string JVal) : gmap string JVal :=
  fold_left RFPGenerationAgent.add_default RFPGenerationAgent.template_keys d.

(** The RFP object that [generate_rfp] builds when [n] calls were made to
    the outside. *)
Definition generated_rfp (env : Env) (req : ProcurementRequest)
    (classification : ClassificationResult) (request_id content : string)
    (n : nat) : RFP :=
  {| rfp_id := Some (uuid4 env n);
     rfp_request_id := request_id;
     rfp_title := "RFP for " +:+ pr_title req;
     rfp_category := cr_category classification;
     rfp_content := content;
     rfp_status := PENDING_APPROVAL;
     rfp_created_at := now env (S n);
     rfp_updated_at := now env (S (S n));
     rfp_suppliers := [];
     rfp_approval_feedback := None;
     rfp_approval_date := None;
     rfp_sent_date := None |}.

Definition sample_classification (category : string) : ClassificationResult :=
  {| cr_request_id := "req-1"; cr_category := category;
     cr_confidence := PyFloat.of_decimal 9 1;
     cr_reasoning := "By the wording of the request." |}.

(** A store whose request at address 0 has an id. *)
Definition world_with_id : World :=
  {| requests := {[ 0%nat := set_pr_id (Some "req-1") sample_request ]};
     rfps := ∅; ticks := 0; log := [] |}.

(** A replacement field that [format] can fill from [kwargs]. *)
Definition field_ok {V : Type} (kwargs : gmap string V) (name : string) : Prop :=
  PyFormat.all_digits name = false /\ is_Some (kwargs !! name).

(** The store after [generate_rfp] has built [rfp]. *)
Definition with_new_rfp (w : World) (rfp : RFP) : World :=
  {| requests := requests w;
     rfps := <[fresh (dom (rfps w)) := rfp]> (rfps w);
     ticks := S (S (S (ticks w))); log := log w |}.

Definition sparse_draft : gmap string JVal :=
  list_to_map [("project_overview", JStr "Ten laptops."); ("budget", JInt 20000)].

(** *** Notions used to state what the steps change in the store *)

(** Two versions of an RFP object that differ at most in the attributes the
    approval and the delivery assign to: status, approval feedback,
    approval date and sent date. *)
Definition same_identity (r r' : RFP) : Prop :=
  rfp_id r = rfp_id r'
  /\ rfp_request_id r = rfp_request_id r'
  /\ rfp_title r = rfp_title r'
  /\ rfp_category r = rfp_category r'
  /\ rfp_content r = rfp_content r'
  /\ rfp_suppliers r = rfp_suppliers r'
  /\ rfp_created_at r = rfp_created_at r'
  /\ rfp_updated_at r = rfp_updated_at r'.

(** The request as the classifier leaves it: an id is filled in when
    there was none, nothing else changes. *)
Definition with_id (env : Env) (n : nat) (r0 : ProcurementRequest)
  : ProcurementRequest :=
  if falsy (pr_id r0) then set_pr_id (Some (uuid4 env n)) r0 else r0.

(** The store after the classifier has looked at the request at [l]. *)
Definition with_request_id (env : Env) (l : loc) (r0 : ProcurementRequest)
    (w : World) : World :=
  if falsy (pr_id r0)
  then {| requests := <[l := set_pr_id (Some (uuid4 env (ticks w))) r0]> (requests w);
          rfps := rfps w; ticks := S (ticks w); log := log w |}
  else w.

(** The verdict of [validate_rfp] on an RFP: the answer of the chain read
    into an approval result, then the guardrails. *)
Definition review (env : Env) (r : RFP) : exn + ApprovalResult :=
  match approval_chain env
          {| vi_title := rfp_title r; vi_category := rfp_category r;
             vi_content := rfp_content r |} with
  | inl e => inl e
  | inr result =>
      match result !! "approved" with
      | None => inl "'approved'"
      | Some approved =>
          match result !! "feedback" with
          | None => inl "'feedback'"
          | Some feedback =>
              match
                (rfp_id ← rfp_id r;
                 approved ← as_bool approved;
                 feedback ← as_str feedback;
                 issues ← as_str_list (ApprovalAgent.issues_of result);
                 Some {| ar_rfp_id := rfp_id; ar_approved := approved;
                         ar_feedback := feedback; ar_issues := issues |})
              with
              | None => inl "validation error for ApprovalResult"
              | Some approval_result =>
                  inr (ApprovalAgent._apply_guardrails r approval_result)
              end
          end
      end
  end.

(** The RFP as [validate_rfp] leaves it after the verdict [a], [n] calls
    having been made to the outside. *)
Definition reviewed_rfp (env : Env) (r : RFP) (a : ApprovalResult) (n : nat)
  : RFP :=
  set_rfp_approval_feedback (Some (ar_feedback a))
    (if ar_approved a
     then set_rfp_approval_date (Some (now env n)) (set_rfp_status APPROVED r)
     else set_rfp_status REJECTED r).

(** A computation that leaves the store, the clock and the log alone. *)
Definition keeps_world {A : Type} (c : M A) : Prop :=
  forall w, (c w).2 = w.

(** From [w] to [w'] the requests are the same objects with the same
    values, and every RFP of [w] is still there, changed at most in the
    attributes of the approval and of the delivery. *)
Definition evolves (w w' : World) : Prop :=
  requests w' = requests w
  /\ forall l r, rfps w !! l = Some r ->
                 exists r', rfps w' !! l = Some r' /\ same_identity r r'.

(** The RFP reference of a state points to an object of the store. *)
Definition holds_objects (s : WorkflowState) (w : World) : Prop :=
  forall l, ws_rfp s = Some l -> is_Some (rfps w !! l).

(** *** Notions used to state further properties of the approval *)

(** The approval result that [validate_rfp] builds from the answer of the
    chain, before the guardrails. *)
Definition tentative_result (id : string) (approved : bool) (feedback : string)
    (issues : list string) : ApprovalResult :=
  {| ar_rfp_id := id; ar_approved := approved; ar_feedback := feedback;
     ar_issues := issues |}.

(** The input that [validate_rfp] hands to its chain. *)
Definition validation_input (r : RFP) : ValidationInput :=
  {| vi_title := rfp_title r; vi_category := rfp_category r;
     vi_content := rfp_content r |}.

(** An answer of the reviewing chain. *)
Definition review_answer (approved : bool) (feedback : string)
    (issues : option (list string)) : gmap string JVal :=
  let base : gmap string JVal :=
    <["approved" := JBool approved]> (<["feedback" := JStr feedback]> ∅) in
  match issues with
  | Some l => <["issues" := JArr (JStr <$> l)]> base
  | None => base
  end.

Definition env_with_review (answer : exn + gmap string JVal) : Env :=
  sample_env (inr hardware_classification) (inr hardware_draft) answer
    (fun _ => true).

Definition set_rfp_id (v : option string) (r : RFP) : RFP :=
  {| rfp_id := v; rfp_request_id := rfp_request_id r;
     rfp_title := rfp_title r; rfp_category := rfp_category r;
     rfp_content := rfp_content r; rfp_status := rfp_status r;
     rfp_created_at := rfp_created_at r; rfp_updated_at := rfp_updated_at r;
     rfp_suppliers := rfp_suppliers r;
     rfp_approval_feedback := rfp_approval_feedback r;
     rfp_approval_date := rfp_approval_date r;
     rfp_sent_date := rfp_sent_date r |}.

(* ===================================================================== *)
(** ** ui/app.py *)
(* ===================================================================== *)

(** What the form does with a submitted request, once the request object
    and the supplier are built: it runs the workflow, assigns the supplier
    of the form to the RFP of the final state if there is one, and, if the
    approval of the final state is positive, calls [send_to_suppliers] and
    writes the outcome into the final state. *)
Definition process_submission (env : Env) (request : loc) (supplier : Supplier)
  : M WorkflowState :=
  result ← ProcurementWorkflow.execute env (agents_of env) request;
  match ws_rfp result with
  | Some rfp =>
      modify_rfp rfp (set_rfp_suppliers [supplier]);;
      match ws_approval result with
      | Some approval =>
          if ar_approved approval then
            try_catch
              (email_sent ← ApprovalAgent.send_to_suppliers env rfp;
               mret (set_ws_status
                       (if (email_sent : bool) then "RFP sent to suppliers"
                        else "Failed to send RFP to suppliers")
                       (set_ws_email_sent email_sent result)))
              (fun e =>
                 mret (set_ws_email_sent false
                         (set_ws_error (Some ("Email sending error: " +:+ e))
                            result)))
          else mret result
      | None => mret result
      end
  | None => mret result
  end.

(** *** Sample environments for the failures of the later steps *)

(** The drafting chain is down. *)
Definition env_drafter_down : Env :=
  sample_env (inr hardware_classification) (inl "Rate limit reached.")
    (inr approving_review) (fun _ => true).

(** The classification that the sample classifier gives to the sample
    request, which gets the first generated id. *)
Definition sample_result : ClassificationResult :=
  {| cr_request_id := "uuid-0"; cr_category := "Hardware";
     cr_confidence := PyFloat.of_decimal 9 1;
     cr_reasoning := "The request is for physical equipment." |}.

(** *** Notions used to state the properties of the classifier *)

(** The input that [classify] hands to its chain. *)
Definition classification_input (req : ProcurementRequest)
  : ClassificationInput :=
  {| ci_title := pr_title req;
     ci_description := pr_description req;
     ci_additional_notes := or_str (pr_additional_notes req) "None" |}.

(** The first key of the answer that [classify] reads and does not find. *)
Definition first_missing_key (result : gmap string JVal) : option string :=
  List.find (fun key => bool_decide (result !! key = None))
    ["category"; "confidence"; "reasoning"].

(** *** Notions used to state the closed form of the content of an RFP *)

(** The pieces of a template, read as [format] reads it: literal text
    ([inl]) and replacement fields ([inr], by name), in order; [None] when
    the template is not well formed (or uses a field operator). *)
Definition push_char (c : ascii) (ps : list (string + string))
  : list (string + string) :=
  match ps with
  | inl t :: ps' => inl (String c t) :: ps'
  | _ => inl (String c EmptyString) :: ps
  end.

Fixpoint pieces_from (s : string) (field : option string)
  : option (list (string + string)) :=
  match field with
  | None =>
      match s with
      | EmptyString => Some []
      | String c s' =>
          if PyFormat.is_brace_open c then
            match s' with
            | String c' s'' =>
                if PyFormat.is_brace_open c'
                then push_char c <$> pieces_from s'' None
                else pieces_from s' (Some EmptyString)
            | EmptyString => None
            end
          else if PyFormat.is_brace_close c then
            match s' with
            | String c' s'' =>
                if PyFormat.is_brace_close c'
                then push_char c <$> pieces_from s'' None
                else None
            | EmptyString => None
            end
          else push_char c <$> pieces_from s' None
      end
  | Some name =>
      match s with
      | EmptyString => None
      | String c s' =>
          if PyFormat.is_brace_close c then
            (fun ps => inr name :: ps) <$> pieces_from s' None
          else if PyFormat.is_brace_open c then None
          else if PyFormat.is_field_operator c then None
          else pieces_from s' (Some (name +:+ String c EmptyString))
      end
  end.

Definition pieces (template : string) : option (list (string + string)) :=
  pieces_from template None.

(** The text of a list of pieces, given the text of each field. *)
Definition piece_text (value : string -> string) (p : string + string)
  : string :=
  match p with
  | inl t => t
  | inr name => value name
  end.

Definition text_of (value : string -> string) (ps : list (string + string))
  : string :=
  fold_right (fun p out => piece_text value p +:+ out) EmptyString ps.

Fixpoint literals (ps : list (string + string)) : list string :=
  match ps with
  | [] => []
  | inl t :: ps' => t :: literals ps'
  | inr _ :: ps' => literals ps'
  end.

Fixpoint field_names (ps : list (string + string)) : list string :=
  match ps with
  | [] => []
  | inl _ :: ps' => field_names ps'
  | inr name :: ps' => name :: field_names ps'
  end.

Definition lower_pieces (ps : list (string + string))
  : list (string + string) :=
  map (fun p => match p with
                | inl t => inl (PyStr.lower t)
                | inr name => inr name
                end) ps.

(** What the template gets for a field: the entry of the answer of the
    drafting chain as [format] renders it, the empty string when the answer
    has no such entry. *)
Definition drafted (env : Env) (d : gmap string JVal) (name : string)
  : string :=
  RFPGenerationAgent.str_of env (default (JStr "") (d !! name)).

(** The character [c] is the first one of [t]. *)
Definition begins_with (c : ascii) (t : string) : bool :=
  match t with
  | String c' _ => Ascii.eqb c c'
  | EmptyString => false
  end.

(** The character [c] is the last one of [t]. *)
Fixpoint ends_with (c : ascii) (t : string) : bool :=
  match t with
  | EmptyString => false
  | String c' EmptyString => Ascii.eqb c c'
  | String _ t' => ends_with c t'
  end.

(** Fields and literal texts alternate, and the character [c] stands
    between a field and the text of the template on either side. *)
Fixpoint separated (c : ascii) (ps : list (string + string)) : bool :=
  match ps with
  | [] => true
  | inl t :: rest =>
      match rest with
      | [] => true
      | inr _ :: _ => ends_with c t
      | inl _ :: _ => false
      end && separated c rest
  | inr _ :: rest =>
      match rest with
      | [] => true
      | inl t :: _ => begins_with c t
      | inr _ :: _ => false
      end && separated c rest
  end.

(** The fields of the Raw Materials template. *)
Definition raw_materials_fields : list string :=
  ["project_overview"; "requirements"; "quantity"; "quality"; "timeline";
   "budget"; "submission_instructions"].

(** *** Notions used to state what the budget rule cannot see *)

(** [re.search(word, content, re.IGNORECASE) is not None] for a word
    written in ASCII. *)
Definition found (word content : string) : bool :=
  match Re.search (Re.lits word) content with
  | Some _ => true
  | None => false
  end.

(** Wherever the continuation [k1] fails, [k2] fails on the same text,
    whatever the group holds. *)
Definition never_beyond {A B : Type}
    (k1 : Re.mstate -> option A) (k2 : Re.mstate -> option B) : Prop :=
  forall s g g', k1 (Re.MState s g) = None -> k2 (Re.MState s g') = None.

(** The content has no dollar sign, and a search that ignores the case
    finds neither [USD] nor [dollars] in it. *)
Definition no_currency_marker (content : string) : bool :=
  negb (PyStr.contains "$" content)
  && negb (found "USD" content)
  && negb (found "dollars" content).

(** *** Notions used to state the properties of the mail service *)



(* ===================================================================== *)
(** * Properties *)
(* ===================================================================== *)


(* ===================================================================== *)
(** * Properties of the guardrails *)
(* ===================================================================== *)

Section GuardrailFacts.
Import ApprovalAgent.

(** The loop over the essential sections, in closed form. *)
Lemma fold_check_section content sections st :
  fold_left (check_section content) sections st =
  (fst st && forallb (fun s => negb (section_missing content s)) sections,
   snd st ++ map missing_issue (List.filter (section_missing content) sections)).
Proof.
  revert st. induction sections as [|s sections IH]; intros [a l]; simpl.
  - by rewrite andb_true_r, app_nil_r.
  - rewrite IH. unfold check_section.
    destruct (section_missing content s); simpl.
    + by rewrite andb_false_r, <- app_assoc.
    + done.
Qed.

Lemma apply_guardrails_issues rfp ar :
  ar_issues (_apply_guardrails rfp ar) =
  ar_issues ar ++ budget_part rfp ++ map missing_issue (missing_sections rfp).
Proof.
  unfold _apply_guardrails, budget_part, missing_sections.
  rewrite fold_check_section. simpl.
  destruct (PyFloat.gt_int _ _); simpl; [by rewrite <- app_assoc | done].
Qed.

Lemma apply_guardrails_approved rfp ar :
  ar_approved (_apply_guardrails rfp ar) =
  ar_approved ar
  && negb (PyFloat.gt_int (_extract_budget (rfp_content rfp)) Settings.MAX_BUDGET)
  && forallb (fun s => negb (section_missing (rfp_content rfp) s)) essential_sections.
Proof.
  unfold _apply_guardrails. rewrite fold_check_section.
  destruct (PyFloat.gt_int _ _), (ar_approved ar); reflexivity.
Qed.

Lemma apply_guardrails_feedback rfp ar :
  ar_feedback (_apply_guardrails rfp ar) = ar_feedback ar.
Proof. done. Qed.

Lemma apply_guardrails_rfp_id rfp ar :
  ar_rfp_id (_apply_guardrails rfp ar) = ar_rfp_id ar.
Proof. done. Qed.

Lemma forallb_filter_nil {A} (f : A -> bool) l :
  forallb (fun x => negb (f x)) l = true <-> List.filter f l = [].
Proof.
  induction l as [|x l IH]; simpl; [done|].
  destruct (f x); simpl; [split; done | exact IH].
Qed.

End GuardrailFacts.


Section StringFacts.
Import PyStr.

Lemma app_cons c a b : String c a +:+ b = String c (a +:+ b).
Proof. reflexivity. Qed.

Lemma startswith_spec p s :
  startswith p s = true <-> exists post, s = p +:+ post.
Proof.
  revert s. induction p as [|a p IH]; intros s; simpl.
  - split; [intros _; by exists s | done].
  - destruct s as [|b s]; simpl.
    + split; [done | intros [post H]; rewrite app_cons in H; discriminate].
    + destruct (Ascii.eqb_spec a b) as [->|Hne].
      * rewrite IH. split; intros [post H]; exists post;
          rewrite ?app_cons in *; congruence.
      * split; [done | intros [post H]; rewrite app_cons in H; congruence].
Qed.

Lemma contains_spec needle hay :
  contains needle hay = true <-> exists pre post, hay = pre +:+ needle +:+ post.
Proof.
  induction hay as [|c hay IH]; simpl.
  - rewrite orb_false_r, startswith_spec. split.
    + intros [post H]. by exists EmptyString, post.
    + intros [[|a pre] [post H]]; [by exists post | rewrite app_cons in H; discriminate].
  - rewrite orb_true_iff, startswith_spec, IH. split.
    + intros [[post H] | (pre & post & H)].
      * by exists EmptyString, post.
      * exists (String c pre), post. by rewrite app_cons, H.
    + intros ([|a pre] & post & H).
      * left. by exists post.
      * right. exists pre, post. rewrite app_cons in H. congruence.
Qed.

Lemma lower_app a b : lower (a +:+ b) = lower a +:+ lower b.
Proof. induction a as [|c a IH]; [done|]. rewrite app_cons. simpl. by rewrite IH. Qed.

Lemma lower_split c a b :
  lower c = a +:+ b ->
  exists a' b', c = a' +:+ b' /\ lower a' = a /\ lower b' = b.
Proof.
  revert c. induction a as [|x a IH]; intros c H.
  - by exists EmptyString, c.
  - rewrite app_cons in H. destruct c as [|y c]; simpl in H; [discriminate|].
    injection H as Hx Hc. destruct (IH _ Hc) as (a' & b' & -> & Ha & Hb).
    exists (String y a'), b'. rewrite app_cons. simpl. by rewrite Hx, Ha.
Qed.

(** The test of the guardrail is the case-insensitive substring test. *)
Lemma section_missing_spec content section :
  ApprovalAgent.section_missing content section = false
  <-> ci_substring section content.
Proof.
  unfold ApprovalAgent.section_missing. rewrite negb_false_iff, contains_spec.
  split.
  - intros (pre & post & H).
    destruct (lower_split _ _ _ H) as (pre' & r & -> & _ & Hr).
    destruct (lower_split _ _ _ Hr) as (w & post' & -> & Hw & _).
    by exists pre', w, post'.
  - intros (pre & w & post & -> & Hw).
    exists (lower pre), (lower post). by rewrite !lower_app, Hw.
Qed.

End StringFacts.

Section GuardrailClaims.
Import ApprovalAgent.

Lemma filter_sublist_of {A} (f : A -> bool) (l : list A) :
  sublist (List.filter f l) l.
Proof.
  induction l as [|x l IH]; simpl; [constructor|].
  destruct (f x); by constructor.
Qed.

Lemma elem_of_missing_sections rfp section :
  section ∈ missing_sections rfp <->
  section ∈ essential_sections /\ ~ ci_substring section (rfp_content rfp).
Proof.
  unfold missing_sections. rewrite !list_elem_of_In, filter_In.
  rewrite <- section_missing_spec, not_false_iff_true. done.
Qed.

(** C1. When the content of an RFP lacks one or more of the sections
    Overview, Requirements, Timeline, Budget (each looked for as a substring,
    whatever the case of the letters), the guardrails set [approved] to
    false, and the final issue list is the issue list of the model, then
    the issue of the budget rule if it fired, then one
    [Missing essential section: <name>] per missing section, in the order
    Overview, Requirements, Timeline, Budget. *)
Theorem guardrails_report_missing_sections
    (rfp : RFP) (approval_result : ApprovalResult) :
  missing_sections rfp <> [] ->
  ar_approved (_apply_guardrails rfp approval_result) = false
  /\ ar_issues (_apply_guardrails rfp approval_result)
     = ar_issues approval_result ++ budget_part rfp
         ++ map missing_issue (missing_sections rfp)
  /\ (forall section,
        section ∈ missing_sections rfp <->
        section ∈ ["Overview"; "Requirements"; "Timeline"; "Budget"]
        /\ ~ ci_substring section (rfp_content rfp))
  /\ sublist (missing_sections rfp)
       ["Overview"; "Requirements"; "Timeline"; "Budget"]
  /\ (forall section, missing_issue section
                      = "Missing essential section: " +:+ section).
Proof.
  intros Hmissing. split; [|split; [|split; [|split]]].
  - rewrite apply_guardrails_approved.
    destruct (forallb _ essential_sections) eqn:Hall.
    + apply forallb_filter_nil in Hall. by destruct Hmissing.
    + apply andb_false_r.
  - apply apply_guardrails_issues.
  - intros section. apply elem_of_missing_sections.
  - apply filter_sublist_of.
  - reflexivity.
Qed.

Lemma guardrails_report_missing_sections_witness :
  ar_approved
    (_apply_guardrails
       (sample_rfp "Project Overview. Requirements: ten laptops. Budget: $5,000")
       (sample_approval true ["Delivery terms are vague"])) = false
  /\ ar_issues
       (_apply_guardrails
          (sample_rfp "Project Overview. Requirements: ten laptops. Budget: $5,000")
          (sample_approval true ["Delivery terms are vague"]))
     = ["Delivery terms are vague"; "Missing essential section: Timeline"].
Proof.
  destruct (guardrails_report_missing_sections
              (sample_rfp "Project Overview. Requirements: ten laptops. Budget: $5,000")
              (sample_approval true ["Delivery terms are vague"]))
    as (Happroved & Hissues & _).
  - vm_compute. discriminate.
  - split; [exact Happroved | rewrite Hissues; vm_compute; reflexivity].
Defined.

(** C3. The guardrails only tighten the verdict of the model: a tentative
    [approved = false] stays false, and the issues of the model are a prefix
    of the final issue list (what the guardrails add comes after them). *)
Theorem guardrails_only_tighten (rfp : RFP) (approval_result : ApprovalResult) :
  (ar_approved approval_result = false ->
   ar_approved (_apply_guardrails rfp approval_result) = false)
  /\ ar_issues approval_result
       `prefix_of` ar_issues (_apply_guardrails rfp approval_result)
  /\ ar_issues (_apply_guardrails rfp approval_result)
     = ar_issues approval_result
         ++ (budget_part rfp ++ map missing_issue (missing_sections rfp)).
Proof.
  split; [|split].
  - intros H. by rewrite apply_guardrails_approved, H.
  - rewrite apply_guardrails_issues. by eexists.
  - apply apply_guardrails_issues.
Qed.

Lemma guardrails_only_tighten_witness :
  ar_approved
    (_apply_guardrails
       (sample_rfp "Overview, Requirements, Timeline, Budget: $100")
       (sample_approval false ["Scope is unclear"])) = false
  /\ ar_issues
       (_apply_guardrails
          (sample_rfp "Overview, Requirements, Timeline, Budget: $100")
          (sample_approval false ["Scope is unclear"]))
     = ["Scope is unclear"].
Proof.
  destruct (guardrails_only_tighten
              (sample_rfp "Overview, Requirements, Timeline, Budget: $100")
              (sample_approval false ["Scope is unclear"]))
    as (Happroved & _ & Hissues).
  split; [apply Happroved; reflexivity | rewrite Hissues; vm_compute; reflexivity].
Defined.

(** C4. Running the guardrails again on their own result, with the same
    RFP, gives the same verdict and the same set of issues as running them
    once (the list repeats the guardrail issues, the set does not change);
    the result depends on the RFP through its content only. *)
Theorem guardrails_idempotent_on_issue_set
    (rfp : RFP) (approval_result : ApprovalResult) :
  let once := _apply_guardrails rfp approval_result in
  let twice := _apply_guardrails rfp once in
  ar_approved twice = ar_approved once
  /\ (list_to_set (ar_issues twice) : gset string) = list_to_set (ar_issues once)
  /\ ar_feedback twice = ar_feedback once
  /\ ar_rfp_id twice = ar_rfp_id once
  /\ (ar_approved approval_result = false ->
      ar_approved once = false /\ ar_approved twice = false)
  /\ (forall rfp', rfp_content rfp' = rfp_content rfp ->
        _apply_guardrails rfp' approval_result = once).
Proof.
  intros once twice. subst once twice.
  split; [|split; [|split; [|split; [|split]]]].
  - rewrite !apply_guardrails_approved.
    destruct (ar_approved _), (negb _), (forallb _ _); reflexivity.
  - rewrite !apply_guardrails_issues, !list_to_set_app_L.
    apply set_eq. intros x. rewrite !elem_of_union. tauto.
  - reflexivity.
  - reflexivity.
  - intros H. by rewrite !apply_guardrails_approved, H.
  - intros rfp' Hc. unfold _apply_guardrails. by rewrite Hc.
Qed.

Lemma guardrails_idempotent_on_issue_set_witness :
  (list_to_set
     (ar_issues
        (_apply_guardrails (sample_rfp "Overview and Budget: $2,000,000")
           (_apply_guardrails (sample_rfp "Overview and Budget: $2,000,000")
              (sample_approval false ["Scope is unclear"])))) : gset string)
  = list_to_set
      ["Scope is unclear";
       "Budget exceeds maximum allowed threshold of $1,000,000.00";
       "Missing essential section: Requirements";
       "Missing essential section: Timeline"]
  /\ ar_approved
       (_apply_guardrails (sample_rfp "Overview and Budget: $2,000,000")
          (_apply_guardrails (sample_rfp "Overview and Budget: $2,000,000")
             (sample_approval false ["Scope is unclear"]))) = false
  /\ _apply_guardrails
       (set_rfp_status REJECTED (sample_rfp "Overview and Budget: $2,000,000"))
       (sample_approval false ["Scope is unclear"])
     = _apply_guardrails (sample_rfp "Overview and Budget: $2,000,000")
         (sample_approval false ["Scope is unclear"]).
Proof.
  destruct (guardrails_idempotent_on_issue_set
              (sample_rfp "Overview and Budget: $2,000,000")
              (sample_approval false ["Scope is unclear"]))
    as (_ & Hset & _ & _ & Hrej & Hcontent).
  split; [|split].
  - rewrite Hset. vm_compute. reflexivity.
  - apply Hrej. reflexivity.
  - apply Hcontent. reflexivity.
Defined.

(** The issue list itself is not stable: a second run appends the
    guardrail issues once more. *)
Lemma guardrails_second_run_repeats_issues
    (rfp : RFP) (approval_result : ApprovalResult) :
  ar_issues (_apply_guardrails rfp (_apply_guardrails rfp approval_result))
  = ar_issues (_apply_guardrails rfp approval_result)
      ++ budget_part rfp ++ map missing_issue (missing_sections rfp).
Proof. by rewrite !apply_guardrails_issues. Qed.

End GuardrailClaims.

(* ===================================================================== *)
(** * The matcher on runs of one character class *)
(* ===================================================================== *)

Section CharacterFacts.
Import PyStr.

(** An ASCII byte is a character of its own. *)
Lemma uncons_ascii x s :
  (code x <? 128)%N = true -> uncons (String x s) = Some (code x, s).
Proof. intros H. unfold uncons. by rewrite H. Qed.

(** The character at the head of a text is the ASCII byte there, or is
    beyond ASCII when the byte is. *)
Lemma uncons_head c s x s' :
  uncons (String c s) = Some (x, s') ->
  ((code c < 128)%N /\ x = code c /\ s' = s)
  \/ ((128 <= code c)%N /\ (128 <= x)%N).
Proof.
  unfold uncons.
  destruct (N.ltb_spec (code c) 128) as [Hlt|Hge].
  { intros [= <- <-]. by left. }
  intros H. right. split; [done|].
  destruct (code c <? 192)%N; [done|].
  destruct (code c <? 224)%N.
  { destruct s as [|b1 s2]; [done|].
    destruct (continuation b1); [|done]. cbn [andb] in H.
    destruct (N.leb_spec 128 ((code c - 192) * 64 + payload b1)); [|done].
    by injection H as <- _. }
  destruct (code c <? 240)%N.
  { destruct s as [|b1 [|b2 s3]]; [done..|].
    destruct (continuation b1 && continuation b2); [|done]. cbn [andb] in H.
    destruct (N.leb_spec 2048
                (((code c - 224) * 64 + payload b1) * 64 + payload b2));
      [|done].
    injection H as <- _. lia. }
  destruct (code c <? 248)%N; [|done].
  destruct s as [|b1 [|b2 [|b3 s4]]]; [done..|].
  destruct (continuation b1 && continuation b2 && continuation b3); [|done].
  cbn [andb] in H.
  destruct (N.leb_spec 65536
              ((((code c - 240) * 64 + payload b1) * 64 + payload b2) * 64
               + payload b3)); [|done].
  cbn [andb] in H. destruct (_ <=? 1114111)%N; [|done].
  injection H as <- _. lia.
Qed.

(** What follows the first character is a proper suffix of the text. *)
Lemma uncons_drop s x s' :
  uncons s = Some (x, s') -> exists n, s' = drop (S n) s.
Proof.
  unfold uncons. destruct s as [|c s]; [done|].
  destruct (code c <? 128)%N; [intros [= _ <-]; by exists 0%nat|].
  destruct (code c <? 192)%N; [done|].
  destruct (code c <? 224)%N.
  { destruct s as [|b1 s2]; [done|].
    destruct (_ && _); [|done]. intros [= _ <-]. by exists 1%nat. }
  destruct (code c <? 240)%N.
  { destruct s as [|b1 [|b2 s3]]; [done..|].
    destruct (_ && _); [|done]. intros [= _ <-]. by exists 2%nat. }
  destruct (code c <? 248)%N; [|done].
  destruct s as [|b1 [|b2 [|b3 s4]]]; [done..|].
  destruct (_ && _); [|done]. intros [= _ <-]. by exists 3%nat.
Qed.

Lemma code_inj c c' : code c = code c' -> c = c'.
Proof.
  intros H. rewrite <- (ascii_N_embedding c), <- (ascii_N_embedding c').
  unfold code in H. by rewrite H.
Qed.

End CharacterFacts.

Section MatcherFacts.
Import Re.
Context {A : Type}.
Implicit Types (k : mstate -> option A) (p : N -> bool).

Lemma length_app_string (a b : string) :
  String.length (a +:+ b) = (String.length a + String.length b)%nat.
Proof. induction a as [|c a IH]; [done|]. rewrite app_cons. simpl. by rewrite IH. Qed.

Lemma app_assoc_string (a b c : string) : (a +:+ b) +:+ c = a +:+ b +:+ c.
Proof. induction a as [|x a IH]; [done|]. rewrite !app_cons. by rewrite IH. Qed.

Lemma take_app_length (a b : string) :
  PyStr.take (String.length (a +:+ b) - String.length b) (a +:+ b) = a.
Proof.
  rewrite length_app_string.
  replace (String.length a + String.length b - String.length b)%nat
    with (String.length a) by lia.
  induction a as [|c a IH]; simpl.
  - by destruct b.
  - rewrite ?app_cons. simpl. by rewrite IH.
Qed.

(** The equations of the matcher. *)
Lemma m_seq r1 r2 st k : m (Seq r1 r2) st k = m r1 st (fun st' => m r2 st' k).
Proof. reflexivity. Qed.

Lemma m_opt r st k :
  m (Opt r) st k = match m r st k with Some a => Some a | None => k st end.
Proof. reflexivity. Qed.

Lemma m_alt r1 r2 st k :
  m (Alt r1 r2) st k = match m r1 st k with Some a => Some a | None => m r2 st k end.
Proof. reflexivity. Qed.

Lemma m_group r st k :
  m (Group r) st k =
  m r st (fun st' =>
    k (MState (rest st')
         (Some (PyStr.take (String.length (rest st) - String.length (rest st'))
                  (rest st))))).
Proof. reflexivity. Qed.

Lemma m_lit_at c st k :
  m (Lit c) st k =
  match PyStr.uncons (rest st) with
  | Some (x, s') => if lit_matches c x then k (MState s' (group1 st)) else None
  | None => None
  end.
Proof. reflexivity. Qed.

Lemma m_class_at p st k :
  m (Class p) st k =
  match PyStr.uncons (rest st) with
  | Some (x, s') => if p x then k (MState s' (group1 st)) else None
  | None => None
  end.
Proof. reflexivity. Qed.

(** At an ASCII character. *)
Lemma m_lit c x s g k :
  (PyStr.code x <? 128)%N = true ->
  m (Lit c) (MState (String x s) g) k =
  if lit_matches c (PyStr.code x) then k (MState s g) else None.
Proof. intros H. rewrite m_lit_at. cbn [rest group1]. by rewrite uncons_ascii. Qed.

Lemma m_lit_empty c g k : m (Lit c) (MState EmptyString g) k = None.
Proof. reflexivity. Qed.

Lemma m_class p x s g k :
  (PyStr.code x <? 128)%N = true ->
  m (Class p) (MState (String x s) g) k =
  if p (PyStr.code x) then k (MState s g) else None.
Proof. intros H. rewrite m_class_at. cbn [rest group1]. by rewrite uncons_ascii. Qed.

Lemma m_class_empty p g k : m (Class p) (MState EmptyString g) k = None.
Proof. reflexivity. Qed.

(** Where the text does not go on with a character of the class. *)
Lemma m_class_head p s g k :
  head_in p s = false -> m (Class p) (MState s g) k = None.
Proof.
  intros H. rewrite m_class_at. cbn [rest]. unfold head_in in H.
  destruct (PyStr.uncons s) as [[x s']|]; [|done]. by rewrite H.
Qed.

Lemma m_plus_class_empty p g k : m (Plus (Class p)) (MState EmptyString g) k = None.
Proof. reflexivity. Qed.

Lemma m_plus_class_head p s g k :
  head_in p s = false -> m (Plus (Class p)) (MState s g) k = None.
Proof.
  intros H.
  exact (m_class_head p s g
           (fun st' => greedy_loop (m (Class p)) (String.length (rest st')) st' k)
           H).
Qed.

(** A greedy loop over a class runs to the end of a run of ASCII characters
    of the class, and stays there when what follows is no character of the
    class and the rest of the pattern succeeds. *)
Lemma greedy_class_run p run rest0 g k a n :
  all_chars (ascii_in p) run = true ->
  head_in p rest0 = false ->
  (String.length run <= n)%nat ->
  k (MState rest0 g) = Some a ->
  greedy_loop (m (Class p)) n (MState (run +:+ rest0) g) k = Some a.
Proof.
  revert n. induction run as [|c run IH]; intros n Hall Hhead Hn Hk.
  - destruct n as [|n]; cbn [greedy_loop]; [done|].
    change (EmptyString +:+ rest0) with rest0.
    by rewrite m_class_head.
  - cbn [all_chars] in Hall. apply andb_true_iff in Hall as [Hc Hall].
    apply andb_true_iff in Hc as [Hascii Hc].
    destruct n as [|n]; simpl in Hn; [lia|].
    rewrite app_cons. cbn [greedy_loop]. rewrite m_class by done. rewrite Hc.
    cbn [rest].
    replace (String.length (run +:+ rest0)
             <? String.length (String c (run +:+ rest0)))%nat
      with true by (symmetry; apply Nat.ltb_lt; simpl; lia).
    rewrite IH; [done..| lia |done].
Qed.

Lemma star_class_run p run rest0 g k a :
  all_chars (ascii_in p) run = true ->
  head_in p rest0 = false ->
  k (MState rest0 g) = Some a ->
  m (Star (Class p)) (MState (run +:+ rest0) g) k = Some a.
Proof.
  intros. cbn [m rest]. apply greedy_class_run; try done.
  rewrite length_app_string. lia.
Qed.

Lemma plus_class_run p c run rest0 g k a :
  all_chars (ascii_in p) (String c run) = true ->
  head_in p rest0 = false ->
  k (MState rest0 g) = Some a ->
  m (Plus (Class p)) (MState (String c run +:+ rest0) g) k = Some a.
Proof.
  intros Hall Hhead Hk. cbn [all_chars] in Hall.
  apply andb_true_iff in Hall as [Hc Hall].
  apply andb_true_iff in Hc as [Hascii Hc].
  rewrite app_cons.
  change (m (Plus (Class p)) (MState (String c (run +:+ rest0)) g) k)
    with (m (Class p) (MState (String c (run +:+ rest0)) g)
            (fun st' =>
               greedy_loop (m (Class p)) (String.length (rest st')) st' k)).
  rewrite m_class by done. rewrite Hc. cbn [rest].
  apply greedy_class_run; try done. rewrite length_app_string. lia.
Qed.

End MatcherFacts.

Section BudgetPatternFacts.
Import Re ApprovalAgent.

(** A literal that is no letter matches itself only. *)
Lemma fold_symbol x y :
  (y < 65)%N -> (fold y =? fold x)%N = (x =? y)%N.
Proof.
  intros Hy.
  assert (Hf : fold y = y).
  { unfold fold.
    destruct (N.leb_spec 65 y); [lia|]. cbn [andb].
    destruct (N.eqb_spec y 383); [lia|]. destruct (N.eqb_spec y 8490); [lia|].
    destruct (N.eqb_spec y 304); [lia|]. by destruct (N.eqb_spec y 305); [lia|]. }
  rewrite Hf. unfold fold.
  destruct (N.leb_spec 65 x); destruct (N.leb_spec x 90); cbn [andb];
    try destruct (N.eqb_spec x 383); try destruct (N.eqb_spec x 8490);
    try destruct (N.eqb_spec x 304); try destruct (N.eqb_spec x 305);
    cbn [orb];
    match goal with
    | |- (?a =? ?b)%N = (?c =? ?d)%N =>
        destruct (N.eqb_spec a b); destruct (N.eqb_spec c d)
    end; try reflexivity; lia.
Qed.

Lemma lit_matches_dollar x : lit_matches "$"%char x = (x =? 36)%N.
Proof. apply (fold_symbol x 36). lia. Qed.

Lemma lit_matches_dot x : lit_matches "."%char x = (x =? 46)%N.
Proof. apply (fold_symbol x 46). lia. Qed.

Lemma digit_or_comma_not_space c :
  ascii_in digit_or_comma c = true -> space (PyStr.code c) = false.
Proof. destruct c as [[] [] [] [] [] [] [] []]; vm_compute; congruence. Qed.

Lemma digit_is_digit_or_comma x : digit x = true -> digit_or_comma x = true.
Proof. unfold digit_or_comma. by intros ->. Qed.

Lemma ascii_digit_is_digit_or_comma c :
  ascii_in digit c = true -> ascii_in digit_or_comma c = true.
Proof.
  unfold ascii_in. intros [-> H]%andb_true_iff.
  by rewrite digit_is_digit_or_comma.
Qed.

Lemma fraction_fails {A} post g (k : mstate -> option A) :
  no_fraction post = true -> m fraction (MState post g) k = None.
Proof.
  intros H. unfold fraction. rewrite m_seq, m_lit_at. cbn [rest group1].
  unfold no_fraction in H.
  destruct (PyStr.uncons post) as [[x r]|]; [|done].
  rewrite lit_matches_dot. destruct (x =? 46)%N; [|done].
  cbn [andb] in H. apply negb_true_iff in H. by apply m_plus_class_head.
Qed.

(** Read at the head of [text +:+ post], the group of the amount captures
    [text] and leaves [post]. *)
Lemma group_amount_at {A} text post g (k : mstate -> option A) a :
  amount_at text post ->
  k (MState post (Some text)) = Some a ->
  m (Group amount) (MState (text +:+ post) g) k = Some a.
Proof.
  intros Hat Hk. rewrite m_group. unfold amount. rewrite m_seq.
  destruct Hat as [c run post Hrun Hpost Hfrac | c d run decimals post Hrun Hdec Hpost].
  - apply plus_class_run; [done..|].
    rewrite m_opt, fraction_fails by done.
    cbn [rest]. by rewrite take_app_length.
  - rewrite app_assoc_string. apply plus_class_run; [done| |].
    { rewrite app_cons. reflexivity. }
    rewrite m_opt. unfold fraction at 1. rewrite m_seq.
    change (("." +:+ String d decimals) +:+ post)
      with (String "." (String d decimals +:+ post)).
    rewrite m_lit by reflexivity. rewrite lit_matches_dot.
    change (PyStr.code "." =? 46)%N with true. cbv iota.
    rewrite (plus_class_run digit d decimals post g _ a); [done..|].
    cbn [rest].
    change (String "." (String d decimals +:+ post))
      with (("." +:+ String d decimals) +:+ post).
    rewrite <- (app_assoc_string (String c run)).
    by rewrite take_app_length.
Qed.

End BudgetPatternFacts.

Section DollarPattern.
Import Re ApprovalAgent.

Lemma amount_at_head text post :
  amount_at text post -> head_in space (text +:+ post) = false.
Proof.
  intros [c run ? Hrun _ _ | c d run decimals ? Hrun _ _];
    rewrite !app_cons; cbn [all_chars] in Hrun;
    apply andb_true_iff in Hrun as [Hc _];
    pose proof (digit_or_comma_not_space c Hc) as Hs;
    apply andb_true_iff in Hc as [Hascii _];
    unfold head_in; by rewrite uncons_ascii.
Qed.

(** At a dollar sign followed by white space and an amount, the pattern
    [\$\s*(amount)] matches and captures the amount. *)
Lemma match_dollar_at ws text post :
  all_chars (ascii_in space) ws = true ->
  amount_at text post ->
  match_here pattern_dollar ("$" +:+ ws +:+ text +:+ post)
  = Some (MState post (Some text)).
Proof.
  intros Hws Hat. unfold match_here, pattern_dollar.
  change ("$" +:+ ws +:+ text +:+ post) with (String "$" (ws +:+ text +:+ post)).
  rewrite m_seq, m_lit by reflexivity. rewrite lit_matches_dollar.
  change (PyStr.code "$" =? 36)%N with true. cbv iota. rewrite m_seq.
  apply star_class_run; [done | by apply amount_at_head |].
  by apply group_amount_at.
Qed.

(** Nowhere else than at a dollar sign. *)
Lemma match_dollar_elsewhere c s :
  is_dollar c = false -> match_here pattern_dollar (String c s) = None.
Proof.
  intros H. unfold match_here, pattern_dollar. rewrite m_seq, m_lit_at.
  cbn [rest group1].
  destruct (PyStr.uncons (String c s)) as [[x s']|] eqn:Hx; [|done].
  rewrite lit_matches_dollar.
  destruct (N.eqb_spec x 36) as [->|Hne]; [|done].
  apply uncons_head in Hx as [(_ & Hc & _) | (_ & Hge)]; [|lia].
  unfold is_dollar in H. apply Ascii.eqb_neq in H. destruct H.
  by apply code_inj.
Qed.

Lemma search_dollar_skip pre s :
  all_chars (fun c => negb (is_dollar c)) pre = true ->
  search pattern_dollar (pre +:+ s) = search pattern_dollar s.
Proof.
  intros Hpre. induction pre as [|c pre IH]; [done|].
  simpl in Hpre. apply andb_true_iff in Hpre as [Hc Hpre].
  rewrite app_cons. cbn [search].
  rewrite match_dollar_elsewhere by by destruct (is_dollar c).
  destruct (at_character (String c (pre +:+ s))); by apply IH.
Qed.

Lemma first_match_of_search r s start st :
  search r s = Some (start, st) -> first_match r s = Some (group_text st).
Proof. intros H. unfold first_match, findall. cbn [findall_from]. by rewrite H. Qed.

Lemma first_match_of_no_search r s :
  search r s = None -> first_match r s = None.
Proof. intros H. unfold first_match, findall. cbn [findall_from]. by rewrite H. Qed.

(** The first match of the [$N] pattern in a content whose first dollar
    sign is followed by an amount. *)
Lemma first_match_dollar pre ws text post :
  all_chars (fun c => negb (is_dollar c)) pre = true ->
  all_chars (ascii_in space) ws = true ->
  amount_at text post ->
  first_match pattern_dollar (pre +:+ "$" +:+ ws +:+ text +:+ post) = Some text.
Proof.
  intros Hpre Hws Hat.
  apply (first_match_of_search _ _ ("$" +:+ ws +:+ text +:+ post)
           (MState post (Some text))).
  rewrite search_dollar_skip by done.
  change ("$" +:+ ws +:+ text +:+ post) with (String "$" (ws +:+ text +:+ post)).
  cbn [search]. change (at_character (String "$" (ws +:+ text +:+ post))) with true.
  cbv iota.
  change (String "$" (ws +:+ text +:+ post)) with ("$" +:+ ws +:+ text +:+ post).
  by rewrite match_dollar_at.
Qed.

(** The loop over the patterns, against the first pattern whose first
    match parses. *)
Lemma extract_with_spec patterns content v :
  extract_with patterns content = v <->
  (exists i p,
      patterns !! i = Some p /\ parsed_match p content = Some v
      /\ forall j q, (j < i)%nat -> patterns !! j = Some q ->
                     parsed_match q content = None)
  \/ (v = PyFloat.zero
      /\ forall q, q ∈ patterns -> parsed_match q content = None).
Proof.
  revert v. induction patterns as [|p patterns IH]; intros v; cbn [extract_with].
  - split.
    + intros <-. right. split; [done|]. intros q Hq. by apply elem_of_nil in Hq.
    + intros [(i & p & Hi & _) | [-> _]]; [by destruct i | done].
  - assert (Hparsed :
      parsed_match p content =
      match findall p content with
      | [] => None
      | m0 :: _ => PyFloat.of_string (PyStr.remove_char "," m0)
      end).
    { unfold parsed_match, first_match. by destruct (findall p content). }
    destruct (parsed_match p content) as [w|] eqn:Hp.
    + replace (match findall p content with
               | [] => extract_with patterns content
               | m0 :: _ => _ end) with w.
      2:{ destruct (findall p content); [done|]. by rewrite <- Hparsed. }
      split.
      * intros <-. left. exists 0%nat, p. split; [done|]. split; [done|]. lia.
      * intros [(i & q & Hi & Hq & Hbefore) | [_ Hnone]].
        -- destruct i as [|i]; simpl in Hi.
           ++ injection Hi as <-. congruence.
           ++ specialize (Hbefore 0%nat p). simpl in Hbefore.
              rewrite Hbefore in Hp; [done | lia | done].
        -- rewrite Hnone in Hp; [done | by left].
    + replace (match findall p content with
               | [] => extract_with patterns content
               | m0 :: _ => _ end) with (extract_with patterns content).
      2:{ destruct (findall p content); [done|]. by rewrite <- Hparsed. }
      rewrite IH. split.
      * intros [(i & q & Hi & Hq & Hbefore) | [-> Hnone]].
        -- left. exists (S i), q. split; [done|]. split; [done|].
           intros [|j] q' Hj Hq'; simpl in Hq'.
           ++ by injection Hq' as <-.
           ++ apply (Hbefore j); [lia | done].
        -- right. split; [done|]. intros q Hq.
           apply elem_of_cons in Hq as [-> | Hq]; [done | by apply Hnone].
      * intros [(i & q & Hi & Hq & Hbefore) | [-> Hnone]].
        -- destruct i as [|i]; simpl in Hi.
           ++ injection Hi as <-. congruence.
           ++ left. exists i, q. split; [done|]. split; [done|].
              intros j q' Hj Hq'. apply (Hbefore (S j)); [lia | done].
        -- right. split; [done|]. intros q Hq. apply Hnone. by right.
Qed.

(** Where the wording of the specification yields a figure, the code yields
    the same one. *)
Lemma first_matching_with_agrees patterns content v :
  first_matching_with patterns content = Some v ->
  extract_with patterns content = v.
Proof.
  induction patterns as [|p patterns IH]; cbn [first_matching_with extract_with].
  - by intros [= <-].
  - unfold first_match. destruct (findall p content) as [|m0 ms]; simpl.
    + exact IH.
    + by intros ->.
Qed.

(** Without any match, the figure is zero. *)
Lemma extract_with_no_match patterns content :
  (forall q, q ∈ patterns -> findall q content = []) ->
  extract_with patterns content = PyFloat.zero.
Proof.
  intros H. apply extract_with_spec. right. split; [done|].
  intros q Hq. unfold parsed_match, first_match. by rewrite H.
Qed.

(** The figure of a content whose first dollar sign is followed by an
    amount that parses. *)
Lemma extract_budget_dollar pre ws text post v :
  all_chars (fun c => negb (is_dollar c)) pre = true ->
  all_chars (ascii_in space) ws = true ->
  amount_at text post ->
  PyFloat.of_string (PyStr.remove_char "," text) = Some v ->
  _extract_budget (pre +:+ "$" +:+ ws +:+ text +:+ post) = v.
Proof.
  intros Hpre Hws Hat Hv. apply extract_with_spec. left.
  exists 0%nat, pattern_dollar. split; [done|]. split; [|lia].
  unfold parsed_match. by rewrite first_match_dollar.
Qed.

End DollarPattern.

Section BudgetClaim.
Import Re ApprovalAgent.

Lemma budget_issue_text :
  budget_issue = "Budget exceeds maximum allowed threshold of $1,000,000.00".
Proof. reflexivity. Qed.

(** C2 (amended). The figure of [_extract_budget] comes from the first
    pattern, in the order [$N], [N USD/dollars], [budget...$N],
    [budget...N USD/dollars], whose first match still parses as a number once
    its commas are stripped; a pattern without a match, or whose first match
    does not parse, is passed over, and the figure is 0.0 when no pattern
    yields a number.  Where the first matching pattern yields a number, this
    is the figure of the first matching pattern.  When no pattern yields a
    number, be it that none matches or that the matches are no numbers, the
    budget rule does not fire: it adds no issue and leaves the verdict to
    the model and the section rule.  A content whose first dollar sign is
    the one of [Budget: $1,250,000.50], with no decimal digit (of any
    script) after that text, has the figure 1250000.5.  A figure strictly
    above [MAX_BUDGET] forces [approved] to false whatever the model said,
    and appends the issue that names the threshold after the issues of the
    model. *)
Theorem budget_guardrail (rfp : RFP) (approval_result : ApprovalResult) :
  budget_patterns
    = [pattern_dollar; pattern_usd; pattern_budget_dollar; pattern_budget_usd]
  /\ (forall v,
        _extract_budget (rfp_content rfp) = v <->
        (exists i p,
            budget_patterns !! i = Some p
            /\ parsed_match p (rfp_content rfp) = Some v
            /\ forall j q, (j < i)%nat -> budget_patterns !! j = Some q ->
                           parsed_match q (rfp_content rfp) = None)
        \/ (v = PyFloat.zero
            /\ forall q, q ∈ budget_patterns ->
                         parsed_match q (rfp_content rfp) = None))
  /\ (forall v,
        extract_first_matching (rfp_content rfp) = Some v ->
        _extract_budget (rfp_content rfp) = v)
  /\ (forall q,
        findall q (rfp_content rfp) = [] ->
        parsed_match q (rfp_content rfp) = None)
  /\ ((forall q, q ∈ budget_patterns ->
                 parsed_match q (rfp_content rfp) = None) ->
      _extract_budget (rfp_content rfp) = PyFloat.zero
      /\ budget_part rfp = []
      /\ ar_issues (_apply_guardrails rfp approval_result)
         = ar_issues approval_result ++ map missing_issue (missing_sections rfp)
      /\ ar_approved (_apply_guardrails rfp approval_result)
         = ar_approved approval_result
           && forallb (fun s => negb (section_missing (rfp_content rfp) s))
                essential_sections)
  /\ (forall pre post,
        rfp_content rfp = pre +:+ "Budget: $1,250,000.50" +:+ post ->
        all_chars (fun c => negb (is_dollar c)) pre = true ->
        head_in digit post = false ->
        _extract_budget (rfp_content rfp)
        = S754_finite false 5368711267483648 (-32))
  /\ (PyFloat.gt_int (_extract_budget (rfp_content rfp)) Settings.MAX_BUDGET = true ->
      ar_approved (_apply_guardrails rfp approval_result) = false
      /\ ar_issues (_apply_guardrails rfp approval_result)
         = ar_issues approval_result
             ++ ["Budget exceeds maximum allowed threshold of $1,000,000.00"]
             ++ map missing_issue (missing_sections rfp)).
Proof.
  split; [reflexivity|]. split; [|split; [|split; [|split; [|split]]]].
  - intros v. apply extract_with_spec.
  - intros v. apply first_matching_with_agrees.
  - intros q Hq. unfold parsed_match, first_match. by rewrite Hq.
  - intros Hnone.
    assert (Hzero : _extract_budget (rfp_content rfp) = PyFloat.zero)
      by (apply extract_with_spec; by right).
    assert (Hpart : budget_part rfp = []) by (unfold budget_part; by rewrite Hzero).
    split; [done|]. split; [done|]. split.
    + by rewrite apply_guardrails_issues, Hpart.
    + rewrite apply_guardrails_approved, Hzero.
      change (PyFloat.gt_int PyFloat.zero Settings.MAX_BUDGET) with false.
      cbn [negb]. by rewrite andb_true_r.
  - intros pre post -> Hpre Hpost.
    change (pre +:+ "Budget: $1,250,000.50" +:+ post)
      with (pre +:+ "Budget: " +:+ "$" +:+ "" +:+ "1,250,000.50" +:+ post).
    rewrite <- (app_assoc_string pre "Budget: ").
    apply extract_budget_dollar.
    + clear Hpost. induction pre as [|c pre IH]; [reflexivity|].
      simpl in Hpre. apply andb_true_iff in Hpre as [Hc Hpre].
      rewrite app_cons. simpl. rewrite Hc. by apply IH.
    + reflexivity.
    + by apply (amount_fraction "1" "5" ",250,000" "0" post).
    + reflexivity.
  - intros Hgt. split.
    + rewrite apply_guardrails_approved, Hgt.
      by destruct (ar_approved approval_result).
    + rewrite apply_guardrails_issues. unfold budget_part. by rewrite Hgt.
Qed.

Lemma budget_guardrail_witness :
  (_extract_budget (rfp_content (sample_rfp
      "Overview, Requirements, Timeline. Budget: $1,250,000.50 in total"))
   = S754_finite false 5368711267483648 (-32)
   /\ ar_approved
        (_apply_guardrails
           (sample_rfp "Overview, Requirements, Timeline. Budget: $1,250,000.50 in total")
           (sample_approval true [])) = false
   /\ ar_issues
        (_apply_guardrails
           (sample_rfp "Overview, Requirements, Timeline. Budget: $1,250,000.50 in total")
           (sample_approval true []))
      = ["Budget exceeds maximum allowed threshold of $1,000,000.00"])
  /\ (_extract_budget (rfp_content (sample_rfp
         "Overview, Requirements, Timeline. Budget: to be agreed"))
      = PyFloat.zero
      /\ ar_issues
           (_apply_guardrails
              (sample_rfp "Overview, Requirements, Timeline. Budget: to be agreed")
              (sample_approval true ["Budget is open"]))
         = ["Budget is open"])
  /\ (_extract_budget (rfp_content (sample_rfp
         "Overview, Requirements, Timeline. Budget: $,"))
      = PyFloat.zero
      /\ ar_approved
           (_apply_guardrails
              (sample_rfp "Overview, Requirements, Timeline. Budget: $,")
              (sample_approval true [])) = true)
  /\ _extract_budget (rfp_content (sample_rfp "Budget: 20,000 USD"))
     = PyFloat.of_decimal 20000 0.
Proof.
  split; [|split; [|split]].
  - destruct (budget_guardrail
                (sample_rfp "Overview, Requirements, Timeline. Budget: $1,250,000.50 in total")
                (sample_approval true []))
      as (_ & _ & _ & _ & _ & Hexample & Hcap).
    split.
    + apply (Hexample "Overview, Requirements, Timeline. " " in total");
        reflexivity.
    + destruct Hcap as [Happroved Hissues]; [vm_compute; reflexivity|].
      split; [exact Happroved | rewrite Hissues; vm_compute; reflexivity].
  - destruct (budget_guardrail
                (sample_rfp "Overview, Requirements, Timeline. Budget: to be agreed")
                (sample_approval true ["Budget is open"]))
      as (_ & _ & _ & Hparsed & Hnone & _).
    destruct Hnone as (Hzero & _ & Hissues & _).
    + intros q Hq. apply Hparsed.
      repeat (apply elem_of_cons in Hq as [-> | Hq]; [vm_compute; reflexivity|]).
      by apply elem_of_nil in Hq.
    + split; [exact Hzero | rewrite Hissues; vm_compute; reflexivity].
  - destruct (budget_guardrail
                (sample_rfp "Overview, Requirements, Timeline. Budget: $,")
                (sample_approval true []))
      as (_ & _ & _ & _ & Hnone & _).
    destruct Hnone as (Hzero & _ & _ & Happroved).
    + intros q Hq.
      repeat (apply elem_of_cons in Hq as [-> | Hq]; [vm_compute; reflexivity|]).
      by apply elem_of_nil in Hq.
    + split; [exact Hzero | rewrite Happroved; vm_compute; reflexivity].
  - destruct (budget_guardrail (sample_rfp "Budget: 20,000 USD")
                (sample_approval true []))
      as (_ & _ & Hagree & _).
    apply Hagree. vm_compute. reflexivity.
Defined.

(** C2 as it is worded fails twice.  In [$, 5 USD] the first pattern that
    matches is [$N], with the match [,], which is no number: the wording
    gives no figure, the code goes on to [N USD] and returns 5.0.  And the
    content [Fee: $5. Budget: $1,250,000.50] contains the quoted text, yet its
    figure is 5.0, the amount after its first dollar sign. *)
Lemma budget_first_matching_counterexample :
  findall pattern_dollar "$, 5 USD" = [","]
  /\ findall pattern_usd "$, 5 USD" = ["5"]
  /\ extract_first_matching "$, 5 USD" = None
  /\ _extract_budget "$, 5 USD" = S754_finite false 5629499534213120 (-50)
  /\ PyFloat.of_string "5" = Some (S754_finite false 5629499534213120 (-50))
  /\ PyStr.contains "Budget: $1,250,000.50" "Fee: $5. Budget: $1,250,000.50" = true
  /\ _extract_budget "Fee: $5. Budget: $1,250,000.50"
     = S754_finite false 5629499534213120 (-50)
  /\ SFeqb (_extract_budget "Fee: $5. Budget: $1,250,000.50")
       (S754_finite false 5368711267483648 (-32)) = false.
Proof. vm_compute. repeat split; reflexivity. Qed.

End BudgetClaim.

Section BudgetExamples.
Import Re ApprovalAgent.

(** Worked figures: an amount in USD or in dollars; a dollar amount wins
    over an earlier amount in USD; the two patterns with [budget] are
    reached when the patterns before them match commas only; a figure that
    rounds to the cap does not exceed it. *)
Lemma budget_pattern_examples :
  _extract_budget "Total cost: 50,000 USD" = PyFloat.of_decimal 50000 0
  /\ _extract_budget "cost 75,000 dollars" = PyFloat.of_decimal 75000 0
  /\ _extract_budget "5 USD now, later $7" = PyFloat.of_decimal 7 0
  /\ _extract_budget "$, budget is $9" = PyFloat.of_decimal 9 0
  /\ _extract_budget ", USD budget: 4 dollars $," = PyFloat.of_decimal 4 0
  /\ _extract_budget "no money here" = PyFloat.zero
  /\ PyFloat.gt_int (_extract_budget "$1000000") Settings.MAX_BUDGET = false
  /\ PyFloat.gt_int (_extract_budget "$1000000.01") Settings.MAX_BUDGET = true
  /\ PyFloat.gt_int (_extract_budget "$1,000,000.00000000001") Settings.MAX_BUDGET
     = false.
Proof. vm_compute. repeat split; reflexivity. Qed.

End BudgetExamples.

Section BudgetBeyondAscii.
Import Re ApprovalAgent.

(** The patterns read characters, not bytes: a no-break space (the bytes
    194 160) is white space for [\s], the Arabic-Indic digits are digits
    for [\d] and for [float], and under [re.IGNORECASE] a long s is an s.
    A digit of any script goes on with the decimals of an amount. *)
Lemma budget_beyond_ascii_examples :
  _extract_budget ("$" +:+ String "194" (String "160" "2,000,000"))
  = PyFloat.of_decimal 2000000 0
  /\ _extract_budget "$٣٠٠٠٠٠٠" = PyFloat.of_decimal 3000000 0
  /\ _extract_budget "5,000,000 UſD" = PyFloat.of_decimal 5000000 0
  /\ _extract_budget "Budget: $1,250,000.50٣" = PyFloat.of_decimal 1250000503 3
  /\ head_in digit "٣" = true
  /\ PyFloat.of_string "١٢.٥" = Some (PyFloat.of_decimal 125 1)
  /\ PyStr.code_points "ſ٣" = Some [383%N; 1635%N].
Proof. vm_compute. repeat split; reflexivity. Qed.

End BudgetBeyondAscii.

(* ===================================================================== *)
(** * The run of the workflow graph *)
(* ===================================================================== *)

Section WorkflowRun.
Import ProcurementWorkflow.
Variable env : Env.
Variable agents : Agents.

Lemma run_step g fuel n s steps w f :
  assoc n (nodes g) = Some f ->
  run g (S fuel) n s steps w =
  match f s w with
  | (inl e, w') => (inl e, w')
  | (inr s', w') =>
      match next_target g n s' w' with
      | (inl e, w'') => (inl e, w'')
      | (inr END, w'') => (inr (s', steps ++ [step_of n s' w']), w'')
      | (inr (Goto n'), w'') => run g fuel n' s' (steps ++ [step_of n s' w']) w''
      end
  end.
Proof.
  intros Hf. cbn [run]. rewrite Hf. unfold mbind, M_bind, get_world.
  destruct (f s w) as [[e|s'] w']; [done|].
  destruct (next_target g n s' w') as [[e|[n'|]] w'']; done.
Qed.

Lemma ainvoke_build_workflow s0 w :
  ainvoke (_build_workflow env agents) s0 w = run_nodes env agents s0 w.
Proof.
  unfold ainvoke, run_nodes.
  change (entry_point (_build_workflow env agents)) with (Some CLASSIFY).
  unfold recursion_limit.
  rewrite (run_step _ _ CLASSIFY _ _ _ (_classify_request env agents)) by reflexivity.
  destruct (_classify_request env agents s0 w) as [[e|s1] w1]; [done|].
  change (next_target (_build_workflow env agents) CLASSIFY s1 w1)
    with (@inr exn Target (Goto GENERATE_RFP), w1).
  cbv beta iota.
  rewrite (run_step _ _ GENERATE_RFP _ _ _ (_generate_rfp agents)) by reflexivity.
  destruct (_generate_rfp agents s1 w1) as [[e|s2] w2]; [done|].
  change (next_target (_build_workflow env agents) GENERATE_RFP s2 w2)
    with (@inr exn Target (Goto APPROVE_RFP), w2).
  cbv beta iota.
  rewrite (run_step _ _ APPROVE_RFP _ _ _ (_approve_rfp agents)) by reflexivity.
  destruct (_approve_rfp agents s2 w2) as [[e|s3] w3]; [done|].
  assert (Hnext : next_target (_build_workflow env agents) APPROVE_RFP s3 w3 =
                  (inr (if String.eqb (_route_after_approval s3) "approved"
                        then Goto SEND_EMAIL else END), w3)).
  { unfold next_target.
    change (assoc APPROVE_RFP (edges (_build_workflow env agents)))
      with (@None Target).
    change (assoc APPROVE_RFP (branches (_build_workflow env agents)))
      with (Some (_route_after_approval,
                  [("approved", Goto SEND_EMAIL); ("rejected", END)])).
    cbv beta iota. unfold _route_after_approval.
    destruct (ws_approval s3) as [a|]; [destruct (ar_approved a)|]; reflexivity. }
  rewrite Hnext.
  destruct (String.eqb (_route_after_approval s3) "approved"); [|done].
  cbv beta iota.
  rewrite (run_step _ _ SEND_EMAIL _ _ _ (_send_email agents)) by reflexivity.
  destruct (_send_email agents s3 w3) as [[e|s4] w4]; done.
Qed.


(** What each node returns, by the outcome of its agent. *)
Lemma classify_request_eq s w :
  _classify_request env agents s w =
  match classify agents (ws_request s) w with
  | (inr c, w') =>
      (inr (set_ws_status
              ("Classified as " +:+ cr_category c +:+ " with "
               +:+ format_2f env (cr_confidence c) +:+ " confidence")
              (set_ws_classification (Some c) s)), w')
  | (inl e, w') =>
      (inr (failed ("Classification error: " +:+ e)
              "Error during classification" s), w')
  end.
Proof.
  unfold _classify_request, try_catch, mbind, M_bind, mret, M_ret.
  by destruct (classify agents (ws_request s) w) as [[e|c] w'].
Qed.

Lemma generate_rfp_eq s w :
  _generate_rfp agents s w =
  match ws_classification s with
  | None =>
      (inr (failed "No classification result available"
              "Error: Classification failed" s), w)
  | Some c =>
      match generate_rfp agents (ws_request s) c w with
      | (inr l, w') =>
          (inr (set_ws_status ("RFP generated for " +:+ cr_category c)
                  (set_ws_rfp (Some l) s)), w')
      | (inl e, w') =>
          (inr (failed ("RFP generation error: " +:+ e)
                  "Error during RFP generation" s), w')
      end
  end.
Proof.
  unfold _generate_rfp, try_catch, mbind, M_bind, mret, M_ret.
  destruct (ws_classification s) as [c|]; [|done].
  by destruct (generate_rfp agents (ws_request s) c w) as [[e|l] w'].
Qed.

Lemma approve_rfp_eq s w :
  _approve_rfp agents s w =
  match ws_rfp s with
  | None => (inr (failed "No RFP to validate" "Error: No RFP to validate" s), w)
  | Some l =>
      match validate_rfp agents l w with
      | (inr a, w') =>
          (inr (set_ws_status
                  (if ar_approved a then "RFP approved"
                   else "RFP rejected: " +:+ ar_feedback a)
                  (set_ws_approval (Some a) s)), w')
      | (inl e, w') =>
          (inr (failed ("Approval error: " +:+ e) "Error during RFP approval" s), w')
      end
  end.
Proof.
  unfold _approve_rfp, try_catch, mbind, M_bind, mret, M_ret, raise.
  destruct (ws_rfp s) as [l|]; [|done].
  by destruct (validate_rfp agents l w) as [[e|a] w'].
Qed.

Lemma send_email_eq s w :
  _send_email agents s w =
  match ws_rfp s with
  | None =>
      (inr (set_ws_email_sent false
              (failed "Email sending error: 'NoneType' object has no attribute 'suppliers'"
                 "Error during email sending" s)), w)
  | Some l =>
      match rfps w !! l with
      | None =>
          (inr (set_ws_email_sent false
                  (failed "Email sending error: dangling RFP reference"
                     "Error during email sending" s)), w)
      | Some r =>
          match rfp_suppliers r with
          | [] =>
              (inr (set_ws_status "No suppliers specified. RFP not sent."
                      (set_ws_email_sent false s)), w)
          | _ :: _ =>
              match send_to_suppliers agents l w with
              | (inr success, w') =>
                  (inr (set_ws_status
                          (if success then "RFP sent to suppliers"
                           else "Failed to send RFP to suppliers")
                          (set_ws_email_sent success s)), w')
              | (inl e, w') =>
                  (inr (set_ws_email_sent false
                          (failed ("Email sending error: " +:+ e)
                             "Error during email sending" s)), w')
              end
          end
      end
  end.
Proof.
  unfold _send_email, try_catch, mbind, M_bind, mret, M_ret, raise, get_rfp.
  destruct (ws_rfp s) as [l|]; [|done].
  destruct (rfps w !! l) as [r|]; [|done].
  destruct (rfp_suppliers r); [done|].
  by destruct (send_to_suppliers agents l w) as [[e|b] w'].
Qed.

Lemma execute_traced_eq request w :
  execute_traced env agents request w =
  match run_nodes env agents (initial_state request) w with
  | (inl e, w') =>
      (inr (failed ("Workflow execution error: " +:+ e)
              "Workflow execution failed" (initial_state request), []), w')
  | (inr r, w') => (inr r, w')
  end.
Proof.
  unfold execute_traced, try_catch. rewrite ainvoke_build_workflow.
  by destruct (run_nodes env agents (initial_state request) w) as [[e|r] w'].
Qed.

Lemma execute_eq request w :
  execute env agents request w =
  match execute_traced env agents request w with
  | (inr r, w') => (inr (r.1), w')
  | (inl e, w') => (inl e, w')
  end.
Proof. reflexivity. Qed.

End WorkflowRun.

Section WorkflowClaims.
Import ProcurementWorkflow.

Lemma run_after_failed_classification env agents request w e w1 :
  classify agents request w = (inl e, w1) ->
  execute_traced env agents request w =
  (inr (after_failed_classification request e,
        [step_of CLASSIFY
           (failed ("Classification error: " +:+ e) "Error during classification"
              (initial_state request)) w1;
         step_of GENERATE_RFP
           (failed "No classification result available"
              "Error: Classification failed"
              (failed ("Classification error: " +:+ e)
                 "Error during classification" (initial_state request))) w1;
         step_of APPROVE_RFP (after_failed_classification request e) w1]), w1).
Proof.
  intros Hfail. rewrite execute_traced_eq. unfold run_nodes.
  rewrite classify_request_eq. cbn [initial_state ws_request]. rewrite Hfail.
  rewrite generate_rfp_eq.
  cbn [failed set_ws_status set_ws_error ws_classification initial_state].
  rewrite approve_rfp_eq. reflexivity.
Qed.

(** C7. If the classification step fails, the run ends in a state whose
    [rfp] and [approval] are absent and whose [error] is set; the routing
    after approval takes the absent approval for a rejection, so the nodes
    that ran are CLASSIFY, GENERATE_RFP and APPROVE_RFP: the delivery node
    does not run, [email_sent] stays false, and nothing changes in the store,
    the clock or the log after the failure of the classifier. *)
Theorem classification_failure_leaves_no_artifacts
    (env : Env) (agents : Agents) (request : loc) (w w1 : World) (e : exn) :
  classify agents request w = (inl e, w1) ->
  exists final,
    execute env agents request w = (inr final, w1)
    /\ ws_rfp final = None
    /\ ws_approval final = None
    /\ ws_error final = Some "No RFP to validate"
    /\ _route_after_approval final = "rejected"
    /\ nodes_run (execute_traced env agents request w)
       = [CLASSIFY; GENERATE_RFP; APPROVE_RFP]
    /\ (SEND_EMAIL ∉ nodes_run (execute_traced env agents request w))
    /\ ws_email_sent final = false.
Proof.
  intros Hfail. exists (after_failed_classification request e).
  pose proof (run_after_failed_classification env agents request w e w1 Hfail) as Hrun.
  assert (Hnodes : nodes_run (execute_traced env agents request w)
                   = [CLASSIFY; GENERATE_RFP; APPROVE_RFP])
    by by rewrite Hrun.
  split; [by rewrite execute_eq, Hrun|].
  do 4 (split; [reflexivity|]). split; [done|]. split; [|reflexivity].
  rewrite Hnodes. intros Hin. by repeat (apply elem_of_cons in Hin as [Hin|Hin]; [done|]);
    apply elem_of_nil in Hin.
Qed.

Lemma classification_failure_leaves_no_artifacts_witness :
  exists final w1,
    execute env_classifier_down (agents_of env_classifier_down) 0%nat sample_world
    = (inr final, w1)
    /\ ws_rfp final = None
    /\ ws_approval final = None
    /\ ws_error final = Some "No RFP to validate"
    /\ ws_email_sent final = false.
Proof.
  destruct (classification_failure_leaves_no_artifacts
              env_classifier_down (agents_of env_classifier_down) 0%nat
              sample_world
              (classify (agents_of env_classifier_down) 0%nat sample_world).2
              "Connection error.")
    as (final & Hrun & Hrfp & Happroval & Herror & _ & _ & _ & Hsent).
  - vm_compute. reflexivity.
  - exists final. eexists. repeat split; eassumption.
Defined.


(** Whatever the agents do, a run is CLASSIFY, GENERATE_RFP, APPROVE_RFP
    and then SEND_EMAIL or nothing: no node raises, and no edge leads to
    ERROR_HANDLER. *)
Lemma execute_traced_nodes env agents request w :
  exists final steps w',
    execute_traced env agents request w = (inr (final, steps), w')
    /\ (map step_node steps = [CLASSIFY; GENERATE_RFP; APPROVE_RFP]
        \/ map step_node steps = [CLASSIFY; GENERATE_RFP; APPROVE_RFP; SEND_EMAIL])
    /\ PyStr.startswith "Workflow failed: " (ws_status final) = false.
Proof.
  rewrite execute_traced_eq. unfold run_nodes.
  rewrite classify_request_eq.
  destruct (classify agents _ w) as [[e1|c] w1];
    rewrite generate_rfp_eq;
    cbn [failed set_ws_status set_ws_error set_ws_classification
         ws_classification ws_request initial_state].
  - rewrite approve_rfp_eq. cbn. eauto 10.
  - destruct (generate_rfp agents request c w1) as [[e2|l] w2];
      rewrite approve_rfp_eq;
      cbn [failed set_ws_status set_ws_error set_ws_classification set_ws_rfp
           ws_rfp initial_state].
    + cbn. eauto 10.
    + destruct (validate_rfp agents l w2) as [[e3|a] w3].
      * cbn. eauto 10.
      * unfold _route_after_approval.
        cbn [set_ws_status set_ws_approval ws_approval].
        destruct (ar_approved a) eqn:Happroved; [|cbn; eauto 10].
        change (String.eqb "approved" "approved") with true. cbv iota.
        rewrite send_email_eq.
        cbn [set_ws_status set_ws_approval set_ws_classification set_ws_rfp
             ws_rfp initial_state].
        destruct (rfps w3 !! l) as [r|]; [|cbn; eauto 10].
        destruct (rfp_suppliers r); [cbn; eauto 10|].
        destruct (send_to_suppliers agents l w3) as [[e4|[]] w4]; cbn; eauto 10.
Qed.

End WorkflowClaims.

Section ErrorPathClaims.
Import ProcurementWorkflow.

Ltac ws_simpl :=
  cbn [failed set_ws_status set_ws_error set_ws_classification set_ws_rfp
       set_ws_approval set_ws_email_sent ws_request ws_classification ws_rfp
       ws_approval ws_email_sent ws_error ws_status initial_state].

(** C5 (the code departs from the claim). No run enters ERROR_HANDLER:
    the graph has no edge that leads to it.  When the classifier is down,
    CLASSIFY sets [error], and GENERATE_RFP and APPROVE_RFP still run on that
    state, each replacing [error] by its own message. *)
Theorem error_handler_is_never_entered
    (env : Env) (agents : Agents) (request : loc) (w : World) :
  (ERROR_HANDLER ∉ nodes_run (execute_traced env agents request w))
  /\ assoc CLASSIFY (edges (_build_workflow env agents)) = Some (Goto GENERATE_RFP)
  /\ assoc GENERATE_RFP (edges (_build_workflow env agents)) = Some (Goto APPROVE_RFP)
  /\ nodes_run (execute_traced env_classifier_down
                  (agents_of env_classifier_down) 0%nat sample_world)
     = [CLASSIFY; GENERATE_RFP; APPROVE_RFP]
  /\ map (fun s => ws_error (step_state s))
       (trace_of (execute_traced env_classifier_down
                    (agents_of env_classifier_down) 0%nat sample_world))
     = [Some "Classification error: Connection error.";
        Some "No classification result available";
        Some "No RFP to validate"].
Proof.
  split; [|by vm_compute].
  destruct (execute_traced_nodes env agents request w)
    as (final & steps & w' & Hrun & Hnodes & _).
  unfold nodes_run, trace_of. rewrite Hrun. cbn [fst].
  intros Hin. destruct Hnodes as [Hn|Hn]; rewrite Hn in Hin;
    repeat (apply elem_of_cons in Hin as [Hin|Hin]; [done|]);
    by apply elem_of_nil in Hin.
Qed.

(** C6 (the code departs from the claim). Every execution returns a final
    state, and the status of that state never reads [Workflow failed: ...]:
    the only node that writes it is ERROR_HANDLER.  When the classifier is
    down, the run reports the status and the error of the last node that
    ran, and the message of the classifier is lost. *)
Theorem failure_status_is_not_workflow_failed
    (env : Env) (agents : Agents) (request : loc) (w : World) :
  (exists final w',
      execute env agents request w = (inr final, w')
      /\ PyStr.startswith "Workflow failed: " (ws_status final) = false)
  /\ (final_of (execute env_classifier_down (agents_of env_classifier_down)
                  0%nat sample_world)
      = Some {| ws_request := 0%nat; ws_classification := None; ws_rfp := None;
                ws_approval := None; ws_email_sent := false;
                ws_error := Some "No RFP to validate";
                ws_status := "Error: No RFP to validate" |})
  /\ (forall state,
        ws_status <$> final_of (_handle_error state w)
        = Some ("Workflow failed: " +:+ default "None" (ws_error state))).
Proof.
  split; [|split; [by vm_compute | reflexivity]].
  destruct (execute_traced_nodes env agents request w)
    as (final & steps & w' & Hrun & _ & Hstatus).
  exists final, w'. by rewrite execute_eq, Hrun.
Qed.

(** A rejection is an ordinary end of a run: the approval result is kept
    with its feedback and its issues, [error] stays absent, the status
    carries the feedback, and the delivery node does not run. *)
Lemma rejection_is_not_an_error env agents request w c w1 l w2 a w3 :
  classify agents request w = (inr c, w1) ->
  generate_rfp agents request c w1 = (inr l, w2) ->
  validate_rfp agents l w2 = (inr a, w3) ->
  ar_approved a = false ->
  exists final,
    execute env agents request w = (inr final, w3)
    /\ ws_approval final = Some a
    /\ ws_error final = None
    /\ ws_status final = "RFP rejected: " +:+ ar_feedback a
    /\ ws_email_sent final = false
    /\ nodes_run (execute_traced env agents request w)
       = [CLASSIFY; GENERATE_RFP; APPROVE_RFP].
Proof.
  intros Hc Hg Hv Ha. unfold nodes_run, trace_of.
  rewrite execute_eq, execute_traced_eq. unfold run_nodes.
  rewrite classify_request_eq; ws_simpl; rewrite Hc.
  rewrite generate_rfp_eq; ws_simpl; rewrite Hg.
  rewrite approve_rfp_eq; ws_simpl; rewrite Hv.
  unfold _route_after_approval; ws_simpl; rewrite Ha.
  change (String.eqb "rejected" "approved") with false. cbv iota. cbn [fst].
  eexists. split; [reflexivity|]. by ws_simpl.
Qed.

End ErrorPathClaims.

(* ===================================================================== *)
(** * Delivery *)
(* ===================================================================== *)

Section DeliveryFacts.
Variable env : Env.

Lemma world_eta (w : World) :
  {| requests := requests w; rfps := rfps w; ticks := ticks w; log := log w |} = w.
Proof. by destruct w. Qed.

Lemma send_one_eq rfp supplier w :
  EmailService.send_one env rfp supplier w =
  let '(ok, n', ev) := delivery env rfp supplier (ticks w) in
  (inr ok, with_delivery_log w n' [ev]).
Proof.
  unfold EmailService.send_one, EmailService._send_email, delivery, try_catch,
    lift, tick, write_log, with_delivery_log, mbind, M_bind, mret, M_ret, raise.
  destruct (create_email_message env rfp supplier) as [e|msg]; [done|].
  cbn [ticks requests rfps log].
  by destruct (smtp_send env (ticks w) msg (sup_email supplier)).
Qed.

Lemma send_loop_eq rfp suppliers success w :
  EmailService.send_loop env rfp suppliers success w =
  (inr (success && forallb fst (deliveries env rfp suppliers (ticks w))),
   with_delivery_log w (calls_after env rfp suppliers (ticks w))
     (map snd (deliveries env rfp suppliers (ticks w)))).
Proof.
  revert success w. induction suppliers as [|s suppliers IH]; intros success w.
  - cbn. unfold mret, M_ret, with_delivery_log.
    by rewrite andb_true_r, app_nil_r, world_eta.
  - cbn [EmailService.send_loop deliveries calls_after].
    unfold mbind, M_bind. rewrite send_one_eq.
    destruct (delivery env rfp s (ticks w)) as [[ok n'] ev].
    rewrite IH. unfold with_delivery_log. cbn [ticks requests rfps log fst snd map forallb].
    rewrite <- app_assoc. by destruct ok, success.
Qed.

Lemma deliveries_length rfp suppliers n :
  length (deliveries env rfp suppliers n) = length suppliers.
Proof.
  revert n. induction suppliers as [|s suppliers IH]; intros n; [done|].
  cbn [deliveries]. destruct (delivery env rfp s n) as [[ok n'] ev].
  cbn. by rewrite IH.
Qed.

Lemma deliveries_emails rfp suppliers n :
  map (fun d => event_email d.2) (deliveries env rfp suppliers n)
  = map (fun s => Some (sup_email s)) suppliers.
Proof.
  revert n. induction suppliers as [|s suppliers IH]; intros n; [done|].
  cbn [deliveries]. destruct (delivery env rfp s n) as [[ok n'] ev] eqn:Hd.
  cbn. rewrite IH. f_equal.
  unfold delivery in Hd.
  destruct (create_email_message env rfp s); [by injection Hd as <- <- <-|].
  destruct (smtp_send env n s0 (sup_email s)); by injection Hd as <- <- <-.
Qed.

Lemma modify_rfp_eq l f w r :
  rfps w !! l = Some r ->
  modify_rfp l f w = (inr tt, with_rfp w l (f r) (ticks w) []).
Proof.
  intros H. unfold modify_rfp, get_rfp, put_rfp, with_rfp, mbind, M_bind.
  rewrite H. by rewrite app_nil_r.
Qed.

Lemma send_rfp_eq l w r :
  rfps w !! l = Some r ->
  EmailService.send_rfp env l w =
  match rfp_suppliers r with
  | [] => (inr false, with_delivery_log w (ticks w) [LogNoSuppliers (rfp_id r)])
  | _ :: _ =>
      (inr (forallb fst (deliveries env r (rfp_suppliers r) (ticks w))),
       with_delivery_log w (calls_after env r (rfp_suppliers r) (ticks w))
         (map snd (deliveries env r (rfp_suppliers r) (ticks w))))
  end.
Proof.
  intros H. unfold EmailService.send_rfp, get_rfp, mbind, M_bind. rewrite H.
  destruct (rfp_suppliers r) as [|s suppliers] eqn:Hs; [done|].
  by rewrite send_loop_eq.
Qed.

(** [send_to_suppliers], by cases. *)
Lemma send_to_suppliers_eq l w r :
  rfps w !! l = Some r ->
  ApprovalAgent.send_to_suppliers env l w =
  if decide (rfp_status r = APPROVED) then
    match rfp_suppliers r with
    | [] => (inr false, with_delivery_log w (ticks w) [LogNoSuppliers (rfp_id r)])
    | _ :: _ =>
        let ds := deliveries env r (rfp_suppliers r) (ticks w) in
        let n := calls_after env r (rfp_suppliers r) (ticks w) in
        if forallb fst ds
        then (inr true,
              with_rfp w l
                (set_rfp_sent_date (Some (now env n)) (set_rfp_status SENT r))
                (S n) (map snd ds))
        else (inr false, with_delivery_log w n (map snd ds))
    end
  else (inr false, w).
Proof.
  intros H. unfold ApprovalAgent.send_to_suppliers.
  unfold mbind at 1. unfold M_bind at 1. unfold get_rfp at 1. rewrite H.
  destruct (decide (rfp_status r = APPROVED)) as [Hst|Hst]; [|done].
  unfold mbind at 1. unfold M_bind at 1. rewrite (send_rfp_eq l w r H).
  destruct (rfp_suppliers r) as [|s suppliers] eqn:Hs; [done|].
  cbv zeta.
  destruct (forallb fst (deliveries env r (s :: suppliers) (ticks w))); [|done].
  unfold mbind, M_bind.
  set (w1 := with_delivery_log w _ _).
  assert (H1 : rfps w1 !! l = Some r) by done.
  rewrite (modify_rfp_eq l _ w1 r H1).
  unfold tick. cbn [ticks requests rfps log with_rfp with_delivery_log w1].
  set (w2 := Build_World _ _ _ _).
  assert (H2 : rfps w2 !! l = Some (set_rfp_status SENT r))
    by (unfold w2; cbn [rfps]; apply lookup_insert_eq).
  rewrite (modify_rfp_eq l _ w2 _ H2).
  unfold mret, M_ret, with_rfp, w2. cbn [ticks requests rfps log].
  by rewrite insert_insert_eq, !app_nil_r.
Qed.

End DeliveryFacts.

Section DeliveryClaim.

(** C8 (amended). [send_to_suppliers] delivers only an RFP whose status
    is APPROVED: for any other status it returns false and changes nothing.
    For an approved RFP without suppliers it returns false and leaves the
    RFP as it is.  For an approved RFP with suppliers it attempts the
    delivery to every supplier, in the order of the list, whatever the
    outcome for the suppliers before; the result is the conjunction of the
    outcomes; when all succeeded the status becomes SENT and the sent date is
    stamped; when one failed the RFP is left as it is, status APPROVED, and
    the result is false. *)
Theorem delivery_step (env : Env) (l : loc) (w : World) (r : RFP) :
  rfps w !! l = Some r ->
  let result := ApprovalAgent.send_to_suppliers env l w in
  let ds := deliveries env r (rfp_suppliers r) (ticks w) in
  (rfp_status r <> APPROVED -> result = (inr false, w))
  /\ (rfp_status r = APPROVED -> rfp_suppliers r = [] ->
      result.1 = inr false /\ rfps result.2 = rfps w)
  /\ (rfp_status r = APPROVED -> rfp_suppliers r <> [] ->
      result.1 = inr (forallb fst ds)
      /\ length ds = length (rfp_suppliers r)
      /\ map (fun d => event_email d.2) ds
         = map (fun s => Some (sup_email s)) (rfp_suppliers r)
      /\ log result.2 = log w ++ map snd ds
      /\ (forallb fst ds = true ->
          rfps result.2 !! l
          = Some (set_rfp_sent_date
                    (Some (now env (calls_after env r (rfp_suppliers r) (ticks w))))
                    (set_rfp_status SENT r)))
      /\ (forallb fst ds = false -> rfps result.2 = rfps w)).
Proof.
  intros Hr result ds. subst result ds. rewrite (send_to_suppliers_eq env l w r Hr).
  split; [|split].
  - intros Hst. by destruct (decide (rfp_status r = APPROVED)).
  - intros Hst Hs. destruct (decide (rfp_status r = APPROVED)); [|done].
    by rewrite Hs.
  - intros Hst Hs. destruct (decide (rfp_status r = APPROVED)); [|done].
    destruct (rfp_suppliers r) as [|s suppliers] eqn:Hsup; [done|].
    cbv zeta. rewrite <- Hsup.
    split; [by destruct (forallb _ _)|].
    split; [apply deliveries_length|].
    split; [apply deliveries_emails|].
    split; [by destruct (forallb _ _)|].
    split; intros Hall; rewrite Hall; [|done].
    cbn [snd with_rfp rfps]. apply lookup_insert_eq.
Qed.

Lemma delivery_step_witness :
  ((ApprovalAgent.send_to_suppliers env_one_bad_address 0%nat
      (world_with_rfp (approved_rfp three_suppliers))).1 = inr false
   /\ log (ApprovalAgent.send_to_suppliers env_one_bad_address 0%nat
             (world_with_rfp (approved_rfp three_suppliers))).2
      = [LogSent (Some "rfp-1") "sales@alpha.example";
         LogSendFailed (Some "rfp-1") "sales@beta.example";
         LogSent (Some "rfp-1") "sales@gamma.example"]
   /\ rfps (ApprovalAgent.send_to_suppliers env_one_bad_address 0%nat
              (world_with_rfp (approved_rfp three_suppliers))).2
      = rfps (world_with_rfp (approved_rfp three_suppliers)))
  /\ ((ApprovalAgent.send_to_suppliers env_all_up 0%nat
         (world_with_rfp (approved_rfp three_suppliers))).1 = inr true
      /\ rfp_status
           <$> (rfps (ApprovalAgent.send_to_suppliers env_all_up 0%nat
                        (world_with_rfp (approved_rfp three_suppliers))).2
                  !! 0%nat)
         = Some SENT
      /\ rfp_sent_date
           <$> (rfps (ApprovalAgent.send_to_suppliers env_all_up 0%nat
                        (world_with_rfp (approved_rfp three_suppliers))).2
                  !! 0%nat)
         = Some (Some 3))
  /\ ApprovalAgent.send_to_suppliers env_all_up 0%nat
       (world_with_rfp (sample_rfp "Overview"))
     = (inr false, world_with_rfp (sample_rfp "Overview"))
  /\ (ApprovalAgent.send_to_suppliers env_all_up 0%nat
        (world_with_rfp (approved_rfp []))).1 = inr false.
Proof.
  split; [|split; [|split]].
  - destruct (delivery_step env_one_bad_address 0%nat
                (world_with_rfp (approved_rfp three_suppliers))
                (approved_rfp three_suppliers))
      as (_ & _ & Hsend); [reflexivity|].
    destruct Hsend as (Hresult & _ & _ & Hlog & _ & Hkept);
      [reflexivity | discriminate |].
    split; [rewrite Hresult; vm_compute; reflexivity|].
    split; [rewrite Hlog; vm_compute; reflexivity|].
    apply Hkept. vm_compute. reflexivity.
  - destruct (delivery_step env_all_up 0%nat
                (world_with_rfp (approved_rfp three_suppliers))
                (approved_rfp three_suppliers))
      as (_ & _ & Hsend); [reflexivity|].
    destruct Hsend as (Hresult & _ & _ & _ & Hsent & _);
      [reflexivity | discriminate |].
    split; [rewrite Hresult; vm_compute; reflexivity|].
    specialize (Hsent ltac:(vm_compute; reflexivity)).
    split; [exact (f_equal (fmap rfp_status) Hsent)
           | exact (f_equal (fmap rfp_sent_date) Hsent)].
  - destruct (delivery_step env_all_up 0%nat
                (world_with_rfp (sample_rfp "Overview")) (sample_rfp "Overview"))
      as (Hother & _); [reflexivity|].
    apply Hother. discriminate.
  - destruct (delivery_step env_all_up 0%nat
                (world_with_rfp (approved_rfp [])) (approved_rfp []))
      as (_ & Hnone & _); [reflexivity|].
    by destruct Hnone as [Hresult _].
Defined.

(** C8 as it is worded fails on an approved RFP without suppliers: the
    conjunction of no outcome at all is true, yet the step returns false and
    the status stays APPROVED. *)
Lemma delivery_without_suppliers_counterexample :
  forallb fst (deliveries env_all_up (approved_rfp []) (rfp_suppliers (approved_rfp [])) 0)
  = true
  /\ (ApprovalAgent.send_to_suppliers env_all_up 0%nat
        (world_with_rfp (approved_rfp []))).1 = inr false
  /\ rfp_status
       <$> (rfps (ApprovalAgent.send_to_suppliers env_all_up 0%nat
                    (world_with_rfp (approved_rfp []))).2 !! 0%nat)
     = Some APPROVED.
Proof. vm_compute. repeat split; reflexivity. Qed.

End DeliveryClaim.

(* ===================================================================== *)
(** * RFP generation *)
(* ===================================================================== *)

Section FormatFacts.
Import PyFormat.
Context {V : Type}.
Variable str_of : V -> string.
Variable kwargs : gmap string V.

Lemma get_field_ok name :
  field_ok kwargs name -> exists v, get_field str_of kwargs name = inr v.
Proof.
  intros [Hd [v Hv]]. unfold get_field. rewrite Hd, Hv. by eexists.
Qed.

(** A well formed template whose fields all have a value is rendered. *)
Lemma format_from_ok n :
  forall s field names,
    (String.length s <= n)%nat ->
    fields_from s field = Some names ->
    Forall (field_ok kwargs) names ->
    exists out, format_from str_of kwargs s field = inr out.
Proof.
  induction n as [|n IH]; intros s field names Hlen Hfields Hok.
  - destruct s; [|simpl in Hlen; lia].
    destruct field; simpl in *; [done | by eexists].
  - destruct s as [|c s]; [destruct field; simpl in *; [done | by eexists]|].
    simpl in Hlen. assert (Hs : (String.length s <= n)%nat) by lia.
    destruct field as [name|]; cbn [fields_from format_from] in *.
    + destruct (is_brace_close c).
      * destruct (fields_from s None) as [l|] eqn:Hl; [|done].
        injection Hfields as <-. apply Forall_cons in Hok as [Hname Hok].
        destruct (get_field_ok name Hname) as [v ->].
        destruct (IH s None l Hs Hl Hok) as [out ->]. by eexists.
      * destruct (is_brace_open c); [done|].
        destruct (is_field_operator c); [done|].
        by apply (IH s _ names).
    + destruct (is_brace_open c).
      * destruct s as [|c' s']; [done|].
        destruct (is_brace_open c').
        -- simpl in Hs.
           destruct (IH s' None names ltac:(lia) Hfields Hok) as [out ->].
           by eexists.
        -- by apply (IH (String c' s') _ names).
      * destruct (is_brace_close c).
        -- destruct s as [|c' s']; [done|].
           destruct (is_brace_close c'); [|done]. simpl in Hs.
           destruct (IH s' None names ltac:(lia) Hfields Hok) as [out ->].
           by eexists.
        -- destruct (IH s None names Hs Hfields Hok) as [out ->]. by eexists.
Qed.

Lemma format_ok template names :
  fields template = Some names ->
  Forall (field_ok kwargs) names ->
  exists out, format str_of kwargs template = inr out.
Proof. intros. by eapply (format_from_ok (String.length template)). Qed.

End FormatFacts.

Section GenerationFacts.
Import RFPGenerationAgent.

Lemma add_default_lookup d key k :
  add_default d key !! k =
  match d !! k with
  | Some v => Some v
  | None => if decide (k = key) then Some (JStr "") else None
  end.
Proof.
  unfold add_default. destruct (d !! key) as [v|] eqn:Hkey.
  - destruct (d !! k) eqn:Hk; [done|]. case_decide; [congruence | done].
  - destruct (decide (k = key)) as [->|Hne].
    + by rewrite lookup_insert_eq, Hkey.
    + rewrite lookup_insert_ne by done. by destruct (d !! k).
Qed.

(** The loop of the defaults: a key of the answer keeps its value, a
    missing key among those of the loop gets the empty string. *)
Lemma fold_add_default_lookup keys d k :
  fold_left add_default keys d !! k =
  match d !! k with
  | Some v => Some v
  | None => if decide (k ∈ keys) then Some (JStr "") else None
  end.
Proof.
  revert d. induction keys as [|key keys IH]; intros d; cbn [fold_left].
  - destruct (d !! k); [done|]. case_decide as H; [by apply elem_of_nil in H | done].
  - rewrite IH, add_default_lookup. destruct (d !! k) as [v|]; [done|].
    destruct (decide (k = key)) as [->|Hne].
    + destruct (decide (key ∈ key :: keys)) as [|H]; [done|].
      destruct H. by left.
    + destruct (decide (k ∈ keys)) as [Hin|Hnin],
        (decide (k ∈ key :: keys)) as [H|H]; try done.
      * destruct H. by right.
      * apply elem_of_cons in H as [?|?]; done.
Qed.

Lemma with_defaults_lookup d key :
  key ∈ template_keys ->
  with_defaults d !! key = Some (default (JStr "") (d !! key)).
Proof.
  intros Hkey. unfold with_defaults. rewrite fold_add_default_lookup.
  destruct (d !! key); [done|]. by case_decide.
Qed.

Lemma with_defaults_other d key :
  key ∉ template_keys -> with_defaults d !! key = d !! key.
Proof.
  intros Hkey. unfold with_defaults. rewrite fold_add_default_lookup.
  destruct (d !! key); [done|]. by case_decide.
Qed.

(** The template of each known category, and of any other one. *)
Lemma template_of_cases category :
  template_of category =
  if decide (category = "Software") then Settings.software_template
  else if decide (category = "Hardware") then Settings.hardware_template
  else if decide (category = "Services") then Settings.services_template
  else if decide (category = "Raw Materials") then Settings.raw_materials_template
  else Settings.services_template.
Proof.
  unfold template_of, template_for, Settings.RFP_TEMPLATES.
  repeat (rewrite lookup_insert; case_decide; [subst; by repeat case_decide|]).
  rewrite lookup_empty. by repeat case_decide.
Qed.

Lemma template_of_unknown category :
  category ∉ Settings.PROCUREMENT_CATEGORIES ->
  template_of category = Settings.services_template.
Proof.
  intros Hnot. rewrite template_of_cases.
  assert (Hin : forall c, In c Settings.PROCUREMENT_CATEGORIES -> category <> c).
  { intros c Hc ->. by apply Hnot, list_elem_of_In. }
  destruct (decide (category = "Software")) as [H|_];
    [by apply Hin in H; [|simpl; tauto]|].
  destruct (decide (category = "Hardware")) as [H|_];
    [by apply Hin in H; [|simpl; tauto]|].
  destruct (decide (category = "Services")) as [H|_]; [done|].
  by destruct (decide (category = "Raw Materials")) as [H|_];
    [apply Hin in H; [|simpl; tauto]|].
Qed.

Lemma services_template_registered :
  Settings.RFP_TEMPLATES !! "Services" = Some Settings.services_template.
Proof. reflexivity. Qed.

(** The fields of the four templates are among the defaulted keys. *)
Lemma template_fields category :
  exists names,
    PyFormat.fields (template_of category) = Some names
    /\ Forall (fun name => PyFormat.all_digits name = false
                           /\ name ∈ template_keys) names.
Proof.
  rewrite template_of_cases.
  repeat case_decide; eexists; (split; [vm_compute; reflexivity|]);
    repeat (apply Forall_cons; split;
            [split; [reflexivity | unfold template_keys; set_solver]|]);
    apply Forall_nil_2.
Qed.

(** Rendering never fails, whatever the drafter left out. *)
Lemma render_total env category d :
  exists content, render env (template_of category) d = inr content.
Proof.
  destruct (template_fields category) as (names & Hfields & Hnames).
  unfold render. eapply format_ok; [exact Hfields|].
  eapply Forall_impl; [exact Hnames|]. intros name [Hd Hin]. split; [done|].
  fold (with_defaults d). rewrite with_defaults_lookup by done. by eexists.
Qed.

(** [generate_rfp] when the request has an id and the chain answers. *)
Lemma generate_rfp_success env request classification w req id d content :
  requests w !! request = Some req ->
  pr_id req = Some id ->
  generation_chain env (generation_input req classification) = inr d ->
  render env (template_of (cr_category classification)) d = inr content ->
  generate_rfp env request classification w =
  (inr (fresh (dom (rfps w))),
   with_new_rfp w (generated_rfp env req classification id content (ticks w))).
Proof.
  intros Hreq Hid Hchain Hrender.
  unfold generate_rfp, mbind, M_bind, get_request. rewrite Hreq.
  fold (generation_input req classification). rewrite Hchain.
  unfold lift, mret, M_ret. rewrite services_template_registered.
  fold (template_of (cr_category classification)). rewrite Hrender, Hid.
  reflexivity.
Qed.

(** C9. Given a request with an id and a classification, when the
    drafting chain answers, [generate_rfp] returns a new RFP whose status is
    PENDING_APPROVAL and whose content is the template of the category,
    filled with the answer of the chain: the template of Software, Hardware,
    Services or Raw Materials for these categories, the Services template for
    any other one.  Before the template is filled, each of the ten keys the
    chain left out is set to the empty string and every key it gave keeps
    its value, so that filling the template never fails. *)
Theorem generate_rfp_fills_template
    (env : Env) (request : loc) (classification : ClassificationResult)
    (w : World) (req : ProcurementRequest) (id : string) (d : gmap string JVal) :
  requests w !! request = Some req ->
  pr_id req = Some id ->
  generation_chain env (generation_input req classification) = inr d ->
  exists content,
    PyFormat.format (str_of env) (with_defaults d)
      (template_of (cr_category classification)) = inr content
    /\ generate_rfp env request classification w
       = (inr (fresh (dom (rfps w))),
          with_new_rfp w
            (generated_rfp env req classification id content (ticks w)))
    /\ rfps w !! fresh (dom (rfps w)) = None
    /\ rfps (with_new_rfp w
               (generated_rfp env req classification id content (ticks w)))
         !! fresh (dom (rfps w))
       = Some (generated_rfp env req classification id content (ticks w))
    /\ rfp_status (generated_rfp env req classification id content (ticks w))
       = PENDING_APPROVAL
    /\ rfp_content (generated_rfp env req classification id content (ticks w))
       = content
    /\ template_of "Software" = Settings.software_template
    /\ template_of "Hardware" = Settings.hardware_template
    /\ template_of "Services" = Settings.services_template
    /\ template_of "Raw Materials" = Settings.raw_materials_template
    /\ (cr_category classification ∉ ["Software"; "Hardware"; "Services"; "Raw Materials"] ->
        template_of (cr_category classification) = Settings.services_template)
    /\ (forall key,
          key ∈ ["project_overview"; "requirements"; "timeline"; "budget";
                 "evaluation_criteria"; "submission_instructions"; "quantity";
                 "warranty"; "sla"; "quality"] ->
          with_defaults d !! key = Some (default (JStr "") (d !! key)))
    /\ (forall d' category, exists content',
          PyFormat.format (str_of env) (with_defaults d') (template_of category)
          = inr content').
Proof.
  intros Hreq Hid Hchain.
  destruct (render_total env (cr_category classification) d) as [content Hrender].
  exists content.
  split; [exact Hrender|].
  split; [by apply (generate_rfp_success env request classification w req id d)|].
  split; [apply not_elem_of_dom, is_fresh|].
  split; [apply lookup_insert_eq|].
  do 6 (split; [reflexivity|]).
  split; [apply template_of_unknown|].
  split; [intros key; apply with_defaults_lookup|].
  intros d' category. apply render_total.
Qed.

Lemma generate_rfp_fills_template_witness :
  exists l w',
    generate_rfp env_all_up 0%nat (sample_classification "Furniture") world_with_id
    = (inr l, w')
    /\ (rfp_status <$> rfps w' !! l) = Some PENDING_APPROVAL
    /\ PyFormat.format (str_of env_all_up) (with_defaults hardware_draft)
         Settings.services_template
       = inr (default "" (rfp_content <$> rfps w' !! l)).
Proof.
  destruct (generate_rfp_fills_template env_all_up 0%nat
              (sample_classification "Furniture") world_with_id
              (set_pr_id (Some "req-1") sample_request) "req-1" hardware_draft)
    as (content & Hformat & Hrun & _ & Hnew & Hstatus & Hcontent & _ & _ & _ & _
        & Hother & _).
  - reflexivity.
  - reflexivity.
  - reflexivity.
  - eexists _, _. split; [exact Hrun|]. rewrite Hnew. cbn [fmap option_fmap option_map].
    split; [by rewrite Hstatus|].
    rewrite Hcontent. cbn [default].
    rewrite <- Hother; [exact Hformat|].
    vm_compute. intros H.
    repeat (apply elem_of_cons in H as [H|H]; [discriminate H|]).
    by apply elem_of_nil in H.
Defined.

End GenerationFacts.

(* ===================================================================== *)
(** * What the agents change in the store *)
(* ===================================================================== *)

Section StoreFacts.
Variable env : Env.

Lemma same_identity_refl r : same_identity r r.
Proof. by repeat split. Qed.

Lemma same_identity_trans r1 r2 r3 :
  same_identity r1 r2 -> same_identity r2 r3 -> same_identity r1 r3.
Proof.
  unfold same_identity. intros (?&?&?&?&?&?&?&?) (?&?&?&?&?&?&?&?).
  repeat split; congruence.
Qed.

Lemma reviewed_rfp_identity r a n : same_identity r (reviewed_rfp env r a n).
Proof. unfold reviewed_rfp. destruct (ar_approved a); by repeat split. Qed.

Lemma keeps_world_bind {A B} (c : M A) (k : A -> M B) :
  keeps_world c -> (forall a, keeps_world (k a)) -> keeps_world (c ≫= k).
Proof.
  intros Hc Hk w. unfold mbind, M_bind. specialize (Hc w).
  destruct (c w) as [[e|a] w']; simpl in *; subst; [done | apply Hk].
Qed.

Lemma bind_world {A B} (c : M A) (k : A -> M B) w :
  (forall a, keeps_world (k a)) -> ((c ≫= k) w).2 = (c w).2.
Proof.
  intros Hk. unfold mbind, M_bind.
  destruct (c w) as [[e|a] w']; [done | apply Hk].
Qed.

Lemma keeps_world_ret {A} (a : A) : keeps_world (mret a).
Proof. by intros w. Qed.

Lemma keeps_world_raise {A} e : keeps_world (@raise A e).
Proof. by intros w. Qed.

Lemma keeps_world_lift {A} (r : exn + A) : keeps_world (lift r).
Proof. by destruct r. Qed.

Lemma keeps_world_getitem obj key : keeps_world (getitem obj key).
Proof. unfold getitem. by destruct (obj !! key). Qed.

Lemma keeps_world_validated {A} model (o : option A) :
  keeps_world (validated model o).
Proof. by destruct o. Qed.

Lemma keeps_world_get_request l : keeps_world (get_request l).
Proof. intros w. unfold get_request. by destruct (requests w !! l). Qed.

Lemma keeps_world_get_rfp l : keeps_world (get_rfp l).
Proof. intros w. unfold get_rfp. by destruct (rfps w !! l). Qed.

Create HintDb keeps.

#[local] Hint Resolve keeps_world_ret keeps_world_raise keeps_world_lift
  keeps_world_getitem keeps_world_validated keeps_world_get_request
  keeps_world_get_rfp : keeps.

Ltac keeps :=
  repeat first
    [ apply keeps_world_bind; [|intros ?]
    | progress auto with keeps
    | match goal with
      | |- keeps_world (match ?x with _ => _ end) => destruct x
      end ].

(** [classify] leaves the store as [with_request_id] says, whether it
    returns or raises. *)
Lemma classify_world l w r0 :
  requests w !! l = Some r0 ->
  (ClassificationAgent.classify env l w).2 = with_request_id env l r0 w.
Proof.
  intros H. unfold ClassificationAgent.classify, with_request_id.
  unfold mbind at 1. unfold M_bind at 1. unfold get_request at 1. rewrite H.
  rewrite bind_world by (intros ?; keeps).
  destruct (falsy (pr_id r0)); [|done].
  unfold modify_request, tick, get_request, put_request, mbind, M_bind.
  cbn [requests rfps ticks log]. by rewrite H.
Qed.

(** [generate_rfp] leaves the requests alone and adds at most one RFP, at
    a new address. *)
Lemma generate_rfp_world request c w :
  exists res w',
    RFPGenerationAgent.generate_rfp env request c w = (res, w')
    /\ requests w' = requests w
    /\ match res with
       | inl _ => rfps w' = rfps w
       | inr l =>
           l = fresh (dom (rfps w))
           /\ exists rfp, rfps w' = <[l := rfp]> (rfps w)
                          /\ rfp_status rfp = PENDING_APPROVAL
       end.
Proof.
  unfold RFPGenerationAgent.generate_rfp, mbind, M_bind, get_request, lift,
    raise, mret, M_ret, tick, validated, new_rfp.
  destruct (requests w !! request) as [req|]; [|by eexists _, _].
  destruct (generation_chain env _) as [e|d]; [by eexists _, _|].
  destruct (Settings.RFP_TEMPLATES !! "Services") as [services|]; [|by eexists _, _].
  destruct (RFPGenerationAgent.render env _ d) as [e|content]; [by eexists _, _|].
  cbn [requests rfps ticks log].
  destruct (pr_id req) as [id|]; [|by eexists _, _].
  cbn [requests rfps ticks log].
  eexists _, _. split; [reflexivity|]. split; [done|]. split; [done|].
  eexists. split; reflexivity.
Qed.

(** [validate_rfp] on a stored RFP: the verdict of [review], and the RFP
    updated in place. *)
Lemma validate_rfp_eq l w r :
  rfps w !! l = Some r ->
  ApprovalAgent.validate_rfp env l w =
  match review env r with
  | inl e => (inl e, w)
  | inr a =>
      (inr a,
       with_rfp w l (reviewed_rfp env r a (ticks w))
         (if ar_approved a then S (ticks w) else ticks w) [])
  end.
Proof.
  intros H. unfold ApprovalAgent.validate_rfp, review.
  unfold mbind at 1. unfold M_bind at 1. unfold get_rfp at 1. rewrite H.
  cbv zeta. unfold mbind at 1. unfold M_bind at 1. unfold lift.
  destruct (approval_chain env _) as [e|result]; [done|].
  cbn [mret M_ret].
  unfold mbind at 1. unfold M_bind at 1. unfold getitem at 1.
  destruct (result !! "approved") as [approved|]; [|done]. cbn [mret M_ret].
  unfold mbind at 1. unfold M_bind at 1. unfold getitem at 1.
  destruct (result !! "feedback") as [feedback|]; [|done]. cbn [mret M_ret].
  unfold mbind at 1. unfold M_bind at 1. unfold validated.
  match goal with |- context [match ?o with Some _ => mret _ | None => raise _ end] =>
    destruct o as [ar|] end; [|done].
  cbn [mret M_ret].
  set (a := ApprovalAgent._apply_guardrails r ar).
  unfold reviewed_rfp, with_rfp. unfold mbind, M_bind.
  destruct (ar_approved a).
  - rewrite (modify_rfp_eq l _ w r H).
    unfold tick. cbn [ticks requests rfps log with_rfp].
    set (w2 := Build_World _ _ _ _).
    assert (H2 : rfps w2 !! l = Some (set_rfp_status APPROVED r))
      by (unfold w2; cbn [rfps]; apply lookup_insert_eq).
    rewrite (modify_rfp_eq l _ w2 _ H2).
    set (w3 := with_rfp w2 _ _ _ _).
    assert (H3 : rfps w3 !! l
                 = Some (set_rfp_approval_date (Some (now env (ticks w)))
                           (set_rfp_status APPROVED r)))
      by (unfold w3, with_rfp; cbn [rfps]; apply lookup_insert_eq).
    rewrite (modify_rfp_eq l _ w3 _ H3).
    unfold mret, M_ret, with_rfp, w3, with_rfp, w2. cbn [ticks requests rfps log].
    by rewrite !insert_insert_eq, !app_nil_r.
  - rewrite (modify_rfp_eq l _ w r H).
    set (w2 := with_rfp w _ _ _ _).
    assert (H2 : rfps w2 !! l = Some (set_rfp_status REJECTED r))
      by (unfold w2, with_rfp; cbn [rfps]; apply lookup_insert_eq).
    rewrite (modify_rfp_eq l _ w2 _ H2).
    unfold mret, M_ret, with_rfp, w2, with_rfp. cbn [ticks requests rfps log].
    by rewrite !insert_insert_eq, !app_nil_r.
Qed.

End StoreFacts.

Section Evolution.
Import ProcurementWorkflow.
Variable env : Env.

Lemma evolves_refl w : evolves w w.
Proof. split; [done|]. intros l r H. exists r. split; [done | apply same_identity_refl]. Qed.

Lemma evolves_trans w1 w2 w3 : evolves w1 w2 -> evolves w2 w3 -> evolves w1 w3.
Proof.
  intros [Hq12 Hr12] [Hq23 Hr23]. split; [congruence|].
  intros l r H. destruct (Hr12 l r H) as (r2 & H2 & Hid2).
  destruct (Hr23 l r2 H2) as (r3 & H3 & Hid3).
  exists r3. split; [done | by eapply same_identity_trans].
Qed.

(** Replacing one RFP by a version of itself. *)
Lemma evolves_with_rfp w l r r' n evs :
  rfps w !! l = Some r -> same_identity r r' -> evolves w (with_rfp w l r' n evs).
Proof.
  intros Hl Hid. split; [done|]. intros l' r1 H1. cbn [with_rfp rfps].
  destruct (decide (l' = l)) as [->|Hne].
  - rewrite lookup_insert_eq. exists r'. split; [done|]. congruence.
  - rewrite lookup_insert_ne by done. exists r1.
    split; [done | apply same_identity_refl].
Qed.

Lemma evolves_with_delivery_log w n evs : evolves w (with_delivery_log w n evs).
Proof.
  split; [done|]. intros l r H. exists r. split; [done | apply same_identity_refl].
Qed.

Lemma generate_rfp_evolves request c w :
  evolves w (RFPGenerationAgent.generate_rfp env request c w).2.
Proof.
  destruct (generate_rfp_world env request c w) as (res & w' & -> & Hq & Hres).
  split; [done|]. intros l r H. cbn [snd]. destruct res as [e|l'].
  - rewrite Hres. exists r. split; [done | apply same_identity_refl].
  - destruct Hres as (-> & rfp & -> & _). exists r.
    split; [|apply same_identity_refl].
    rewrite lookup_insert_ne; [done|]. intros <-.
    pose proof (is_fresh (dom (rfps w))) as Hfresh.
    apply Hfresh, elem_of_dom. by eexists.
Qed.

Lemma validate_rfp_evolves l w :
  evolves w (ApprovalAgent.validate_rfp env l w).2.
Proof.
  destruct (rfps w !! l) as [r|] eqn:Hl.
  - rewrite (validate_rfp_eq env l w r Hl).
    destruct (review env r) as [e|a]; [apply evolves_refl|].
    apply (evolves_with_rfp w l r); [done | apply reviewed_rfp_identity].
  - unfold ApprovalAgent.validate_rfp, mbind, M_bind, get_rfp. rewrite Hl.
    apply evolves_refl.
Qed.

Lemma send_to_suppliers_evolves l w :
  evolves w (ApprovalAgent.send_to_suppliers env l w).2.
Proof.
  destruct (rfps w !! l) as [r|] eqn:Hl.
  - rewrite (send_to_suppliers_eq env l w r Hl).
    destruct (decide _); [|apply evolves_refl].
    destruct (rfp_suppliers r); [apply evolves_with_delivery_log|].
    cbv zeta. destruct (forallb _ _); [|apply evolves_with_delivery_log].
    apply (evolves_with_rfp w l r); [done | by repeat split].
  - unfold ApprovalAgent.send_to_suppliers, mbind, M_bind, get_rfp. rewrite Hl.
    apply evolves_refl.
Qed.

Lemma evolves_holds_objects s w w' :
  evolves w w' -> holds_objects s w -> holds_objects s w'.
Proof.
  intros [_ Hr] Hs l Hl. destruct (Hs l Hl) as [r H].
  destruct (Hr l r H) as (r' & H' & _). by eexists.
Qed.

Ltac ws_simpl :=
  cbn [failed set_ws_status set_ws_error set_ws_classification set_ws_rfp
       set_ws_approval set_ws_email_sent ws_request ws_classification ws_rfp
       ws_approval ws_email_sent ws_error ws_status initial_state].

(** Each node of the workflow, with the agents of [__init__]: it returns
    a state about the same request; the store evolves; the RFP reference
    of the state it returns points into the store. *)
Lemma generate_node_evolves s w :
  exists s' w',
    _generate_rfp (agents_of env) s w = (inr s', w')
    /\ ws_request s' = ws_request s
    /\ evolves w w'
    /\ (holds_objects s w -> holds_objects s' w').
Proof.
  rewrite generate_rfp_eq. destruct (ws_classification s) as [c|].
  - cbn [agents_of generate_rfp].
    pose proof (generate_rfp_evolves (ws_request s) c w) as Hev.
    destruct (generate_rfp_world env (ws_request s) c w) as (res & w' & Hg & _ & Hres).
    rewrite Hg in Hev. rewrite Hg. cbn [snd] in Hev.
    destruct res as [e|l]; eexists _, _; (split; [reflexivity|]);
      (split; [reflexivity|]); (split; [exact Hev|]).
    + intros Hs. by apply (evolves_holds_objects _ w).
    + intros _ l' Hl'. cbn [set_ws_status set_ws_rfp ws_rfp] in Hl'.
      injection Hl' as <-.
      destruct Hres as (_ & rfp & -> & _). rewrite lookup_insert_eq. by eexists.
  - eexists _, _. split; [reflexivity|]. split; [reflexivity|].
    split; [apply evolves_refl | done].
Qed.

Lemma approve_node_evolves s w :
  exists s' w',
    _approve_rfp (agents_of env) s w = (inr s', w')
    /\ ws_request s' = ws_request s
    /\ ws_rfp s' = ws_rfp s
    /\ evolves w w'.
Proof.
  rewrite approve_rfp_eq. destruct (ws_rfp s) as [l|] eqn:Hl.
  - cbn [agents_of validate_rfp].
    pose proof (validate_rfp_evolves l w) as Hev.
    destruct (ApprovalAgent.validate_rfp env l w) as [[e|a] w'];
      eexists _, _; (split; [reflexivity|]); by ws_simpl.
  - eexists _, _. split; [reflexivity|]. ws_simpl.
    split; [done|]. split; [done | apply evolves_refl].
Qed.

Lemma send_node_evolves s w :
  exists s' w',
    _send_email (agents_of env) s w = (inr s', w')
    /\ ws_request s' = ws_request s
    /\ ws_rfp s' = ws_rfp s
    /\ evolves w w'.
Proof.
  rewrite send_email_eq. destruct (ws_rfp s) as [l|] eqn:Hl.
  - destruct (rfps w !! l) as [r|].
    + destruct (rfp_suppliers r).
      * eexists _, _. split; [reflexivity|]. ws_simpl.
        split; [done|]. split; [done | apply evolves_refl].
      * cbn [agents_of send_to_suppliers].
        pose proof (send_to_suppliers_evolves l w) as Hev.
        destruct (ApprovalAgent.send_to_suppliers env l w) as [[e|b] w'];
          eexists _, _; (split; [reflexivity|]); by ws_simpl.
    + eexists _, _. split; [reflexivity|]. ws_simpl.
      split; [done|]. split; [done | apply evolves_refl].
  - eexists _, _. split; [reflexivity|]. ws_simpl.
    split; [done|]. split; [done | apply evolves_refl].
Qed.

Lemma classify_node_world request w r0 :
  requests w !! request = Some r0 ->
  exists s',
    _classify_request env (agents_of env) (initial_state request) w
    = (inr s', with_request_id env request r0 w)
    /\ ws_request s' = request
    /\ ws_rfp s' = None.
Proof.
  intros H. rewrite classify_request_eq. cbn [agents_of classify].
  ws_simpl. pose proof (classify_world env request w r0 H) as Hw.
  destruct (ClassificationAgent.classify env request w) as [[e|c] w1];
    cbn [snd] in Hw; subst w1; by eexists.
Qed.

Lemma with_request_id_lookup request r0 w :
  requests w !! request = Some r0 ->
  requests (with_request_id env request r0 w) !! request
  = Some (with_id env (ticks w) r0)
  /\ rfps (with_request_id env request r0 w) = rfps w.
Proof.
  intros H. unfold with_request_id, with_id.
  destruct (falsy (pr_id r0)); [|done]. cbn [requests rfps].
  by rewrite lookup_insert_eq.
Qed.

End Evolution.

Section SharingClaim.
Import ProcurementWorkflow.

Lemma held_object_evolves s w w' l :
  holds_objects s w -> evolves w w' -> ws_rfp s = Some l ->
  exists r r', rfps w !! l = Some r /\ rfps w' !! l = Some r' /\ same_identity r r'.
Proof.
  intros Hs [_ Hev] Hl. destruct (Hs l Hl) as [r Hr].
  destruct (Hev l r Hr) as (r' & Hr' & Hid). by exists r, r'.
Qed.

Lemma evolves_request w w' l r :
  evolves w w' -> requests w !! l = Some r -> requests w' !! l = Some r.
Proof. intros [-> _]. done. Qed.

(** C10 (amended). With the agents of the workflow, a run changes the
    request in one way only: an id is filled in, in place, when the request
    had none (or an empty one), before the classifier is called; every other
    attribute keeps its value, and every step refers to that same request
    object.  The states of the steps share the RFP object: the object a step
    refers to is still in the store at the end of the run, with the same id,
    request id, title, category, content, suppliers and creation dates;
    its status, approval feedback, approval date and sent date are the
    attributes a later step may have assigned to. *)
Theorem steps_share_the_stored_objects
    (env : Env) (request : loc) (w : World) (r0 : ProcurementRequest) :
  requests w !! request = Some r0 ->
  let run := execute_traced env (agents_of env) request w in
  requests run.2 !! request = Some (with_id env (ticks w) r0)
  /\ (falsy (pr_id r0) = false -> with_id env (ticks w) r0 = r0)
  /\ (falsy (pr_id r0) = true ->
      with_id env (ticks w) r0 = set_pr_id (Some (uuid4 env (ticks w))) r0)
  /\ (forall step, step ∈ trace_of run ->
        ws_request (step_state step) = request
        /\ requests (step_world step) !! request
           = Some (with_id env (ticks w) r0))
  /\ (forall step l, step ∈ trace_of run ->
        ws_rfp (step_state step) = Some l ->
        exists r r',
          rfps (step_world step) !! l = Some r
          /\ rfps run.2 !! l = Some r'
          /\ same_identity r r').
Proof.
  intros H run. subst run. rewrite execute_traced_eq. unfold run_nodes.
  destruct (classify_node_world env request w r0 H) as (s1 & -> & Hreq1 & Hrfp1).
  destruct (with_request_id_lookup env request r0 w H) as [Hq1 _].
  set (w1 := with_request_id env request r0 w) in *.
  destruct (generate_node_evolves env s1 w1) as (s2 & w2 & -> & Hreq2 & Hev12 & Hobj2).
  destruct (approve_node_evolves env s2 w2) as (s3 & w3 & -> & Hreq3 & Hrfp3 & Hev23).
  assert (Hobj1 : holds_objects s1 w1) by (intros l Hl; congruence).
  specialize (Hobj2 Hobj1).
  assert (Hobj3 : holds_objects s3 w3).
  { intros l Hl. rewrite Hrfp3 in Hl. by apply (evolves_holds_objects s2 w2). }
  pose proof (evolves_request _ _ _ _ Hev12 Hq1) as Hq2.
  pose proof (evolves_request _ _ _ _ Hev23 Hq2) as Hq3.
  split; [|split; [by unfold with_id; intros -> | split; [by unfold with_id; intros ->|]]].
  - destruct (String.eqb _ _); [|done].
    destruct (send_node_evolves env s3 w3) as (s4 & w4 & -> & _ & _ & Hev34).
    by apply (evolves_request w3).
  - destruct (String.eqb _ _).
    + destruct (send_node_evolves env s3 w3)
        as (s4 & w4 & -> & Hreq4 & Hrfp4 & Hev34).
      pose proof (evolves_request _ _ _ _ Hev34 Hq3) as Hq4.
      assert (Hobj4 : holds_objects s4 w4).
      { intros l Hl. rewrite Hrfp4 in Hl. by apply (evolves_holds_objects s3 w3). }
      unfold trace_of. cbn [fst snd app]. split.
      * intros step Hstep.
        repeat (apply elem_of_cons in Hstep as [-> | Hstep]);
          [..| by apply elem_of_nil in Hstep];
          cbn [step_of step_state step_world]; split; congruence.
      * intros step l Hstep Hl.
        repeat (apply elem_of_cons in Hstep as [-> | Hstep]);
          [..| by apply elem_of_nil in Hstep];
          cbn [step_of step_state step_world] in *.
        -- congruence.
        -- apply (held_object_evolves s2); [done| |done].
           by eapply evolves_trans.
        -- by apply (held_object_evolves s3).
        -- apply (held_object_evolves s4); [done | apply evolves_refl | done].
    + unfold trace_of. cbn [fst snd]. split.
      * intros step Hstep.
        repeat (apply elem_of_cons in Hstep as [-> | Hstep]);
          [..| by apply elem_of_nil in Hstep];
          cbn [step_of step_state step_world]; split; congruence.
      * intros step l Hstep Hl.
        repeat (apply elem_of_cons in Hstep as [-> | Hstep]);
          [..| by apply elem_of_nil in Hstep];
          cbn [step_of step_state step_world] in *.
        -- congruence.
        -- by apply (held_object_evolves s2).
        -- apply (held_object_evolves s3); [done | apply evolves_refl | done].
Qed.

Lemma steps_share_the_stored_objects_witness :
  requests (execute_traced env_all_up (agents_of env_all_up) 0%nat sample_world).2
    !! 0%nat
  = Some (set_pr_id (Some "uuid-0") sample_request)
  /\ requests (execute_traced env_all_up (agents_of env_all_up) 0%nat
                 world_with_id).2 !! 0%nat
     = Some (set_pr_id (Some "req-1") sample_request).
Proof.
  split.
  - destruct (steps_share_the_stored_objects env_all_up 0%nat sample_world
                sample_request)
      as (Hrequest & _ & Hid & _); [reflexivity|].
    etransitivity; [exact Hrequest|]. rewrite Hid; reflexivity.
  - destruct (steps_share_the_stored_objects env_all_up 0%nat world_with_id
                (set_pr_id (Some "req-1") sample_request))
      as (Hrequest & Hkept & _); [reflexivity|].
    etransitivity; [exact Hrequest|]. rewrite Hkept; reflexivity.
Defined.

(** C10 as it is worded fails on a run in which every chain answers.
    The request object is assigned to: it had no id before the run and has
    one after the first step.  The state returned by GENERATE_RFP refers to
    the RFP at address 0, whose status was PENDING_APPROVAL when that step
    returned; after APPROVE_RFP the same object, to which the earlier state
    still refers, has the status APPROVED and an approval feedback. *)
Lemma steps_share_the_stored_objects_counterexample :
  pr_id <$> (requests sample_world !! 0%nat) = Some None
  /\ map (fun step => pr_id <$> (requests (step_world step) !! 0%nat))
       (trace_of (execute_traced env_all_up (agents_of env_all_up) 0%nat
                    sample_world))
     = [Some (Some "uuid-0"); Some (Some "uuid-0"); Some (Some "uuid-0");
        Some (Some "uuid-0")]
  /\ map (fun step => (step_node step, ws_rfp (step_state step),
                       rfp_status <$> (rfps (step_world step) !! 0%nat)))
       (trace_of (execute_traced env_all_up (agents_of env_all_up) 0%nat
                    sample_world))
     = [(CLASSIFY, None, None);
        (GENERATE_RFP, Some 0%nat, Some PENDING_APPROVAL);
        (APPROVE_RFP, Some 0%nat, Some APPROVED);
        (SEND_EMAIL, Some 0%nat, Some APPROVED)]
  /\ map (fun step => rfp_approval_feedback <$> (rfps (step_world step) !! 0%nat))
       (trace_of (execute_traced env_all_up (agents_of env_all_up) 0%nat
                    sample_world))
     = [None; Some None; Some (Some "Complete and clear.");
        Some (Some "Complete and clear.")].
Proof. vm_compute. repeat split; reflexivity. Qed.

End SharingClaim.


(* ===================================================================== *)
(** * Further properties of the agents, the templates and the form *)
(* ===================================================================== *)


(* ===================================================================== *)
(** * Further properties of the approval agent *)
(* ===================================================================== *)

Section ApprovalExtras.
Import ApprovalAgent.

(** X1. The guardrails return the approval result they were given,
    unchanged, exactly when the figure of the budget does not exceed the cap
    and no essential section is missing; they never touch the feedback or
    the RFP id. *)
Theorem guardrails_change_nothing_iff (rfp : RFP) (approval_result : ApprovalResult) :
  (_apply_guardrails rfp approval_result = approval_result
   <-> PyFloat.gt_int (_extract_budget (rfp_content rfp)) Settings.MAX_BUDGET = false
       /\ missing_sections rfp = [])
  /\ ar_feedback (_apply_guardrails rfp approval_result) = ar_feedback approval_result
  /\ ar_rfp_id (_apply_guardrails rfp approval_result) = ar_rfp_id approval_result.
Proof.
  split; [|split; reflexivity]. split.
  - intros Heq.
    pose proof (apply_guardrails_issues rfp approval_result) as Hissues.
    rewrite Heq in Hissues.
    rewrite <- (app_nil_r (ar_issues approval_result)) in Hissues at 1.
    apply app_inv_head in Hissues. symmetry in Hissues.
    apply app_eq_nil in Hissues as [Hb Hm].
    split.
    + unfold budget_part in Hb. by destruct (PyFloat.gt_int _ _).
    + by destruct (missing_sections rfp).
  - intros [Hb Hm].
    pose proof (apply_guardrails_issues rfp approval_result) as Hissues.
    pose proof (apply_guardrails_approved rfp approval_result) as Happroved.
    unfold budget_part in Hissues. rewrite Hb, Hm in Hissues.
    rewrite Hb in Happroved.
    assert (Hall : forallb (fun s => negb (section_missing (rfp_content rfp) s))
                     essential_sections = true) by by apply forallb_filter_nil.
    rewrite Hall, !andb_true_r in Happroved. simpl in Hissues.
    rewrite app_nil_r in Hissues.
    destruct approval_result as [id approved feedback issues].
    unfold _apply_guardrails in *. cbn in *. by rewrite Happroved, Hissues.
Qed.

Ltac run_m :=
  unfold mbind, M_bind, mret, M_ret, lift, raise, getitem, validated, get_rfp.

(** X2. On a stored RFP with an id, when the chain answers with a
    boolean [approved], a string [feedback] and a list of strings [issues]
    (or no [issues] at all), [validate_rfp] returns that answer after the
    guardrails and assigns to the RFP in place: the status becomes APPROVED
    and the approval date is stamped when the final verdict approves, the
    status becomes REJECTED and the approval date is left as it was
    otherwise; the approval feedback becomes the feedback of the model in
    both cases, whatever the status of the RFP was before.  Nothing else
    changes in the store. *)
Theorem validate_rfp_stamps_rfp
    (env : Env) (l : loc) (w : World) (r : RFP) (id : string)
    (result : gmap string JVal) (approved : bool) (feedback : string)
    (issues : list string) :
  rfps w !! l = Some r ->
  rfp_id r = Some id ->
  approval_chain env (validation_input r) = inr result ->
  result !! "approved" = Some (JBool approved) ->
  result !! "feedback" = Some (JStr feedback) ->
  (result !! "issues" = Some (JArr (JStr <$> issues))
   \/ (result !! "issues" = None /\ issues = [])) ->
  let a := _apply_guardrails r (tentative_result id approved feedback issues) in
  exists w' r',
    validate_rfp env l w = (inr a, w')
    /\ rfps w' = <[l := r']> (rfps w)
    /\ requests w' = requests w
    /\ log w' = log w
    /\ same_identity r r'
    /\ rfp_status r' = (if ar_approved a then APPROVED else REJECTED)
    /\ rfp_approval_date r'
       = (if ar_approved a then Some (now env (ticks w)) else rfp_approval_date r)
    /\ rfp_approval_feedback r' = Some feedback
    /\ rfp_sent_date r' = rfp_sent_date r.
Proof.
  intros Hr Hid Hchain Happroved Hfeedback Hissues a.
  assert (Hlist : as_str_list (issues_of result) = Some issues).
  { unfold issues_of. destruct Hissues as [-> | [-> ->]]; [|done].
    cbn. clear. induction issues as [|i issues IH]; [done|].
    cbn. cbn in IH. by rewrite IH. }
  assert (Hreview : review env r = inr a).
  { unfold review. fold (validation_input r).
    rewrite Hchain, Happroved, Hfeedback, Hid. cbn. by rewrite Hlist. }
  rewrite (validate_rfp_eq env l w r Hr), Hreview.
  eexists _, (reviewed_rfp env r a (ticks w)).
  split; [reflexivity|]. split; [reflexivity|]. split; [reflexivity|].
  split; [apply app_nil_r|]. split; [apply reviewed_rfp_identity|].
  unfold reviewed_rfp.
  assert (Hf : ar_feedback a = feedback) by reflexivity. rewrite Hf.
  by destruct (ar_approved a).
Qed.

Lemma validate_rfp_stamps_rfp_witness :
  exists a w',
    validate_rfp (env_with_review (inr (review_answer true "Fine." None))) 0%nat
      (world_with_rfp (approved_rfp three_suppliers))
    = (inr a, w')
    /\ ar_approved a = true
    /\ (rfp_status <$> rfps w' !! 0%nat) = Some APPROVED
    /\ (rfp_approval_feedback <$> rfps w' !! 0%nat) = Some (Some "Fine.").
Proof.
  destruct (validate_rfp_stamps_rfp
              (env_with_review (inr (review_answer true "Fine." None))) 0%nat
              (world_with_rfp (approved_rfp three_suppliers))
              (approved_rfp three_suppliers) "rfp-1"
              (review_answer true "Fine." None) true "Fine." [])
    as (w' & r' & Hrun & Hrfps & _ & _ & _ & Hstatus & _ & Hfeedback & _);
    [reflexivity.. | by right |].
  eexists _, w'. split; [exact Hrun|]. split; [vm_compute; reflexivity|].
  rewrite Hrfps, lookup_insert_eq. cbn [fmap option_fmap option_map].
  by rewrite Hstatus, Hfeedback.
Defined.

(** X3. When the reviewing chain fails, or its answer has no [approved]
    or no [feedback] entry, or the RFP has no id, [validate_rfp] raises and
    leaves the store, the clock and the log as they were: the RFP keeps its
    status and its approval fields. *)
Theorem validate_rfp_failure_keeps_rfp
    (env : Env) (l : loc) (w : World) (r : RFP) :
  rfps w !! l = Some r ->
  (forall e, approval_chain env (validation_input r) = inl e ->
             validate_rfp env l w = (inl e, w))
  /\ (forall result,
        approval_chain env (validation_input r) = inr result ->
        (result !! "approved" = None ->
         validate_rfp env l w = (inl "'approved'", w))
        /\ (is_Some (result !! "approved") -> result !! "feedback" = None ->
            validate_rfp env l w = (inl "'feedback'", w))
        /\ (is_Some (result !! "approved") ->
            is_Some (result !! "feedback") ->
            rfp_id r = None ->
            validate_rfp env l w
            = (inl "validation error for ApprovalResult", w))).
Proof.
  intros Hr. rewrite (validate_rfp_eq env l w r Hr). unfold review.
  fold (validation_input r). split.
  - by intros e ->.
  - intros result ->. split; [by intros ->|]. split.
    + intros [v ->] ->. done.
    + intros [approved ->] [feedback ->] ->. done.
Qed.

Lemma validate_rfp_failure_keeps_rfp_witness :
  validate_rfp (env_with_review (inl "Rate limit reached.")) 0%nat
    (world_with_rfp (sample_rfp "Overview"))
  = (inl "Rate limit reached.", world_with_rfp (sample_rfp "Overview"))
  /\ validate_rfp (env_with_review (inr (review_answer true "Fine." None)))
       0%nat (world_with_rfp (set_rfp_id None (sample_rfp "Overview")))
     = (inl "validation error for ApprovalResult",
        world_with_rfp (set_rfp_id None (sample_rfp "Overview")))
  /\ validate_rfp (env_with_review (inr (delete "feedback" (review_answer true "Fine." None))))
       0%nat (world_with_rfp (sample_rfp "Overview"))
     = (inl "'feedback'", world_with_rfp (sample_rfp "Overview"))
  /\ validate_rfp (env_with_review (inr ∅)) 0%nat
       (world_with_rfp (sample_rfp "Overview"))
     = (inl "'approved'", world_with_rfp (sample_rfp "Overview")).
Proof.
  split; [|split; [|split]].
  - destruct (validate_rfp_failure_keeps_rfp
                (env_with_review (inl "Rate limit reached.")) 0%nat
                (world_with_rfp (sample_rfp "Overview")) (sample_rfp "Overview"))
      as [Hchain _]; [reflexivity|].
    by apply Hchain.
  - destruct (validate_rfp_failure_keeps_rfp
                (env_with_review (inr (review_answer true "Fine." None))) 0%nat
                (world_with_rfp (set_rfp_id None (sample_rfp "Overview")))
                (set_rfp_id None (sample_rfp "Overview")))
      as [_ Hanswer]; [reflexivity|].
    destruct (Hanswer _ eq_refl) as (_ & _ & Hid).
    apply Hid; [by eexists | by eexists | reflexivity].
  - destruct (validate_rfp_failure_keeps_rfp
                (env_with_review (inr (delete "feedback" (review_answer true "Fine." None))))
                0%nat
                (world_with_rfp (sample_rfp "Overview")) (sample_rfp "Overview"))
      as [_ Hanswer]; [reflexivity|].
    destruct (Hanswer _ eq_refl) as (_ & Hfeedback & _).
    apply Hfeedback; [by eexists | reflexivity].
  - destruct (validate_rfp_failure_keeps_rfp (env_with_review (inr ∅)) 0%nat
                (world_with_rfp (sample_rfp "Overview")) (sample_rfp "Overview"))
      as [_ Hanswer]; [reflexivity|].
    destruct (Hanswer _ eq_refl) as (Happroved & _).
    by apply Happroved.
Defined.

End ApprovalExtras.

(* ===================================================================== *)
(** * Further properties of the workflow with its own agents *)
(* ===================================================================== *)

Section RealRunFacts.
Import ProcurementWorkflow.
Variable env : Env.

Ltac ws_simpl :=
  cbn [failed set_ws_status set_ws_error set_ws_classification set_ws_rfp
       set_ws_approval set_ws_email_sent ws_request ws_classification ws_rfp
       ws_approval ws_email_sent ws_error ws_status initial_state].

Ltac route :=
  unfold _route_after_approval; ws_simpl;
  first [ change (String.eqb "rejected" "approved") with false
        | change (String.eqb "approved" "approved") with true ];
  cbv beta iota; cbn [fst].

Lemma classify_outcome request w :
  (requests w !! request = None
   /\ ClassificationAgent.classify env request w
      = (inl "dangling request reference", w))
  \/ (exists r0 res,
        requests w !! request = Some r0
        /\ ClassificationAgent.classify env request w
           = (res, with_request_id env request r0 w)).
Proof.
  destruct (requests w !! request) as [r0|] eqn:Hr.
  - right. exists r0. pose proof (classify_world env request w r0 Hr) as Hw.
    destruct (ClassificationAgent.classify env request w) as [res w1].
    cbn [snd] in Hw. subst w1. by exists res.
  - left. split; [done|].
    unfold ClassificationAgent.classify, mbind, M_bind, get_request. by rewrite Hr.
Qed.

Lemma with_request_id_frame request r0 w :
  rfps (with_request_id env request r0 w) = rfps w
  /\ log (with_request_id env request r0 w) = log w.
Proof. unfold with_request_id. by destruct (falsy (pr_id r0)). Qed.

(** What [generate_rfp] leaves in the store. *)
Lemma generate_rfp_new request c w :
  exists res w',
    RFPGenerationAgent.generate_rfp env request c w = (res, w')
    /\ log w' = log w
    /\ requests w' = requests w
    /\ match res with
       | inl _ => rfps w' = rfps w
       | inr l =>
           rfps w !! l = None
           /\ exists rfp,
               rfps w' = <[l := rfp]> (rfps w)
               /\ rfp_status rfp = PENDING_APPROVAL
               /\ rfp_suppliers rfp = []
               /\ rfp_category rfp = cr_category c
               /\ is_Some (rfp_id rfp)
       end.
Proof.
  unfold RFPGenerationAgent.generate_rfp, mbind, M_bind, get_request, lift,
    raise, mret, M_ret, tick, validated, new_rfp.
  destruct (requests w !! request) as [req|]; [|by eexists _, _].
  destruct (generation_chain env _) as [e|d]; [by eexists _, _|].
  destruct (Settings.RFP_TEMPLATES !! "Services") as [services|]; [|by eexists _, _].
  destruct (RFPGenerationAgent.render env _ d) as [e|content]; [by eexists _, _|].
  cbn [requests rfps ticks log].
  destruct (pr_id req) as [id|]; [|by eexists _, _].
  cbn [requests rfps ticks log].
  eexists _, _. split; [reflexivity|]. split; [done|]. split; [done|].
  split; [apply not_elem_of_dom, is_fresh|].
  eexists. split; [reflexivity|]. cbn. by eauto.
Qed.

Lemma review_rfp_id r a :
  review env r = inr a -> rfp_id r = Some (ar_rfp_id a).
Proof.
  unfold review. destruct (approval_chain env _) as [e|result]; [done|].
  destruct (result !! "approved") as [approved|]; [|done].
  destruct (result !! "feedback") as [feedback|]; [|done].
  destruct (rfp_id r) as [id|]; [|done]. cbn.
  destruct (as_bool approved); [|done]. cbn.
  destruct (as_str feedback); [|done]. cbn.
  destruct (as_str_list _); [|done]. cbn. by intros [= <-].
Qed.

(** The runs of [execute] with the agents of the workflow, by the final
    state: what the store holds at the end for the RFP of the state. *)
Lemma execute_real_run request w :
  exists final w',
    execute env (agents_of env) request w = (inr final, w')
    /\ log w' = log w
    /\ ws_email_sent final = false
    /\ match ws_rfp final with
       | None =>
           ws_approval final = None /\ is_Some (ws_error final)
           /\ rfps w' = rfps w
       | Some l =>
           rfps w !! l = None
           /\ exists r',
               rfps w' = <[l := r']> (rfps w)
               /\ rfp_suppliers r' = []
               /\ match ws_approval final with
                  | None =>
                      rfp_status r' = PENDING_APPROVAL
                      /\ is_Some (ws_error final)
                  | Some a =>
                      rfp_status r'
                      = (if ar_approved a then APPROVED else REJECTED)
                      /\ rfp_approval_feedback r' = Some (ar_feedback a)
                      /\ rfp_id r' = Some (ar_rfp_id a)
                      /\ ws_error final = None
                      /\ ws_status final
                         = (if ar_approved a
                            then "No suppliers specified. RFP not sent."
                            else "RFP rejected: " +:+ ar_feedback a)
                  end
       end.
Proof.
  rewrite execute_eq, execute_traced_eq. unfold run_nodes.
  rewrite classify_request_eq. cbn [agents_of classify]. ws_simpl.
  destruct (classify_outcome request w) as [[_ ->] | (r0 & res & _ & ->)].
  { rewrite generate_rfp_eq. ws_simpl. rewrite approve_rfp_eq. ws_simpl.
    route. eexists _, _. split; [reflexivity|]. ws_simpl. by eauto. }
  destruct (with_request_id_frame request r0 w) as [Hrfps1 Hlog1].
  set (w1 := with_request_id env request r0 w) in *.
  destruct res as [e|c].
  { rewrite generate_rfp_eq. ws_simpl. rewrite approve_rfp_eq. ws_simpl.
    route. eexists _, _. split; [reflexivity|]. ws_simpl. by eauto. }
  rewrite generate_rfp_eq. ws_simpl. cbn [agents_of generate_rfp].
  destruct (generate_rfp_new request c w1) as (res2 & w2 & -> & Hlog2 & _ & Hres2).
  destruct res2 as [e|l].
  { rewrite approve_rfp_eq. ws_simpl. route.
    eexists _, _. split; [reflexivity|]. ws_simpl.
    split; [congruence|]. split; [done|]. split; [done|].
    split; [by eexists | congruence]. }
  destruct Hres2 as (Hfresh & rfp & Hrfps2 & Hstatus & Hsup & _ & _).
  rewrite approve_rfp_eq. ws_simpl. cbn [agents_of validate_rfp].
  assert (Hl2 : rfps w2 !! l = Some rfp) by (rewrite Hrfps2; apply lookup_insert_eq).
  rewrite (validate_rfp_eq env l w2 rfp Hl2).
  destruct (review env rfp) as [e|a] eqn:Hreview.
  { route. eexists _, _. split; [reflexivity|]. ws_simpl.
    split; [congruence|]. split; [done|]. split; [congruence|].
    exists rfp. split; [congruence|]. split; [done|]. split; [done | by eexists]. }
  pose proof (review_rfp_id rfp a Hreview) as Hid.
  set (w3 := with_rfp w2 l _ _ _).
  assert (Hw3 : rfps w3 = <[l := reviewed_rfp env rfp a (ticks w2)]> (rfps w)).
  { unfold w3, with_rfp. cbn [rfps]. rewrite Hrfps2, insert_insert_eq. congruence. }
  assert (Hlog3 : log w3 = log w).
  { unfold w3, with_rfp. cbn [log]. rewrite app_nil_r. congruence. }
  assert (Hsup3 : rfp_suppliers (reviewed_rfp env rfp a (ticks w2)) = []).
  { unfold reviewed_rfp. by destruct (ar_approved a). }
  unfold _route_after_approval. ws_simpl.
  destruct (ar_approved a) eqn:Happroved.
  - change (String.eqb "approved" "approved") with true. cbv iota.
    rewrite send_email_eq. ws_simpl.
    assert (Hl3 : rfps w3 !! l = Some (reviewed_rfp env rfp a (ticks w2)))
      by (rewrite Hw3; apply lookup_insert_eq).
    rewrite Hl3, Hsup3. cbv beta iota. cbn [fst].
    eexists _, _. split; [reflexivity|]. ws_simpl.
    split; [done|]. split; [done|]. split; [congruence|].
    eexists. split; [exact Hw3|]. split; [done|].
    rewrite Happroved. unfold reviewed_rfp. rewrite Happroved. by cbn.
  - change (String.eqb "rejected" "approved") with false. cbv beta iota. cbn [fst].
    eexists _, _. split; [reflexivity|]. ws_simpl.
    split; [done|]. split; [done|]. split; [congruence|].
    eexists. split; [exact Hw3|]. split; [done|].
    rewrite Happroved. unfold reviewed_rfp. rewrite Happroved. by cbn.
Qed.

End RealRunFacts.

Section RealRunProperties.
Import ProcurementWorkflow.
Variable env : Env.

(** X4. A run of [execute] with the agents of the workflow never delivers
    anything: the RFP that [generate_rfp] builds has no supplier, so the
    final state has [email_sent] false, the delivery log is the one from
    before the run, no RFP that the run created has the status SENT, and an
    approved run ends with the status
    'No suppliers specified. RFP not sent.'. *)
Theorem workflow_run_delivers_nothing request w :
  exists final w',
    execute env (agents_of env) request w = (inr final, w')
    /\ ws_email_sent final = false
    /\ log w' = log w
    /\ (forall l r,
          rfps w' !! l = Some r -> rfps w !! l = None ->
          rfp_status r <> SENT /\ rfp_suppliers r = [])
    /\ (forall a,
          ws_approval final = Some a -> ar_approved a = true ->
          ws_status final = "No suppliers specified. RFP not sent.").
Proof.
  destruct (execute_real_run env request w)
    as (final & w' & Hrun & Hlog & Hsent & Hstore).
  exists final, w'. split; [done|]. split; [done|]. split; [done|].
  destruct (ws_rfp final) as [l0|].
  - destruct Hstore as (Hfresh & r' & Hrfps & Hsup & Happ). split.
    + intros l r Hl Hnew. rewrite Hrfps in Hl.
      destruct (decide (l0 = l)) as [->|Hne].
      * rewrite lookup_insert_eq in Hl. injection Hl as <-. split; [|done].
        destruct (ws_approval final) as [a|].
        -- destruct Happ as (-> & _). by destruct (ar_approved a).
        -- destruct Happ as (-> & _). done.
      * rewrite lookup_insert_ne in Hl by done. congruence.
    + intros a Ha Happroved. rewrite Ha in Happ.
      destruct Happ as (_ & _ & _ & _ & ->). by rewrite Happroved.
  - destruct Hstore as (Hnone & _ & Hrfps). split.
    + intros l r Hl Hnew. congruence.
    + intros a Ha. congruence.
Qed.

(** X5. The final state of [execute] agrees with the store: when it holds
    an approval, it holds the RFP that the approval is about (same id), the
    stored RFP has the status APPROVED or REJECTED according to the
    approval and carries its feedback, and the state has no error; when it
    holds no approval, it has an error, and its RFP, if any, is still
    PENDING_APPROVAL. *)
Theorem final_state_agrees_with_store request w :
  exists final w',
    execute env (agents_of env) request w = (inr final, w')
    /\ match ws_approval final with
       | Some a =>
           ws_error final = None
           /\ exists l r,
               ws_rfp final = Some l
               /\ rfps w' !! l = Some r
               /\ rfp_id r = Some (ar_rfp_id a)
               /\ rfp_status r = (if ar_approved a then APPROVED else REJECTED)
               /\ rfp_approval_feedback r = Some (ar_feedback a)
       | None =>
           is_Some (ws_error final)
           /\ forall l, ws_rfp final = Some l ->
                exists r, rfps w' !! l = Some r
                          /\ rfp_status r = PENDING_APPROVAL
       end.
Proof.
  destruct (execute_real_run env request w)
    as (final & w' & Hrun & Hlog & Hsent & Hstore).
  exists final, w'. split; [done|].
  destruct (ws_rfp final) as [l0|].
  - destruct Hstore as (Hfresh & r' & Hrfps & Hsup & Happ).
    assert (Hl0 : rfps w' !! l0 = Some r') by (rewrite Hrfps; apply lookup_insert_eq).
    destruct (ws_approval final) as [a|].
    + destruct Happ as (Hst & Hfb & Hid & Herr & _). split; [done|].
      by exists l0, r'.
    + destruct Happ as (Hst & Herr). split; [done|].
      intros l [= <-]. by exists r'.
  - destruct Hstore as (-> & Herr & _). split; [done|]. by intros l.
Qed.

(** X6. The form, after the workflow: the RFP of the final state gets the
    one supplier of the form; a delivery is attempted exactly when the
    approval is positive, and then to that supplier only; [email_sent] and
    the status of the final state report its outcome, and the stored RFP is
    SENT exactly when it succeeded. *)
Theorem submission_delivers_to_the_entered_supplier request supplier w :
  exists final w',
    process_submission env request supplier w = (inr final, w')
    /\ (forall l, ws_rfp final = Some l ->
          exists r, rfps w' !! l = Some r
                    /\ rfp_suppliers r = [supplier]
                    /\ (rfp_status r = SENT <-> ws_email_sent final = true))
    /\ match ws_approval final with
       | Some a =>
           if ar_approved a then
             exists ev,
               log w' = log w ++ [ev]
               /\ event_email ev = Some (sup_email supplier)
               /\ (ws_email_sent final = true
                   <-> exists id, ev = LogSent id (sup_email supplier))
               /\ ws_status final
                  = (if ws_email_sent final then "RFP sent to suppliers"
                     else "Failed to send RFP to suppliers")
           else log w' = log w /\ ws_email_sent final = false
       | None => log w' = log w /\ ws_email_sent final = false
       end.
Proof.
  unfold process_submission. unfold mbind at 1. unfold M_bind at 1.
  destruct (execute_real_run env request w)
    as (final & w1 & -> & Hlog & Hsent & Hstore).
  destruct (ws_rfp final) as [l0|] eqn:Hrfp.
  2:{ destruct Hstore as (Hnone & _ & _). unfold mret, M_ret.
      exists final, w1. split; [done|]. rewrite Hrfp, Hnone.
      split; [by intros l | done]. }
  destruct Hstore as (Hfresh & r' & Hrfps & Hsup & Happ).
  assert (Hl0 : rfps w1 !! l0 = Some r') by (rewrite Hrfps; apply lookup_insert_eq).
  unfold mbind at 1. unfold M_bind at 1.
  rewrite (modify_rfp_eq l0 _ w1 r' Hl0).
  set (r1 := set_rfp_suppliers [supplier] r').
  set (w2 := with_rfp w1 l0 r1 (ticks w1) []).
  assert (Hl2 : rfps w2 !! l0 = Some r1) by apply lookup_insert_eq.
  assert (Hlog2 : log w2 = log w)
    by (unfold w2, with_rfp; cbn [log]; by rewrite app_nil_r).
  destruct (ws_approval final) as [a|] eqn:Ha.
  2:{ destruct Happ as (Hst & _). unfold mret, M_ret.
      exists final, w2. split; [done|]. rewrite Hrfp, Ha. split; [|done].
      intros l [= <-]. exists r1. split; [done|]. split; [done|].
      rewrite Hsent. unfold r1. cbn. rewrite Hst. done. }
  destruct Happ as (Hst & _).
  destruct (ar_approved a) eqn:Happroved.
  2:{ unfold mret, M_ret.
      exists final, w2. split; [done|]. rewrite Hrfp, Ha, Happroved.
      split; [|done].
      intros l [= <-]. exists r1. split; [done|]. split; [done|].
      rewrite Hsent. unfold r1. cbn. rewrite Hst. done. }
  unfold try_catch, mbind, M_bind.
  rewrite (send_to_suppliers_eq env l0 w2 r1 Hl2).
  assert (Hst1 : rfp_status r1 = APPROVED) by (unfold r1; cbn; done).
  destruct (decide (rfp_status r1 = APPROVED)) as [_|Hno]; [|done].
  change (rfp_suppliers r1) with [supplier]. cbv zeta.
  cbn [deliveries calls_after].
  assert (Hev : event_email (delivery env r1 supplier (ticks w2)).2
                = Some (sup_email supplier)
                /\ ((delivery env r1 supplier (ticks w2)).1.1 = true
                    <-> exists id, (delivery env r1 supplier (ticks w2)).2
                                   = LogSent id (sup_email supplier))).
  { unfold delivery. destruct (create_email_message env r1 supplier) as [e|msg].
    - cbn. split; [done|]. split; [done | by intros [id ?]].
    - destruct (smtp_send env (ticks w2) msg (sup_email supplier)); cbn.
      + split; [done|]. split; [by eexists | done].
      + split; [done|]. split; [done | by intros [id ?]]. }
  destruct (delivery env r1 supplier (ticks w2)) as [[ok n'] ev].
  cbn [fst snd forallb map] in *. destruct Hev as [Hmail Hok].
  rewrite andb_true_r. destruct ok.
  - unfold mret, M_ret. eexists _, _. split; [reflexivity|].
    cbn [ws_rfp ws_approval ws_email_sent ws_status set_ws_status
         set_ws_email_sent]. rewrite Hrfp, Ha, Happroved. split.
    + intros l [= <-]. eexists. split; [apply lookup_insert_eq|]. by cbn.
    + exists ev. unfold with_rfp. cbn [log]. rewrite Hlog2. done.
  - unfold mret, M_ret. eexists _, _. split; [reflexivity|].
    cbn [ws_rfp ws_approval ws_email_sent ws_status set_ws_status
         set_ws_email_sent]. rewrite Hrfp, Ha, Happroved. split.
    + intros l [= <-]. exists r1. split; [done|]. split; [done|].
      rewrite Hst1. done.
    + exists ev. unfold with_delivery_log. cbn [log]. rewrite Hlog2. done.
Qed.

End RealRunProperties.

Section DeliveryExtras.
Variable env : Env.

(** X7. A delivery is not repeated: once [send_to_suppliers] has returned
    true for an RFP, a second call for the same RFP returns false, sends
    nothing and changes nothing, because the RFP is then SENT and no longer
    APPROVED. *)
Theorem delivery_is_not_repeated l w r :
  rfps w !! l = Some r ->
  (ApprovalAgent.send_to_suppliers env l w).1 = inr true ->
  let w1 := (ApprovalAgent.send_to_suppliers env l w).2 in
  ApprovalAgent.send_to_suppliers env l w1 = (inr false, w1).
Proof.
  intros Hl. rewrite (send_to_suppliers_eq env l w r Hl).
  destruct (decide (rfp_status r = APPROVED)) as [Hst|Hst]; [|done].
  destruct (rfp_suppliers r) as [|s suppliers]; [done|]. cbv zeta.
  destruct (forallb fst (deliveries env r (s :: suppliers) (ticks w))); [|done].
  intros _. cbn [snd].
  set (r1 := set_rfp_sent_date _ _). set (w1 := with_rfp w l r1 _ _).
  assert (Hl1 : rfps w1 !! l = Some r1) by apply lookup_insert_eq.
  rewrite (send_to_suppliers_eq env l w1 r1 Hl1).
  by destruct (decide (rfp_status r1 = APPROVED)).
Qed.



(** X8. A delivery that failed for some supplier leaves the RFP APPROVED
    with its suppliers, so a second call of [send_to_suppliers] attempts
    the delivery again to every supplier of the list, in list order, the
    ones that the first call reached included. *)
Theorem failed_delivery_is_retried_for_every_supplier l w r :
  rfps w !! l = Some r ->
  rfp_status r = APPROVED ->
  rfp_suppliers r <> [] ->
  (ApprovalAgent.send_to_suppliers env l w).1 = inr false ->
  let w1 := (ApprovalAgent.send_to_suppliers env l w).2 in
  let w2 := (ApprovalAgent.send_to_suppliers env l w1).2 in
  rfps w1 = rfps w
  /\ (exists evs,
        log w1 = log w ++ evs
        /\ map event_email evs
           = map (fun s => Some (sup_email s)) (rfp_suppliers r))
  /\ (exists evs,
        log w2 = log w1 ++ evs
        /\ map event_email evs
           = map (fun s => Some (sup_email s)) (rfp_suppliers r)).
Proof.
  intros Hl Hst Hsup.
  assert (Hattempt : forall w0,
    rfps w0 !! l = Some r ->
    exists evs,
      log (ApprovalAgent.send_to_suppliers env l w0).2 = log w0 ++ evs
      /\ map event_email evs
         = map (fun s => Some (sup_email s)) (rfp_suppliers r)).
  { intros w0 Hl0. rewrite (send_to_suppliers_eq env l w0 r Hl0).
    destruct (decide (rfp_status r = APPROVED)) as [_|Hno]; [|done].
    destruct (rfp_suppliers r) as [|s suppliers] eqn:Hs; [done|]. cbv zeta.
    exists (map snd (deliveries env r (s :: suppliers) (ticks w0))). split.
    - by destruct (forallb fst (deliveries env r (s :: suppliers) (ticks w0))).
    - rewrite map_map. apply deliveries_emails. }
  intros Hfalse w1 w2.
  assert (Hw1 : rfps w1 = rfps w).
  { unfold w1. revert Hfalse. rewrite (send_to_suppliers_eq env l w r Hl).
    destruct (decide (rfp_status r = APPROVED)) as [_|Hno]; [|done].
    destruct (rfp_suppliers r) as [|s suppliers] eqn:Hs; [done|]. cbv zeta.
    by destruct (forallb fst (deliveries env r (s :: suppliers) (ticks w))). }
  split; [done|]. split; [by apply Hattempt|].
  apply Hattempt. by rewrite Hw1.
Qed.



End DeliveryExtras.

Lemma delivery_is_not_repeated_witness :
  ApprovalAgent.send_to_suppliers env_all_up 0%nat
    (ApprovalAgent.send_to_suppliers env_all_up 0%nat
       (world_with_rfp (approved_rfp three_suppliers))).2
  = (inr false,
     (ApprovalAgent.send_to_suppliers env_all_up 0%nat
        (world_with_rfp (approved_rfp three_suppliers))).2).
Proof.
  apply (delivery_is_not_repeated env_all_up 0%nat
           (world_with_rfp (approved_rfp three_suppliers))
           (approved_rfp three_suppliers)).
  - vm_compute. reflexivity.
  - vm_compute. reflexivity.
Defined.

Lemma failed_delivery_is_retried_for_every_supplier_witness :
  let w := world_with_rfp (approved_rfp three_suppliers) in
  let w1 := (ApprovalAgent.send_to_suppliers env_one_bad_address 0%nat w).2 in
  let w2 := (ApprovalAgent.send_to_suppliers env_one_bad_address 0%nat w1).2 in
  rfps w1 = rfps w
  /\ (exists evs,
        log w1 = log w ++ evs
        /\ map event_email evs
           = map (fun s => Some (sup_email s)) three_suppliers)
  /\ (exists evs,
        log w2 = log w1 ++ evs
        /\ map event_email evs
           = map (fun s => Some (sup_email s)) three_suppliers).
Proof.
  apply (failed_delivery_is_retried_for_every_supplier env_one_bad_address
           0%nat (world_with_rfp (approved_rfp three_suppliers))
           (approved_rfp three_suppliers)).
  - vm_compute. reflexivity.
  - reflexivity.
  - discriminate.
  - vm_compute. reflexivity.
Defined.

Section ErrorPathExtras.
Import ProcurementWorkflow.
Variable env : Env.
Variable agents : Agents.

Ltac ws_simpl :=
  cbn [failed set_ws_status set_ws_error set_ws_classification set_ws_rfp
       set_ws_approval set_ws_email_sent ws_request ws_classification ws_rfp
       ws_approval ws_email_sent ws_error ws_status initial_state].

Ltac route :=
  unfold _route_after_approval; ws_simpl;
  first [ change (String.eqb "rejected" "approved") with false
        | change (String.eqb "approved" "approved") with true ];
  cbv beta iota; cbn [fst snd].

(** X9. When the classifier answers and the generator raises, the run
    still goes through APPROVE_RFP, which overwrites the error of the
    generator: the final state keeps the classification, has no RFP and no
    approval, and its error and status name the missing RFP, whatever the
    generator raised; SEND_EMAIL does not run and the store is the one the
    generator left. *)
Theorem generation_failure_is_reported_as_missing_rfp request w c w1 e w2 :
  classify agents request w = (inr c, w1) ->
  generate_rfp agents request c w1 = (inl e, w2) ->
  exists final,
    execute env agents request w = (inr final, w2)
    /\ ws_classification final = Some c
    /\ ws_rfp final = None
    /\ ws_approval final = None
    /\ ws_error final = Some "No RFP to validate"
    /\ ws_status final = "Error: No RFP to validate"
    /\ ws_email_sent final = false
    /\ nodes_run (execute_traced env agents request w)
       = [CLASSIFY; GENERATE_RFP; APPROVE_RFP].
Proof.
  intros Hc Hg. rewrite execute_eq, execute_traced_eq. unfold run_nodes.
  rewrite classify_request_eq. ws_simpl. rewrite Hc.
  rewrite generate_rfp_eq. ws_simpl. rewrite Hg.
  rewrite approve_rfp_eq. ws_simpl. route.
  eexists. split; [reflexivity|]. ws_simpl. done.
Qed.

(** X10. When the reviewer raises, APPROVE_RFP turns the exception into
    the error 'Approval error: <message>' with the status
    'Error during RFP approval'; the final state keeps the classification
    and the RFP, has no approval, the routing takes it for a rejection, and
    SEND_EMAIL does not run. *)
Theorem approval_failure_ends_the_run request w c w1 l w2 e w3 :
  classify agents request w = (inr c, w1) ->
  generate_rfp agents request c w1 = (inr l, w2) ->
  validate_rfp agents l w2 = (inl e, w3) ->
  exists final,
    execute env agents request w = (inr final, w3)
    /\ ws_classification final = Some c
    /\ ws_rfp final = Some l
    /\ ws_approval final = None
    /\ ws_error final = Some ("Approval error: " +:+ e)
    /\ ws_status final = "Error during RFP approval"
    /\ ws_email_sent final = false
    /\ _route_after_approval final = "rejected"
    /\ nodes_run (execute_traced env agents request w)
       = [CLASSIFY; GENERATE_RFP; APPROVE_RFP].
Proof.
  intros Hc Hg Hv. rewrite execute_eq, execute_traced_eq. unfold run_nodes.
  rewrite classify_request_eq. ws_simpl. rewrite Hc.
  rewrite generate_rfp_eq. ws_simpl. rewrite Hg.
  rewrite approve_rfp_eq. ws_simpl. rewrite Hv. route.
  eexists. split; [reflexivity|]. ws_simpl. done.
Qed.

(** X11. Whatever the agents do, SEND_EMAIL runs exactly when the final
    state holds a positive approval, and it is then the last of four nodes;
    [email_sent] can only be true in such a run, and the final state never
    has the status 'RFP approved', which APPROVE_RFP sets and SEND_EMAIL
    always replaces. *)
Theorem send_email_runs_iff_approved request w :
  exists final w',
    execute env agents request w = (inr final, w')
    /\ let nodes := nodes_run (execute_traced env agents request w) in
       ((exists a, ws_approval final = Some a /\ ar_approved a = true)
        <-> nodes = [CLASSIFY; GENERATE_RFP; APPROVE_RFP; SEND_EMAIL])
       /\ (nodes = [CLASSIFY; GENERATE_RFP; APPROVE_RFP; SEND_EMAIL]
           \/ nodes = [CLASSIFY; GENERATE_RFP; APPROVE_RFP])
       /\ (ws_email_sent final = true ->
           nodes = [CLASSIFY; GENERATE_RFP; APPROVE_RFP; SEND_EMAIL])
       /\ ws_status final <> "RFP approved".
Proof.
  rewrite execute_eq, execute_traced_eq. unfold run_nodes.
  rewrite classify_request_eq. ws_simpl.
  assert (Hno : forall final : WorkflowState,
    ws_approval final = None -> ws_email_sent final = false ->
    ws_status final <> "RFP approved" ->
    ((exists a, ws_approval final = Some a /\ ar_approved a = true)
        <-> [CLASSIFY; GENERATE_RFP; APPROVE_RFP]
            = [CLASSIFY; GENERATE_RFP; APPROVE_RFP; SEND_EMAIL])
       /\ ([CLASSIFY; GENERATE_RFP; APPROVE_RFP]
           = [CLASSIFY; GENERATE_RFP; APPROVE_RFP; SEND_EMAIL]
           \/ [CLASSIFY; GENERATE_RFP; APPROVE_RFP]
              = [CLASSIFY; GENERATE_RFP; APPROVE_RFP])
       /\ (ws_email_sent final = true ->
           [CLASSIFY; GENERATE_RFP; APPROVE_RFP]
           = [CLASSIFY; GENERATE_RFP; APPROVE_RFP; SEND_EMAIL])
       /\ ws_status final <> "RFP approved").
  { intros final Ha Hs Hst. split; [|split; [by right|split; [congruence|done]]].
    split; [intros (a & H & _); congruence | done]. }
  destruct (classify agents request w) as [[e1|c] w1].
  { rewrite generate_rfp_eq. ws_simpl. rewrite approve_rfp_eq. ws_simpl. route.
    eexists _, _. split; [reflexivity|]. by apply Hno. }
  rewrite generate_rfp_eq. ws_simpl.
  destruct (generate_rfp agents request c w1) as [[e2|l] w2].
  { rewrite approve_rfp_eq. ws_simpl. route.
    eexists _, _. split; [reflexivity|]. by apply Hno. }
  rewrite approve_rfp_eq. ws_simpl.
  destruct (validate_rfp agents l w2) as [[e3|a] w3].
  { route. eexists _, _. split; [reflexivity|]. by apply Hno. }
  unfold _route_after_approval. ws_simpl.
  destruct (ar_approved a) eqn:Happroved.
  - change (String.eqb "approved" "approved") with true. cbv beta iota.
    rewrite send_email_eq. ws_simpl.
    assert (Hyes : forall final : WorkflowState,
      ws_approval final = Some a -> ws_status final <> "RFP approved" ->
      ((exists a, ws_approval final = Some a /\ ar_approved a = true)
        <-> [CLASSIFY; GENERATE_RFP; APPROVE_RFP; SEND_EMAIL]
            = [CLASSIFY; GENERATE_RFP; APPROVE_RFP; SEND_EMAIL])
       /\ ([CLASSIFY; GENERATE_RFP; APPROVE_RFP; SEND_EMAIL]
           = [CLASSIFY; GENERATE_RFP; APPROVE_RFP; SEND_EMAIL]
           \/ [CLASSIFY; GENERATE_RFP; APPROVE_RFP; SEND_EMAIL]
              = [CLASSIFY; GENERATE_RFP; APPROVE_RFP])
       /\ (ws_email_sent final = true ->
           [CLASSIFY; GENERATE_RFP; APPROVE_RFP; SEND_EMAIL]
           = [CLASSIFY; GENERATE_RFP; APPROVE_RFP; SEND_EMAIL])
       /\ ws_status final <> "RFP approved").
    { intros final Ha Hst. split; [|split; [by left|done]].
      split; [done|]. intros _. by exists a. }
    destruct (rfps w3 !! l) as [r|].
    2:{ cbv beta iota. cbn [fst snd].
        eexists _, _. split; [reflexivity|]. by apply Hyes. }
    destruct (rfp_suppliers r).
    { cbv beta iota. cbn [fst snd].
      eexists _, _. split; [reflexivity|]. by apply Hyes. }
    destruct (send_to_suppliers agents l w3) as [[e4|success] w4];
      cbv beta iota; cbn [fst snd];
      (eexists _, _; split; [reflexivity|]; apply Hyes; [done|]); ws_simpl;
      [done | by destruct success].
  - change (String.eqb "rejected" "approved") with false. cbv beta iota.
    cbn [fst snd]. eexists _, _. split; [reflexivity|].
    cbn [nodes_run trace_of fst snd map step_node step_of]. ws_simpl.
    split; [|split; [by right|split; [done|]]].
    + split; [intros (a' & [= <-] & H); congruence | done].
    + by cbn.
Qed.

End ErrorPathExtras.

Lemma generation_failure_is_reported_as_missing_rfp_witness :
  exists final w2,
    ProcurementWorkflow.execute env_drafter_down (agents_of env_drafter_down)
      0%nat sample_world = (inr final, w2)
    /\ ws_classification final = Some sample_result
    /\ ws_rfp final = None
    /\ ws_error final = Some "No RFP to validate"
    /\ rfps w2 = ∅.
Proof.
  pose (w1 := (classify (agents_of env_drafter_down) 0%nat sample_world).2).
  pose (w2 := (generate_rfp (agents_of env_drafter_down) 0%nat sample_result w1).2).
  destruct (generation_failure_is_reported_as_missing_rfp
              env_drafter_down (agents_of env_drafter_down) 0%nat sample_world
              sample_result w1 "Rate limit reached." w2)
    as (final & Hrun & Hc & Hrfp & _ & Herr & _).
  - vm_compute. reflexivity.
  - vm_compute. reflexivity.
  - exists final, w2. split; [exact Hrun|]. split; [exact Hc|].
    split; [exact Hrfp|]. split; [exact Herr|]. vm_compute. reflexivity.
Defined.

Lemma approval_failure_ends_the_run_witness :
  let env := env_with_review (inl "Rate limit reached.") in
  exists final w3,
    ProcurementWorkflow.execute env (agents_of env) 0%nat sample_world
    = (inr final, w3)
    /\ ws_rfp final = Some 0%nat
    /\ ws_approval final = None
    /\ ws_error final = Some "Approval error: Rate limit reached."
    /\ (rfp_status <$> rfps w3 !! 0%nat) = Some PENDING_APPROVAL.
Proof.
  intros env.
  pose (w1 := (classify (agents_of env) 0%nat sample_world).2).
  pose (w2 := (generate_rfp (agents_of env) 0%nat sample_result w1).2).
  pose (w3 := (validate_rfp (agents_of env) 0%nat w2).2).
  destruct (approval_failure_ends_the_run
              env (agents_of env) 0%nat sample_world
              sample_result w1 0%nat w2 "Rate limit reached." w3)
    as (final & Hrun & _ & Hrfp & Happ & Herr & _).
  - vm_compute. reflexivity.
  - vm_compute. reflexivity.
  - vm_compute. reflexivity.
  - exists final, w3. split; [exact Hrun|]. split; [exact Hrfp|].
    split; [exact Happ|]. split; [exact Herr|]. vm_compute. reflexivity.
Defined.

Section ClassifierExtras.
Variable env : Env.

(** [classify] on a stored request, up to the reading of the answer. *)
Lemma classify_eq l w r0 :
  requests w !! l = Some r0 ->
  ClassificationAgent.classify env l w =
  (match classification_chain env (classification_input r0) with
   | inl e => inl e
   | inr result =>
       match result !! "category" with
       | None => inl "'category'"
       | Some category =>
           match result !! "confidence" with
           | None => inl "'confidence'"
           | Some confidence =>
               match result !! "reasoning" with
               | None => inl "'reasoning'"
               | Some reasoning =>
                   match pr_id (with_id env (ticks w) r0), as_str category,
                         as_float confidence, as_str reasoning with
                   | Some request_id, Some category, Some confidence,
                     Some reasoning =>
                       inr {| cr_request_id := request_id;
                              cr_category := category;
                              cr_confidence := confidence;
                              cr_reasoning := reasoning |}
                   | _, _, _, _ =>
                       inl "validation error for ClassificationResult"
                   end
               end
           end
       end
   end, with_request_id env l r0 w).
Proof.
  intros Hl.
  pose proof (classify_world env l w r0 Hl) as Hw.
  destruct (ClassificationAgent.classify env l w) as [res w'] eqn:Hrun.
  cbn [snd] in Hw. subst w'. f_equal.
  apply (f_equal fst) in Hrun. cbn [fst] in Hrun. rewrite <- Hrun. clear Hrun.
  unfold ClassificationAgent.classify, with_id.
  unfold mbind at 1. unfold M_bind at 1. unfold get_request at 1. rewrite Hl.
  unfold mbind at 1. unfold M_bind at 1.
  assert (Hstep : forall (k : ProcurementRequest -> M ClassificationResult),
    (let (s, w') :=
       (if falsy (pr_id r0)
        then n ← tick; modify_request l (set_pr_id (Some (uuid4 env n)))
        else mret ()) w in
     match s with
     | inl e => (inl e, w')
     | inr a => (req ← get_request l; k req) w'
     end).1
    = (k (if falsy (pr_id r0)
          then set_pr_id (Some (uuid4 env (ticks w))) r0 else r0)
         (with_request_id env l r0 w)).1).
  { intros k. unfold with_request_id. destruct (falsy (pr_id r0)).
    - unfold modify_request, tick, get_request, put_request, mbind, M_bind.
      cbn [requests rfps ticks log]. rewrite Hl.
      cbn [requests rfps ticks log]. by rewrite lookup_insert_eq.
    - unfold mret, M_ret, get_request, mbind, M_bind. by rewrite Hl. }
  rewrite Hstep. clear Hstep.
  set (req := if falsy (pr_id r0) then _ else r0).
  assert (Hinput : classification_input req = classification_input r0)
    by (unfold req; by destruct (falsy (pr_id r0))).
  fold (classification_input req). rewrite Hinput.
  unfold lift, getitem, validated, raise, mbind, M_bind, mret, M_ret.
  destruct (classification_chain env (classification_input r0)) as [e|result];
    [done|].
  destruct (result !! "category") as [category|]; [|done].
  destruct (result !! "confidence") as [confidence|]; [|done].
  destruct (result !! "reasoning") as [reasoning|]; [|done].
  cbn [fst].
  destruct (pr_id req) as [id|]; [|done]. cbn.
  destruct (as_str category); [|done]. cbn.
  destruct (as_float confidence); [|done]. cbn.
  by destruct (as_str reasoning).
Qed.

Lemma with_id_has_id n r0 : is_Some (pr_id (with_id env n r0)).
Proof.
  unfold with_id. destruct (falsy (pr_id r0)) eqn:Hf; [by eexists|].
  destruct (pr_id r0); [by eexists | done].
Qed.

Lemma with_request_id_request l w r0 :
  requests w !! l = Some r0 ->
  requests (with_request_id env l r0 w) !! l = Some (with_id env (ticks w) r0).
Proof.
  intros Hl. unfold with_request_id, with_id.
  destruct (falsy (pr_id r0)); [apply lookup_insert_eq | done].
Qed.

(** X12. When [classify] returns, its result and the request agree on the
    id: the stored request has the id [request_id] of the result, which is
    the id the request came with when it had a non-empty one and a newly
    generated one otherwise; the title and the description of the request
    are the ones it came with. *)
Theorem classify_result_carries_request_id l w r0 c w' :
  requests w !! l = Some r0 ->
  ClassificationAgent.classify env l w = (inr c, w') ->
  (exists req,
     requests w' !! l = Some req
     /\ pr_id req = Some (cr_request_id c)
     /\ pr_title req = pr_title r0
     /\ pr_description req = pr_description r0)
  /\ (falsy (pr_id r0) = false -> pr_id r0 = Some (cr_request_id c))
  /\ (falsy (pr_id r0) = true -> cr_request_id c = uuid4 env (ticks w)).
Proof.
  intros Hl. rewrite (classify_eq l w r0 Hl). intros [= Hres <-].
  destruct (classification_chain env (classification_input r0)) as [e|result];
    [done|].
  destruct (result !! "category") as [category|] eqn:Hcat; [|done].
  destruct (result !! "confidence") as [confidence|]; [|done].
  destruct (result !! "reasoning") as [reasoning|] eqn:Hreason; [|done].
  destruct (pr_id (with_id env (ticks w) r0)) as [id|] eqn:Hid; [|done].
  destruct category as [| | | |cat| |]; try done. cbn [as_str] in Hres.
  destruct (as_float confidence) as [f|]; [|done].
  destruct reasoning as [| | | |reason| |]; try done. cbn [as_str] in Hres.
  injection Hres as <-. cbn [cr_request_id cr_category cr_reasoning].
  split; [|split].
  - exists (with_id env (ticks w) r0).
    split; [by apply with_request_id_request|]. split; [done|].
    unfold with_id. by destruct (falsy (pr_id r0)).
  - intros Hf. unfold with_id in Hid. by rewrite Hf in Hid.
  - intros Hf. unfold with_id in Hid. rewrite Hf in Hid. cbn in Hid. congruence.
Qed.

(** X13. When [classify] fails, it raises what the chain raised, or, for
    an answer that lacks one of the keys category, confidence and
    reasoning, the KeyError of the first of them that is missing; the id
    is assigned before the chain is called, so the request has an id in
    the store after a failure as well. *)
Theorem classify_failure_still_assigns_id l w r0 :
  requests w !! l = Some r0 ->
  let run := ClassificationAgent.classify env l w in
  (forall e,
     classification_chain env (classification_input r0) = inl e ->
     run.1 = inl e)
  /\ (forall result key,
        classification_chain env (classification_input r0) = inr result ->
        first_missing_key result = Some key ->
        run.1 = inl ("'" +:+ key +:+ "'"))
  /\ (exists req, requests run.2 !! l = Some req /\ is_Some (pr_id req))
  /\ rfps run.2 = rfps w
  /\ log run.2 = log w.
Proof.
  intros Hl run. unfold run. rewrite (classify_eq l w r0 Hl). cbn [fst snd].
  split; [|split; [|split]].
  - by intros e ->.
  - intros result key -> Hkey. unfold first_missing_key in Hkey.
    cbn [List.find] in Hkey.
    destruct (result !! "category") as [category|].
    2:{ rewrite bool_decide_eq_true_2 in Hkey by done. by injection Hkey as <-. }
    rewrite bool_decide_eq_false_2 in Hkey by done.
    destruct (result !! "confidence") as [confidence|].
    2:{ rewrite bool_decide_eq_true_2 in Hkey by done. by injection Hkey as <-. }
    rewrite bool_decide_eq_false_2 in Hkey by done.
    destruct (result !! "reasoning") as [reasoning|].
    2:{ rewrite bool_decide_eq_true_2 in Hkey by done. by injection Hkey as <-. }
    by rewrite bool_decide_eq_false_2 in Hkey by done.
  - exists (with_id env (ticks w) r0).
    split; [by apply with_request_id_request | apply with_id_has_id].
  - apply with_request_id_frame.
Qed.

End ClassifierExtras.

Lemma classify_result_carries_request_id_witness :
  (exists req,
     requests (ClassificationAgent.classify env_all_up 0%nat sample_world).2
       !! 0%nat = Some req
     /\ pr_id req = Some "uuid-0"
     /\ pr_title req = "Laptops"
     /\ pr_description req = "Ten laptops for the design team")
  /\ cr_request_id sample_result = uuid4 env_all_up 0.
Proof.
  destruct (classify_result_carries_request_id env_all_up 0%nat sample_world
              sample_request sample_result
              (ClassificationAgent.classify env_all_up 0%nat sample_world).2)
    as (Hreq & _ & Hnew).
  - reflexivity.
  - vm_compute. reflexivity.
  - split; [exact Hreq|]. apply Hnew. reflexivity.
Defined.

Lemma classify_failure_still_assigns_id_witness :
  let run := ClassificationAgent.classify env_classifier_down 0%nat sample_world in
  run.1 = inl "Connection error."
  /\ (exists req, requests run.2 !! 0%nat = Some req /\ is_Some (pr_id req)).
Proof.
  destruct (classify_failure_still_assigns_id env_classifier_down 0%nat
              sample_world sample_request)
    as (Hraise & _ & Hid & _).
  - reflexivity.
  - split; [by apply Hraise | exact Hid].
Defined.

Section GeneratorExtras.
Variable env : Env.

(** X14. [generate_rfp] returns an RFP exactly when the request has an id
    and the drafting chain answers; when the chain raises, [generate_rfp]
    raises the same exception at once; and whenever it raises, the store
    holds the same RFPs and requests as before, and nothing is logged. *)
Theorem generate_rfp_returns_iff request classification w req :
  requests w !! request = Some req ->
  ((exists l w',
      RFPGenerationAgent.generate_rfp env request classification w = (inr l, w'))
   <-> (is_Some (pr_id req)
        /\ exists d,
            generation_chain env (generation_input req classification) = inr d))
  /\ (forall e,
        generation_chain env (generation_input req classification) = inl e ->
        RFPGenerationAgent.generate_rfp env request classification w = (inl e, w))
  /\ (forall e w',
        RFPGenerationAgent.generate_rfp env request classification w = (inl e, w')
        -> rfps w' = rfps w /\ requests w' = requests w /\ log w' = log w).
Proof.
  intros Hreq. split; [|split].
  - split.
    + intros (l & w' & Hrun). revert Hrun.
      unfold RFPGenerationAgent.generate_rfp, mbind, M_bind, get_request.
      rewrite Hreq. fold (generation_input req classification).
      destruct (generation_chain env _) as [e|d]; [done|].
      unfold lift, mret, M_ret. rewrite services_template_registered.
      fold (template_of (cr_category classification)).
      destruct (render_total env (cr_category classification) d) as [content ->].
      unfold tick, validated. cbn [requests rfps ticks log].
      destruct (pr_id req) as [id|]; [|done]. intros _.
      split; [by eexists | by exists d].
    + intros ([id Hid] & d & Hchain).
      destruct (render_total env (cr_category classification) d)
        as [content Hrender].
      rewrite (generate_rfp_success env request classification w req id d
                 content Hreq Hid Hchain Hrender).
      by eexists _, _.
  - intros e Hchain.
    unfold RFPGenerationAgent.generate_rfp, mbind, M_bind, get_request.
    rewrite Hreq. fold (generation_input req classification).
    by rewrite Hchain.
  - intros e w' Hrun.
    destruct (generate_rfp_new env request classification w)
      as (res & w'' & Hrun' & Hlog & Hrequests & Hres).
    rewrite Hrun in Hrun'. injection Hrun' as <- <-. done.
Qed.

End GeneratorExtras.

Lemma generate_rfp_returns_iff_witness :
  RFPGenerationAgent.generate_rfp env_drafter_down 0%nat sample_result world_with_id
  = (inl "Rate limit reached.", world_with_id)
  /\ ~ (exists l w',
          RFPGenerationAgent.generate_rfp env_all_up 0%nat sample_result
            sample_world = (inr l, w')).
Proof.
  split.
  - apply (generate_rfp_returns_iff env_drafter_down 0%nat sample_result
             world_with_id (set_pr_id (Some "req-1") sample_request)).
    + reflexivity.
    + reflexivity.
  - intros Hrun.
    apply (generate_rfp_returns_iff env_all_up 0%nat sample_result
             sample_world sample_request) in Hrun as [[id Hid] _].
    + discriminate.
    + reflexivity.
Defined.

Section FormatFrame.
Import PyFormat.
Context {V : Type}.
Variable str_of : V -> string.

(** [format] reads its keyword arguments at the fields of the template
    only. *)
Lemma format_from_agree (kwargs kwargs' : gmap string V) n :
  forall s field names,
    (String.length s <= n)%nat ->
    fields_from s field = Some names ->
    (forall name, name ∈ names -> kwargs !! name = kwargs' !! name) ->
    format_from str_of kwargs s field = format_from str_of kwargs' s field.
Proof.
  induction n as [|n IH]; intros s field names Hlen Hfields Hagree.
  - destruct s; [|simpl in Hlen; lia]. by destruct field.
  - destruct s as [|c s]; [by destruct field|].
    simpl in Hlen. assert (Hs : (String.length s <= n)%nat) by lia.
    destruct field as [name|]; cbn [fields_from format_from] in *.
    + destruct (is_brace_close c).
      * destruct (fields_from s None) as [l|] eqn:Hl; [|done].
        injection Hfields as <-.
        unfold get_field. rewrite (Hagree name) by by left.
        rewrite (IH s None l Hs Hl); [done|].
        intros name' Hin. apply Hagree. by right.
      * destruct (is_brace_open c); [done|].
        destruct (is_field_operator c); [done|].
        by apply (IH s _ names).
    + destruct (is_brace_open c).
      * destruct s as [|c' s']; [done|].
        destruct (is_brace_open c').
        -- simpl in Hs.
           by rewrite (IH s' None names ltac:(lia) Hfields Hagree).
        -- by apply (IH (String c' s') _ names).
      * destruct (is_brace_close c).
        -- destruct s as [|c' s']; [done|].
           destruct (is_brace_close c'); [|done]. simpl in Hs.
           by rewrite (IH s' None names ltac:(lia) Hfields Hagree).
        -- by rewrite (IH s None names Hs Hfields Hagree).
Qed.

End FormatFrame.

Section TemplateExtras.
Import RFPGenerationAgent.
Variable env : Env.

(** X15. The content of a generated RFP depends on the answer of the
    drafting chain through the fields of the template of the category
    only: two answers that agree on these fields give the same content, and
    a key of the answer that is no field of the template is dropped without
    notice. *)
Theorem rfp_content_depends_on_template_fields category :
  exists names,
    PyFormat.fields (template_of category) = Some names
    /\ (forall d d',
          (forall name, name ∈ names -> d !! name = d' !! name) ->
          render env (template_of category) d
          = render env (template_of category) d')
    /\ (forall d key v,
          key ∉ names ->
          render env (template_of category) (<[key := v]> d)
          = render env (template_of category) d).
Proof.
  destruct (template_fields category) as (names & Hfields & Hnames).
  exists names. split; [done|].
  assert (Hagree : forall d d',
    (forall name, name ∈ names -> d !! name = d' !! name) ->
    render env (template_of category) d = render env (template_of category) d').
  { intros d d' Hd. unfold render, PyFormat.format.
    apply (format_from_agree _ _ _
             (String.length (template_of category)) _ None names);
      [done | exact Hfields |].
    intros name Hin. fold (with_defaults d) (with_defaults d').
    rewrite Forall_forall in Hnames. destruct (Hnames name Hin) as [_ Hkey].
    rewrite !with_defaults_lookup by done. by rewrite Hd. }
  split; [exact Hagree|].
  intros d key v Hkey. apply Hagree. intros name Hin.
  apply lookup_insert_ne. intros ->. done.
Qed.

End TemplateExtras.

Section PiecesFacts.
Import PyFormat.
Context {V : Type}.
Variable str_of : V -> string.
Variable kwargs : gmap string V.
Variable value : string -> string.

Lemma text_of_push_char c ps :
  text_of value (push_char c ps) = String c (text_of value ps).
Proof. by destruct ps as [|[t|name] ps]. Qed.

Lemma field_names_push_char c ps :
  field_names (push_char c ps) = field_names ps.
Proof. by destruct ps as [|[t|name] ps]. Qed.

(** [format] writes the pieces of the template one after the other. *)
Lemma format_from_pieces n :
  forall s field ps,
    (String.length s <= n)%nat ->
    pieces_from s field = Some ps ->
    Forall (fun name => get_field str_of kwargs name = inr (value name))
      (field_names ps) ->
    format_from str_of kwargs s field = inr (text_of value ps).
Proof.
  induction n as [|n IH]; intros s field ps Hlen Hps Hok.
  - destruct s; [|simpl in Hlen; lia].
    destruct field; simpl in *; [done | by injection Hps as <-].
  - destruct s as [|c s];
      [destruct field; simpl in *; [done | by injection Hps as <-]|].
    simpl in Hlen. assert (Hs : (String.length s <= n)%nat) by lia.
    destruct field as [name|]; cbn [pieces_from format_from] in *.
    + destruct (is_brace_close c).
      * destruct (pieces_from s None) as [l|] eqn:Hl; [|done].
        injection Hps as <-. cbn [field_names] in Hok.
        apply Forall_cons in Hok as [Hname Hok].
        rewrite Hname, (IH s None l Hs Hl Hok). done.
      * destruct (is_brace_open c); [done|].
        destruct (is_field_operator c); [done|].
        by apply (IH s _ ps).
    + assert (Hpush : forall s' : string,
        (String.length s' <= n)%nat ->
        push_char c <$> pieces_from s' None = Some ps ->
        match format_from str_of kwargs s' None with
        | inl e => inl e
        | inr out => inr (String c out)
        end = inr (text_of value ps)).
      { intros s' Hs' Hps'.
        destruct (pieces_from s' None) as [l|] eqn:Hl; [|done].
        injection Hps' as <-. rewrite field_names_push_char in Hok.
        by rewrite (IH s' None l Hs' Hl Hok), text_of_push_char. }
      destruct (is_brace_open c).
      * destruct s as [|c' s']; [done|].
        destruct (is_brace_open c').
        -- simpl in Hs. apply Hpush; [lia | done].
        -- by apply (IH (String c' s') _ ps).
      * destruct (is_brace_close c).
        -- destruct s as [|c' s']; [done|].
           destruct (is_brace_close c'); [|done]. simpl in Hs.
           apply Hpush; [lia | done].
        -- by apply Hpush.
Qed.

End PiecesFacts.

Section TextFacts.
Import PyStr.

Lemma startswith_sep n a c b :
  contains (String c EmptyString) n = false ->
  startswith n (a +:+ String c b) = startswith n a.
Proof.
  revert a. induction n as [|x n IH]; intros a Hc; [by destruct a|].
  cbn [contains startswith] in Hc.
  apply orb_false_elim in Hc as [Hx Hn].
  destruct a as [|y a].
  - change (EmptyString +:+ String c b) with (String c b). cbn [startswith].
    destruct (Ascii.eqb_spec x c) as [->|Hne]; [|done].
    cbn [startswith] in Hx. by rewrite Ascii.eqb_refl in Hx.
  - rewrite app_cons. cbn [startswith].
    destruct (Ascii.eqb x y); [by apply IH | done].
Qed.

(** A character that does not occur in the needle separates the search. *)
Lemma contains_sep n a c b :
  contains (String c EmptyString) n = false ->
  contains n (a +:+ String c b) = contains n a || contains n b.
Proof.
  intros Hc. induction a as [|y a IH].
  - change (EmptyString +:+ String c b) with (String c b).
    cbn [contains]. rewrite orb_false_r.
    change (String c b) with (EmptyString +:+ String c b) at 1.
    by rewrite startswith_sep.
  - rewrite app_cons. cbn [contains]. rewrite IH.
    change (String y (a +:+ String c b)) with (String y a +:+ String c b).
    rewrite startswith_sep by done. by rewrite orb_assoc.
Qed.

Lemma contains_begins n c t :
  contains (String c EmptyString) n = false ->
  n <> EmptyString ->
  contains n (String c t) = contains n t.
Proof.
  intros Hc Hn. change (String c t) with (EmptyString +:+ String c t).
  rewrite contains_sep by done. by destruct n.
Qed.

Lemma ends_with_spec c t :
  ends_with c t = true -> exists t', t = t' +:+ String c EmptyString.
Proof.
  induction t as [|x t IH]; [done|]. cbn [ends_with].
  destruct t as [|y t].
  - intros ->%Ascii.eqb_eq. by exists EmptyString.
  - intros H. destruct (IH H) as [t' ->]. by exists (String x t').
Qed.

Lemma append_empty_r (s : string) : s +:+ EmptyString = s.
Proof. induction s as [|c s IH]; [done|]. by rewrite app_cons, IH. Qed.

(** With a separator on either side of each field, a needle without the
    separator is in the text exactly when it is in one of the literal
    texts or in the text of one of the fields. *)
Lemma contains_text (value : string -> string) n c ps :
  contains (String c EmptyString) n = false ->
  n <> EmptyString ->
  separated c ps = true ->
  contains n (text_of value ps)
  = existsb (contains n) (literals ps)
    || existsb (fun name => contains n (value name)) (field_names ps).
Proof.
  intros Hc Hn. induction ps as [|p ps IH]; [by destruct n|].
  destruct p as [t|name]; cbn [separated]; intros [Hhead Hsep]%andb_true_iff;
    specialize (IH Hsep); cbn [text_of fold_right piece_text literals
                                field_names existsb];
    fold (text_of value ps).
  - destruct ps as [|[t'|name'] ps]; [|done|].
    + cbn. by rewrite append_empty_r, !orb_false_r.
    + apply ends_with_spec in Hhead as [t0 ->].
      rewrite app_assoc_string.
      change (String c EmptyString +:+ text_of value (inr name' :: ps))
        with (String c (text_of value (inr name' :: ps))).
      rewrite !contains_sep by done. rewrite IH.
      assert (H0 : contains n EmptyString = false) by by destruct n.
      rewrite H0, orb_false_r. by rewrite orb_assoc.
  - destruct ps as [|[t'|name'] ps]; [| |done].
    + cbn. by rewrite append_empty_r, !orb_false_r.
    + destruct t' as [|x t']; [done|]. cbn [begins_with] in Hhead.
      apply Ascii.eqb_eq in Hhead as <-.
      change (text_of value (inl (String c t') :: ps))
        with (String c (t' +:+ text_of value ps)) in *.
      rewrite contains_sep by done.
      rewrite <- (contains_begins n c (t' +:+ text_of value ps)) by done.
      rewrite IH. cbn [literals field_names existsb].
      destruct (contains n (value name)), (contains n (String c t')),
        (existsb (contains n) (literals ps)),
        (existsb (fun name => contains n (value name)) (field_names ps)); done.
Qed.

Lemma lower_text (value : string -> string) ps :
  lower (text_of value ps)
  = text_of (fun name => lower (value name)) (lower_pieces ps).
Proof.
  induction ps as [|p ps IH]; [done|].
  cbn [text_of fold_right lower_pieces map]. rewrite lower_app.
  fold (text_of value ps). rewrite IH. by destruct p.
Qed.

Lemma field_names_lower_pieces ps :
  field_names (lower_pieces ps) = field_names ps.
Proof.
  induction ps as [|[t|name] ps IH]; [done| |];
    cbn [lower_pieces map field_names]; fold (lower_pieces ps); by rewrite IH.
Qed.

(** The test of the section guardrail on a text made of pieces. *)
Lemma section_missing_text (value : string -> string) section ps :
  contains (String "010" EmptyString) (lower section) = false ->
  lower section <> EmptyString ->
  separated "010" (lower_pieces ps) = true ->
  ApprovalAgent.section_missing (text_of value ps) section
  = negb (existsb (contains (lower section)) (literals (lower_pieces ps))
          || existsb (fun name => contains (lower section) (lower (value name)))
               (field_names ps)).
Proof.
  intros Hc Hn Hsep. unfold ApprovalAgent.section_missing.
  rewrite lower_text, (contains_text _ _ "010"%char _ Hc Hn Hsep).
  by rewrite field_names_lower_pieces.
Qed.

End TextFacts.

Section ContentFacts.
Import RFPGenerationAgent.
Variable env : Env.

(** The content of an RFP in closed form: the literal texts of the
    template and, at each field, what the drafting chain gave for it. *)
Lemma render_text template d ps :
  pieces template = Some ps ->
  forallb (fun name => negb (PyFormat.all_digits name)
                       && bool_decide (name ∈ template_keys))
    (field_names ps) = true ->
  render env template d = inr (text_of (drafted env d) ps).
Proof.
  intros Hps Hnames. unfold render, PyFormat.format.
  apply (format_from_pieces _ _ _ (String.length template) _ None ps);
    [done | exact Hps |].
  rewrite forallb_forall in Hnames. apply Forall_forall. intros name Hin.
  apply list_elem_of_In, Hnames in Hin.
  apply andb_true_iff in Hin as [Hd Hkey%bool_decide_eq_true].
  unfold PyFormat.get_field. rewrite (negb_true_iff _) in Hd. rewrite Hd.
  fold (with_defaults d). by rewrite with_defaults_lookup.
Qed.

(** X16. An RFP made from the Software, the Hardware or the Services
    template (the one of any unknown category) never lacks an essential
    section, whatever the drafting chain answered: the headings of these
    templates contain the four names, so the section guardrail cannot fire
    on it. *)
Theorem generated_rfp_has_the_essential_sections category d content r :
  category <> "Raw Materials" ->
  render env (template_of category) d = inr content ->
  rfp_content r = content ->
  missing_sections r = [].
Proof.
  intros Hcat Hrender Hr. unfold missing_sections. rewrite Hr. clear Hr.
  assert (Hall : forall template ps,
    template_of category = template ->
    pieces template = Some ps ->
    forallb (fun name => negb (PyFormat.all_digits name)
                         && bool_decide (name ∈ template_keys))
      (field_names ps) = true ->
    separated "010" (lower_pieces ps) = true ->
    forallb (fun section =>
               existsb (PyStr.contains (PyStr.lower section))
                 (literals (lower_pieces ps)))
      ApprovalAgent.essential_sections = true ->
    List.filter (ApprovalAgent.section_missing content)
      ApprovalAgent.essential_sections = []).
  { intros template ps Ht Hps Hnames Hsep Hlit.
    rewrite Ht, (render_text template d ps Hps Hnames) in Hrender.
    injection Hrender as <-.
    apply forallb_filter_nil. rewrite forallb_forall in Hlit |- *.
    intros section Hin. specialize (Hlit section Hin).
    rewrite section_missing_text; [|..|exact Hsep].
    - by rewrite Hlit.
    - revert Hin. cbn. intros [<-|[<-|[<-|[<-|[]]]]]; reflexivity.
    - revert Hin. cbn. intros [<-|[<-|[<-|[<-|[]]]]]; discriminate. }
  pose proof (template_of_cases category) as Hcases.
  destruct (decide (category = "Software")).
  { eapply Hall; [exact Hcases | vm_compute; reflexivity | reflexivity..]. }
  destruct (decide (category = "Hardware")).
  { eapply Hall; [exact Hcases | vm_compute; reflexivity | reflexivity..]. }
  destruct (decide (category = "Services")).
  { eapply Hall; [exact Hcases | vm_compute; reflexivity | reflexivity..]. }
  destruct (decide (category = "Raw Materials")); [done|].
  eapply Hall; [exact Hcases | vm_compute; reflexivity | reflexivity..].
Qed.

(** X17. An RFP made from the Raw Materials template has the sections
    Overview, Timeline and Budget, and it has the section Requirements
    exactly when one of the texts that the drafting chain gave for the
    seven fields of the template contains the word (in any case): the
    template itself has no heading with it, so that the section guardrail
    rejects every other Raw Materials RFP. *)
Theorem raw_materials_rfp_lacks_requirements d content r :
  render env (template_of "Raw Materials") d = inr content ->
  rfp_content r = content ->
  missing_sections r
  = if existsb (fun name =>
                  PyStr.contains "requirements"
                    (PyStr.lower (drafted env d name)))
         raw_materials_fields
    then [] else ["Requirements"].
Proof.
  intros Hrender Hr. unfold missing_sections. rewrite Hr. clear Hr.
  destruct (pieces Settings.raw_materials_template) as [ps|] eqn:Hps;
    [|by vm_compute in Hps].
  assert (Hnames : field_names ps = raw_materials_fields).
  { vm_compute in Hps. injection Hps as <-. reflexivity. }
  assert (Hsep : separated "010" (lower_pieces ps) = true).
  { vm_compute in Hps. injection Hps as <-. reflexivity. }
  assert (Hlit : forall section found,
    existsb (PyStr.contains (PyStr.lower section))
      (literals (lower_pieces
                   (default [] (pieces Settings.raw_materials_template))))
    = found ->
    existsb (PyStr.contains (PyStr.lower section)) (literals (lower_pieces ps))
    = found)
    by (by rewrite Hps).
  pose proof (Hlit "Overview" true eq_refl) as Ho.
  pose proof (Hlit "Requirements" false eq_refl) as Hq.
  pose proof (Hlit "Timeline" true eq_refl) as Ht.
  pose proof (Hlit "Budget" true eq_refl) as Hb.
  change (template_of "Raw Materials") with Settings.raw_materials_template
    in Hrender.
  rewrite (render_text _ d ps Hps) in Hrender
    by (rewrite Hnames; reflexivity).
  injection Hrender as <-.
  unfold ApprovalAgent.essential_sections. cbn [List.filter].
  rewrite !section_missing_text by (done || reflexivity).
  rewrite Ho, Hq, Ht, Hb, Hnames. cbn [orb negb].
  change (PyStr.lower "Requirements") with "requirements".
  by destruct (existsb _ raw_materials_fields).
Qed.

End ContentFacts.

Lemma generated_rfp_has_the_essential_sections_witness :
  let content :=
    text_of (drafted env_all_up hardware_draft)
      (default [] (pieces Settings.hardware_template)) in
  missing_sections (sample_rfp content) = [].
Proof.
  intros content.
  apply (generated_rfp_has_the_essential_sections env_all_up "Hardware"
           hardware_draft content (sample_rfp content)).
  - discriminate.
  - vm_compute. reflexivity.
  - reflexivity.
Defined.

Lemma raw_materials_rfp_lacks_requirements_witness :
  let content :=
    text_of (drafted env_all_up hardware_draft)
      (default [] (pieces Settings.raw_materials_template)) in
  missing_sections (sample_rfp content) = ["Requirements"].
Proof.
  intros content.
  etransitivity.
  - apply (raw_materials_rfp_lacks_requirements env_all_up hardware_draft
             content (sample_rfp content)).
    + vm_compute. reflexivity.
    + reflexivity.
  - vm_compute. reflexivity.
Defined.

Section MatcherFailure.
Import Re.
Context {A : Type}.
Variable Q : string -> Prop.
Hypothesis Q_tail : forall c s, Q (String c s) -> Q s.

Lemma Q_drop n s : Q s -> Q (PyStr.drop n s).
Proof.
  revert s. induction n as [|n IH]; intros s HQ; [done|].
  destruct s as [|c s]; [done|]. cbn [PyStr.drop]. apply IH. by eapply Q_tail.
Qed.

Lemma Q_uncons s x s' : PyStr.uncons s = Some (x, s') -> Q s -> Q s'.
Proof. intros [n ->]%uncons_drop HQ. by apply Q_drop. Qed.

Lemma greedy_loop_none (body : mstate -> (mstate -> option A) -> option A) :
  (forall st k, Q (rest st) ->
     (forall st', Q (rest st') -> k st' = None) -> body st k = None) ->
  forall n st k,
    Q (rest st) ->
    (forall st', Q (rest st') -> k st' = None) ->
    greedy_loop body n st k = None.
Proof.
  intros Hbody. induction n as [|n IH]; intros st k HQ Hk; cbn [greedy_loop].
  - by apply Hk.
  - rewrite Hbody; [by apply Hk | done |].
    intros st' HQ'. destruct (_ <? _)%nat; [by apply IH | done].
Qed.

Lemma lazy_loop_none (body : mstate -> (mstate -> option A) -> option A) :
  (forall st k, Q (rest st) ->
     (forall st', Q (rest st') -> k st' = None) -> body st k = None) ->
  forall n st k,
    Q (rest st) ->
    (forall st', Q (rest st') -> k st' = None) ->
    lazy_loop body n st k = None.
Proof.
  intros Hbody. induction n as [|n IH]; intros st k HQ Hk; cbn [lazy_loop];
    rewrite (Hk st HQ); [done|].
  apply Hbody; [done|].
  intros st' HQ'. destruct (_ <? _)%nat; [by apply IH | done].
Qed.

(** A matcher calls its continuation on what is left of the subject only:
    when the continuation fails on every suffix of the subject, so does the
    match. *)
Lemma m_none r :
  forall st (k : mstate -> option A),
    Q (rest st) ->
    (forall st', Q (rest st') -> k st' = None) ->
    m r st k = None.
Proof.
  induction r as [c|p|r1 IH1 r2 IH2|r1 IH1 r2 IH2|r1 IH1|r1 IH1|r1 IH1|r1 IH1|r1 IH1];
    intros st k HQ Hk; cbn [m].
  - destruct (PyStr.uncons (rest st)) as [[x s']|] eqn:Hx; [|done].
    destruct (lit_matches c x); [|done]. apply Hk. by eapply Q_uncons.
  - destruct (PyStr.uncons (rest st)) as [[x s']|] eqn:Hx; [|done].
    destruct (p x); [|done]. apply Hk. by eapply Q_uncons.
  - apply IH1; [done|]. intros st' HQ'. by apply IH2.
  - by rewrite IH1, IH2.
  - rewrite IH1 by done. by apply Hk.
  - by apply greedy_loop_none.
  - apply IH1; [done|]. intros st' HQ'. by apply greedy_loop_none.
  - by apply lazy_loop_none.
  - apply IH1; [done|]. intros st' HQ'. by apply Hk.
Qed.

End MatcherFailure.

Section MatcherNeverReaches.
Import Re.
Context {A B : Type}.

Lemma greedy_loop_fails
    (body1 : mstate -> (mstate -> option A) -> option A)
    (body2 : mstate -> (mstate -> option B) -> option B) :
  (forall s g g' (k1 : mstate -> option A) (k2 : mstate -> option B),
     never_beyond k1 k2 ->
     body1 (MState s g) k1 = None -> body2 (MState s g') k2 = None) ->
  forall n s g g' (k1 : mstate -> option A) (k2 : mstate -> option B),
    never_beyond k1 k2 ->
    greedy_loop body1 n (MState s g) k1 = None ->
    greedy_loop body2 n (MState s g') k2 = None.
Proof.
  intros Hbody. induction n as [|n IH]; intros s g g' k1 k2 Hk;
    cbn [greedy_loop]; [by apply Hk|].
  destruct (body1 (MState s g) _) eqn:H1; [done|]. intros H0.
  erewrite Hbody; [by eapply Hk | | exact H1].
  intros s' g1 g1'. cbn [rest].
  destruct (_ <? _)%nat; [by apply IH | done].
Qed.

Lemma lazy_loop_fails
    (body1 : mstate -> (mstate -> option A) -> option A)
    (body2 : mstate -> (mstate -> option B) -> option B) :
  (forall s g g' (k1 : mstate -> option A) (k2 : mstate -> option B),
     never_beyond k1 k2 ->
     body1 (MState s g) k1 = None -> body2 (MState s g') k2 = None) ->
  forall n s g g' (k1 : mstate -> option A) (k2 : mstate -> option B),
    never_beyond k1 k2 ->
    lazy_loop body1 n (MState s g) k1 = None ->
    lazy_loop body2 n (MState s g') k2 = None.
Proof.
  intros Hbody. induction n as [|n IH]; intros s g g' k1 k2 Hk;
    cbn [lazy_loop]; destruct (k1 (MState s g)) eqn:H1; try done;
    rewrite (Hk s g g' H1); [done|].
  apply Hbody. intros s' g1 g1'. cbn [rest].
  destruct (_ <? _)%nat; [by apply IH | done].
Qed.

(** A match that fails although its continuation never does, fails with
    any continuation and any content of the group. *)
Lemma m_fails r :
  forall s g g' (k1 : mstate -> option A) (k2 : mstate -> option B),
    never_beyond k1 k2 ->
    m r (MState s g) k1 = None -> m r (MState s g') k2 = None.
Proof.
  induction r as [c|p|r1 IH1 r2 IH2|r1 IH1 r2 IH2|r1 IH1|r1 IH1|r1 IH1|r1 IH1|r1 IH1];
    intros s g g' k1 k2 Hk; cbn [m rest group1].
  - destruct (PyStr.uncons s) as [[x s']|]; [|done].
    destruct (lit_matches c x); [apply Hk | done].
  - destruct (PyStr.uncons s) as [[x s']|]; [|done].
    destruct (p x); [apply Hk | done].
  - apply IH1. intros s' g1 g1'. by apply IH2.
  - destruct (m r1 (MState s g) k1) eqn:H1; [done|]. intros H2.
    by rewrite (IH1 _ _ g' _ k2 Hk H1), (IH2 _ _ g' _ k2 Hk H2).
  - destruct (m r1 (MState s g) k1) eqn:H1; [done|]. intros H2.
    by rewrite (IH1 _ _ g' _ k2 Hk H1), (Hk _ _ g' H2).
  - apply greedy_loop_fails; [|done]. intros s0 g0 g0' k1' k2'. apply IH1.
  - apply IH1. intros s' g1 g1'.
    apply greedy_loop_fails; [|done]. intros s0 g0 g0' k1' k2'. apply IH1.
  - apply lazy_loop_fails; [|done]. intros s0 g0 g0' k1' k2'. apply IH1.
  - apply IH1. intros s' g1 g1'. cbn [rest]. apply Hk.
Qed.

End MatcherNeverReaches.

Section BudgetBlindSpot.
Import Re ApprovalAgent.

Lemma search_tail r c s : search r (String c s) = None -> search r s = None.
Proof. cbn [search]. by destruct (if at_character _ then _ else _). Qed.

Lemma no_currency_marker_tail c s :
  no_currency_marker (String c s) = true -> no_currency_marker s = true.
Proof.
  unfold no_currency_marker, found. cbn [PyStr.contains].
  rewrite !andb_true_iff, !negb_true_iff, !orb_false_iff.
  intros [[[_ H1] H2] H3]. split; [split; [done|]|].
  - destruct (search (lits "USD") (String c s)) eqn:H; [done|].
    by rewrite (search_tail _ _ _ H).
  - destruct (search (lits "dollars") (String c s)) eqn:H; [done|].
    by rewrite (search_tail _ _ _ H).
Qed.

(** A word that a search does not find in a text does not match at the
    head of the text. *)
Lemma m_lits_none {A : Type} c word s g (k : mstate -> option A) :
  found (String c word) s = false ->
  m (lits (String c word)) (MState s g) k = None.
Proof.
  unfold found. intros Hf.
  assert (Hlit : PyStr.uncons s = None ->
                 m (lits (String c word)) (MState s g) k = None).
  { intros Hx. destruct word; cbn [lits m rest]; by rewrite Hx. }
  destruct s as [|b s]; [by apply Hlit|].
  cbn [search at_character] in Hf.
  destruct (PyStr.continuation b) eqn:Hb.
  - apply Hlit. unfold PyStr.uncons, PyStr.continuation in *.
    apply andb_true_iff in Hb as [H1%N.leb_le H2%N.leb_le].
    destruct (N.ltb_spec (PyStr.code b) 128); [lia|].
    by destruct (N.ltb_spec (PyStr.code b) 192); [|lia].
  - cbn [negb] in Hf. unfold match_here in Hf.
    destruct (m (lits (String c word)) (MState (String b s) None) Some) eqn:Hm;
      [done|].
    by apply (m_fails _ _ None g Some k).
Qed.

Lemma pattern_dollar_none {A : Type} st (k : mstate -> option A) :
  no_currency_marker (rest st) = true -> m pattern_dollar st k = None.
Proof.
  unfold no_currency_marker.
  rewrite !andb_true_iff, !negb_true_iff. intros [[Hd _] _].
  unfold pattern_dollar. rewrite m_seq, m_lit_at.
  destruct (PyStr.uncons (rest st)) as [[x s']|] eqn:Hx; [|done].
  rewrite lit_matches_dollar.
  destruct (N.eqb_spec x 36) as [->|Hne]; [|done].
  destruct (rest st) as [|c s]; [done|].
  apply uncons_head in Hx as [(_ & Hc & _) | (_ & Hge)]; [|lia].
  assert (c = "$"%char) as -> by by apply code_inj.
  done.
Qed.

Lemma pattern_usd_none {A : Type} st (k : mstate -> option A) :
  no_currency_marker (rest st) = true -> m pattern_usd st k = None.
Proof.
  intros HQ. unfold pattern_usd. rewrite m_seq.
  apply (m_none (fun s => no_currency_marker s = true)
           no_currency_marker_tail); [done|].
  intros st1 HQ1. rewrite m_seq.
  apply (m_none (fun s => no_currency_marker s = true)
           no_currency_marker_tail); [done|].
  intros [s2 g2] HQ2. unfold no_currency_marker in HQ2. cbn [rest] in HQ2.
  rewrite !andb_true_iff, !negb_true_iff in HQ2.
  destruct HQ2 as [[_ Hu] Hw].
  rewrite m_alt, !m_lits_none; done.
Qed.

Lemma after_budget_none {A : Type} r st (k : mstate -> option A) :
  (forall st' (k' : mstate -> option A),
     no_currency_marker (rest st') = true -> m r st' k' = None) ->
  no_currency_marker (rest st) = true ->
  m (Seq (lits "budget") (Seq (LazyStar (Class dot)) r)) st k = None.
Proof.
  intros Hr HQ. rewrite m_seq.
  apply (m_none (fun s => no_currency_marker s = true)
           no_currency_marker_tail); [done|].
  intros st1 HQ1. rewrite m_seq.
  apply (m_none (fun s => no_currency_marker s = true)
           no_currency_marker_tail); [done|].
  intros st2 HQ2. by apply Hr.
Qed.

Lemma search_none r s :
  (forall st (k : mstate -> option mstate),
     no_currency_marker (rest st) = true -> m r st k = None) ->
  no_currency_marker s = true ->
  search r s = None.
Proof.
  intros Hr. induction s as [|c s IH]; intros HQ; cbn [search];
    unfold match_here; rewrite Hr by done.
  - by destruct (at_character EmptyString).
  - destruct (at_character (String c s)); apply IH;
      by eapply no_currency_marker_tail.
Qed.

(** X18. The budget rule sees amounts in dollars only: for a content
    with no dollar sign in which a search that ignores the case (as the
    patterns do, so that a long s counts as an s) finds neither USD nor
    dollars, [_extract_budget] gives 0.0 whatever figures the content
    states, so that the budget rule adds no issue and leaves the verdict of
    the model alone. *)
Theorem budget_without_currency_marker_is_zero rfp approval_result :
  no_currency_marker (rfp_content rfp) = true ->
  _extract_budget (rfp_content rfp) = PyFloat.zero
  /\ budget_part rfp = []
  /\ ar_issues (_apply_guardrails rfp approval_result)
     = ar_issues approval_result ++ map missing_issue (missing_sections rfp)
  /\ ar_approved (_apply_guardrails rfp approval_result)
     = ar_approved approval_result
       && bool_decide (missing_sections rfp = []).
Proof.
  intros HQ.
  assert (Hzero : _extract_budget (rfp_content rfp) = PyFloat.zero).
  { apply extract_with_no_match. intros q Hq.
    assert (Hsearch : search q (rfp_content rfp) = None).
    { apply search_none; [|done]. intros st k Hst.
      unfold budget_patterns in Hq.
      repeat (apply elem_of_cons in Hq as [->|Hq]);
        [ by apply pattern_dollar_none
        | by apply pattern_usd_none
        | apply after_budget_none; [|done]; intros; by apply pattern_dollar_none
        | apply after_budget_none; [|done]; intros; by apply pattern_usd_none
        | by apply elem_of_nil in Hq ]. }
    unfold findall. cbn [findall_from]. by rewrite Hsearch. }
  assert (Hpart : budget_part rfp = []) by (unfold budget_part; by rewrite Hzero).
  split; [done|]. split; [done|]. split.
  - by rewrite apply_guardrails_issues, Hpart.
  - rewrite apply_guardrails_approved, Hzero.
    change (PyFloat.gt_int PyFloat.zero Settings.MAX_BUDGET) with false.
    cbn [negb]. rewrite andb_true_r. f_equal.
    unfold missing_sections.
    destruct (forallb _ essential_sections) eqn:Hf.
    + apply forallb_filter_nil in Hf. by rewrite Hf, bool_decide_eq_true_2.
    + rewrite bool_decide_eq_false_2; [done|].
      intros Hnil. apply forallb_filter_nil in Hnil. congruence.
Qed.

End BudgetBlindSpot.

Lemma budget_without_currency_marker_is_zero_witness :
  let rfp :=
    sample_rfp "Overview, Requirements, Timeline. Budget: 5,000,000 EUR" in
  ApprovalAgent._extract_budget (rfp_content rfp) = PyFloat.zero
  /\ ar_approved (ApprovalAgent._apply_guardrails rfp (sample_approval true []))
     = true.
Proof.
  intros rfp.
  destruct (budget_without_currency_marker_is_zero rfp (sample_approval true []))
    as (Hzero & _ & _ & Happroved).
  - vm_compute. reflexivity.
  - split; [exact Hzero|]. rewrite Happroved. vm_compute. reflexivity.
Defined.

Section MailServiceExtras.
Variable env : Env.



End MailServiceExtras.

